(** * Azure DevOps MCP server: tool dispatch and formatting layer

    A shallow embedding of [server/src/azure-devops-client.ts] (the Backend
    Client) and of the three call sites of [server/src/index.ts] (the MCP
    CallTool handler, [POST /api/tools/:name] and [POST /api/chat]), with the
    properties proved about them.  The constructor of the Backend Client and
    the handlers of the frontend's chat page, which call the two HTTP
    endpoints, are embedded after the server.

    Modelling conventions.
    - JavaScript values are the type [JS]; an object lists its own
      properties in the order [Object.entries] enumerates them, with distinct
      keys.  Numbers are integers (ids, counts, page sizes); fractional and
      non-finite numbers are outside the model.  Strings are byte strings:
      [length] and [substring] agree with JavaScript on ASCII text.
    - Only own properties are read by [prop]; none of the property names the
      program reads is a prototype member other than [length].
    - A rejected promise or a [throw] is the [Throw] result; [await] chains
      are sequential composition in the monad [M], which threads the list of
      HTTP requests issued so far and consults the backend for each one.
    - The message of a TypeError raised by the engine follows V8 for reads
      of a property of undefined or null; for the call of a missing method
      it keeps the method name only.  Console output is not modelled. *)

From Stdlib Require Import String Ascii List ZArith NArith Bool Lia.
From Stdlib Require Import DecimalString.
Import ListNotations.
Open Scope string_scope.
Open Scope Z_scope.

(** ** JavaScript values *)

#[local] Set Warnings "-register-all".

Inductive JS : Type :=
| JUndef
| JNull
| JBool (b : bool)
| JNum (n : Z)
| JStr (s : string)
| JArr (items : list JS)
| JObj (props : list (string * JS)).

Definition nl : string := String (ascii_of_nat 10) EmptyString.

Definition string_of_Z (n : Z) : string := NilZero.string_of_int (Z.to_int n).

Definition strlen (s : string) : Z := Z.of_nat (String.length s).

(** [x ? a : b] and [!x] test truthiness: undefined, null, false, 0 and the
    empty string are falsy. *)
Definition truthy (v : JS) : bool :=
  match v with
  | JUndef | JNull => false
  | JBool b => b
  | JNum n => negb (n =? 0)
  | JStr s => negb (String.eqb s "")
  | JArr _ | JObj _ => true
  end.

Definition nullish (v : JS) : bool :=
  match v with JUndef | JNull => true | _ => false end.

(** [String(v)], the conversion a template literal applies to [${v}]. *)
Fixpoint toStr (v : JS) : string :=
  match v with
  | JUndef => "undefined"
  | JNull => "null"
  | JBool true => "true"
  | JBool false => "false"
  | JNum n => string_of_Z n
  | JStr s => s
  | JArr l =>
      String.concat ","
        (map (fun x => match x with JUndef | JNull => "" | _ => toStr x end) l)
  | JObj _ => "[object Object]"
  end.

(** [a || b] *)
Definition oror (a b : JS) : JS := if truthy a then a else b.

Fixpoint lookup (k : string) (l : list (string * JS)) : option JS :=
  match l with
  | [] => None
  | (k', v) :: r => if String.eqb k k' then Some v else lookup k r
  end.

(** Canonical array-index keys: "0", "1", "2", ... *)
Definition digit_of (c : ascii) : option N :=
  let n := N_of_ascii c in
  if ((48 <=? n) && (n <=? 57))%N then Some (n - 48)%N else None.

Fixpoint parse_digits (s : string) (acc : N) : option N :=
  match s with
  | EmptyString => Some acc
  | String c r =>
      match digit_of c with
      | Some d => parse_digits r (10 * acc + d)%N
      | None => None
      end
  end.

Definition index_of_key (k : string) : option nat :=
  match k with
  | EmptyString => None
  | _ =>
      match parse_digits k 0%N with
      | Some n =>
          if String.eqb (string_of_Z (Z.of_N n)) k then Some (N.to_nat n) else None
      | None => None
      end
  end.

Definition char_at (s : string) (i : nat) : JS :=
  match String.get i s with
  | Some c => JStr (String c EmptyString)
  | None => JUndef
  end.

(** Reading property [k] of a value that is neither undefined nor null. *)
Definition prop (v : JS) (k : string) : JS :=
  match v with
  | JObj l => match lookup k l with Some x => x | None => JUndef end
  | JArr l =>
      if String.eqb k "length" then JNum (Z.of_nat (List.length l))
      else match index_of_key k with
           | Some i => nth i l JUndef
           | None => JUndef
           end
  | JStr s =>
      if String.eqb k "length" then JNum (strlen s)
      else match index_of_key k with
           | Some i => char_at s i
           | None => JUndef
           end
  | _ => JUndef
  end.

(** ** Thrown values *)

Inductive JSError : Type :=
| Error (message : string)                          (* new Error(message) *)
| TypeError (message : string)                      (* raised by the engine *)
| AxiosError (message : string) (status : option Z) (* a rejected request *).

Definition message (e : JSError) : string :=
  match e with
  | Error m | TypeError m | AxiosError m _ => m
  end.

(** [error.response?.status] *)
Definition response_status (e : JSError) : option Z :=
  match e with
  | AxiosError _ st => st
  | _ => None
  end.

Definition is404 (e : JSError) : bool :=
  match response_status e with
  | Some st => st =? 404
  | None => false
  end.

Inductive Res (A : Type) : Type :=
| Ok (a : A)
| Throw (e : JSError).
Arguments Ok {A} a.
Arguments Throw {A} e.

Definition rbind {A B} (r : Res A) (k : A -> Res B) : Res B :=
  match r with
  | Ok a => k a
  | Throw e => Throw e
  end.

Definition rmap {A B} (f : A -> B) (r : Res A) : Res B :=
  rbind r (fun a => Ok (f a)).

Declare Scope res_scope.
Delimit Scope res_scope with res.
Notation "x <~ r ;; k" := (rbind r (fun x => k))
  (at level 61, r at next level, right associativity) : res_scope.
Open Scope res_scope.

Definition cannot_read (what k : string) : JSError :=
  TypeError ("Cannot read properties of " ++ what ++ " (reading '" ++ k ++ "')").

(** [v.k] and [v['k']] *)
Definition get (v : JS) (k : string) : Res JS :=
  match v with
  | JUndef => Throw (cannot_read "undefined" k)
  | JNull => Throw (cannot_read "null" k)
  | _ => Ok (prop v k)
  end.

(** [v?.k] and [v?.['k']] *)
Definition oget (v : JS) (k : string) : JS :=
  if nullish v then JUndef else prop v k.

(** [e.k] and [e?.k] after an expression that may itself have thrown. *)
Definition dot (e : Res JS) (k : string) : Res JS := v <~ e ;; get v k.
Definition odot (e : Res JS) (k : string) : Res JS := rmap (fun v => oget v k) e.

(** [e || d] where [d] is a literal. *)
Definition orElse (e : Res JS) (d : JS) : Res JS := rmap (fun v => oror v d) e.
Notation "e ||| d" := (orElse e d) (at level 50, left associativity) : res_scope.

(** [c ? a : b] with literal branches. *)
Definition ite (c : Res JS) (a b : string) : Res JS :=
  rmap (fun v => JStr (if truthy v then a else b)) c.

(** Template literals: the chunks are evaluated left to right. *)
Fixpoint tpl (parts : list (Res string)) : Res string :=
  match parts with
  | [] => Ok ""
  | p :: r => s <~ p ;; t <~ tpl r ;; Ok (s ++ t)
  end.

Definition T (s : string) : Res string := Ok s.
Definition V (e : Res JS) : Res string := rmap toStr e.

Fixpoint mapM {A B} (f : A -> Res B) (l : list A) : Res (list B) :=
  match l with
  | [] => Ok []
  | x :: r => y <~ f x ;; ys <~ mapM f r ;; Ok (y :: ys)
  end.

Definition not_a_function (what : string) : JSError :=
  TypeError (what ++ " is not a function").

(** [v.map(f)]: [v] must be an array. *)
Definition arrayMap {B} (v : JS) (f : JS -> Res B) : Res (list B) :=
  match v with
  | JUndef => Throw (cannot_read "undefined" "map")
  | JNull => Throw (cannot_read "null" "map")
  | JArr l => mapM f l
  | _ => Throw (not_a_function "map")
  end.

(** [v.map(row).join('\n')] *)
Definition rows (v : JS) (row : JS -> Res string) : Res string :=
  rmap (String.concat nl) (arrayMap v row).

(** [s.substring(0, n)] for a receiver already evaluated. *)
Definition substring0 (v : JS) (n : nat) : Res JS :=
  match v with
  | JUndef => Throw (cannot_read "undefined" "substring")
  | JNull => Throw (cannot_read "null" "substring")
  | JStr s => Ok (JStr (String.substring 0 n s))
  | _ => Throw (not_a_function "substring")
  end.

(** [v.length === 0] *)
Definition length_is_zero (v : JS) : Res bool :=
  rmap (fun n => match n with JNum 0 => true | _ => false end) (get v "length").

(** [Object.entries(v)] *)
Fixpoint indexed (i : nat) (l : list JS) : list (string * JS) :=
  match l with
  | [] => []
  | x :: r => (string_of_Z (Z.of_nat i), x) :: indexed (S i) r
  end.

Fixpoint chars (s : string) : list JS :=
  match s with
  | EmptyString => []
  | String c r => JStr (String c EmptyString) :: chars r
  end.

Definition entries (v : JS) : Res (list (string * JS)) :=
  match v with
  | JUndef | JNull => Throw (TypeError "Cannot convert undefined or null to object")
  | JObj l => Ok l
  | JArr l => Ok (indexed 0 l)
  | JStr s => Ok (indexed 0 (chars s))
  | _ => Ok []
  end.

(** [v.join(sep)] *)
Definition join (v : JS) (sep : string) : Res string :=
  match v with
  | JUndef => Throw (cannot_read "undefined" "join")
  | JNull => Throw (cannot_read "null" "join")
  | JArr l =>
      Ok (String.concat sep
            (map (fun x => match x with JUndef | JNull => "" | _ => toStr x end) l))
  | _ => Throw (not_a_function "join")
  end.

(** [v.toString()] *)
Definition toStringMethod (v : JS) : Res string :=
  match v with
  | JUndef => Throw (cannot_read "undefined" "toString")
  | JNull => Throw (cannot_read "null" "toString")
  | _ => Ok (toStr v)
  end.

(** [s.replace(pat, '')] with a string pattern: the first occurrence goes. *)
Definition replace_first (pat s : string) : string :=
  match String.index 0 pat s with
  | Some i =>
      String.substring 0 i s ++
      String.substring (i + String.length pat) (String.length s) s
  | None => s
  end.

Definition replaceMethod (v : JS) (pat : string) : Res JS :=
  match v with
  | JUndef => Throw (cannot_read "undefined" "replace")
  | JNull => Throw (cannot_read "null" "replace")
  | JStr s => Ok (JStr (replace_first pat s))
  | _ => Throw (not_a_function "replace")
  end.

(** Defining a property keeps the engine's enumeration order: array-index
    keys ascending first, then the other keys in order of creation. *)
Fixpoint define (l : list (string * JS)) (k : string) (v : JS) : list (string * JS) :=
  match l with
  | [] => [(k, v)]
  | (k', v') :: r =>
      if String.eqb k k' then (k, v) :: r
      else
        match index_of_key k, index_of_key k' with
        | Some i, Some i' =>
            if Nat.ltb i i'
            then if existsb (fun p => String.eqb k (fst p)) r
                 then (k', v') :: define r k v
                 else (k, v) :: (k', v') :: r
            else (k', v') :: define r k v
        | Some _, None =>
            if existsb (fun p => String.eqb k (fst p)) r
            then (k', v') :: define r k v
            else (k, v) :: (k', v') :: r
        | None, _ => (k', v') :: define r k v
        end
  end.

(** [{ ...target, ...v }] *)
Definition spread (target : list (string * JS)) (v : JS) : list (string * JS) :=
  match v with
  | JObj l => fold_left (fun acc p => define acc (fst p) (snd p)) l target
  | JArr l => fold_left (fun acc p => define acc (fst p) (snd p)) (indexed 0 l) target
  | JStr s => fold_left (fun acc p => define acc (fst p) (snd p)) (indexed 0 (chars s)) target
  | _ => target
  end.

(** ** Library encoders used when request URLs and headers are built *)

Definition hex_digit (n : N) : ascii :=
  if (n <? 10)%N then ascii_of_N (48 + n) else ascii_of_N (55 + n).

Definition percent (c : ascii) : string :=
  let n := N_of_ascii c in
  String "%" (String (hex_digit (n / 16)) (String (hex_digit (n mod 16)) EmptyString)).

Definition alnum (n : N) : bool :=
  ((48 <=? n) && (n <=? 57) || (65 <=? n) && (n <=? 90) || (97 <=? n) && (n <=? 122))%N.

(** [encodeURIComponent]: letters, digits and [- _ . ! ~ * ' ( )] stay. *)
Definition uri_unreserved (c : ascii) : bool :=
  let n := N_of_ascii c in
  alnum n || existsb (N.eqb n) [45; 95; 46; 33; 126; 42; 39; 40; 41]%N.

Fixpoint percent_encode (keep : ascii -> bool) (s : string) : string :=
  match s with
  | EmptyString => EmptyString
  | String c r =>
      (if keep c then String c EmptyString else percent c) ++ percent_encode keep r
  end.

Definition encodeURIComponent (v : JS) : string :=
  percent_encode uri_unreserved (toStr v).

(** [URLSearchParams.prototype.toString]: letters, digits and [* - . _]
    stay, a space becomes [+]. *)
Definition form_keep (c : ascii) : bool :=
  let n := N_of_ascii c in
  alnum n || existsb (N.eqb n) [42; 45; 46; 95]%N.

Fixpoint form_encode (s : string) : string :=
  match s with
  | EmptyString => EmptyString
  | String c r =>
      (if N.eqb (N_of_ascii c) 32 then "+"
       else if form_keep c then String c EmptyString else percent c)
      ++ form_encode r
  end.

Definition searchParams (ps : list (string * string)) : string :=
  String.concat "&" (map (fun p => form_encode (fst p) ++ "=" ++ form_encode (snd p)) ps).

(** [Buffer.from(s).toString('base64')] *)
Definition b64_char (n : N) : ascii :=
  if (n <? 26)%N then ascii_of_N (65 + n)
  else if (n <? 52)%N then ascii_of_N (71 + n)
  else if (n <? 62)%N then ascii_of_N (n - 4)
  else if (n =? 62)%N then "+"%char else "/"%char.

Fixpoint base64_bytes (l : list N) : string :=
  match l with
  | [] => EmptyString
  | [a] =>
      String (b64_char (a / 4))
        (String (b64_char ((a mod 4) * 16)) "==")
  | [a; b] =>
      String (b64_char (a / 4))
        (String (b64_char ((a mod 4) * 16 + b / 16))
           (String (b64_char ((b mod 16) * 4)) "="))
  | a :: b :: c :: r =>
      String (b64_char (a / 4))
        (String (b64_char ((a mod 4) * 16 + b / 16))
           (String (b64_char ((b mod 16) * 4 + c / 64))
              (String (b64_char (c mod 64)) (base64_bytes r))))
  end%N.

Definition base64 (s : string) : string :=
  base64_bytes (map N_of_ascii (list_ascii_of_string s)).

(** ** Requests, the backend and the monad of client code *)

Inductive Verb : Type := GET | POST | PATCH.

(** [this.axiosInstance] (base URL [https://dev.azure.com/<organization>],
    relative URLs), the bare [axios] import (absolute URLs only) or the
    OpenAI client of the chat endpoint. *)
Inductive Channel : Type := ViaInstance | ViaAxios | ViaOpenAI.

Record Request : Type := mkRequest {
  verb : Verb;
  channel : Channel;
  url : string;
  body : JS;                          (* JUndef when no body is sent *)
  headers : list (string * string)    (* the per-request headers *)
}.

Inductive Outcome : Type :=
| Resp (data : JS)                              (* resolved; [response.data] *)
| Reject (msg : string) (status : option Z)     (* rejected; status of error.response, if any *).

(** The backend answers a request knowing the requests made before it. *)
Definition Backend : Type := list Request -> Request -> Outcome.

Definition M (A : Type) : Type := Backend -> list Request -> Res A * list Request.

Definition ret {A} (a : A) : M A := fun _ tr => (Ok a, tr).

Definition throw {A} (e : JSError) : M A := fun _ tr => (Throw e, tr).

Definition bind {A B} (m : M A) (k : A -> M B) : M B :=
  fun be tr =>
    match m be tr with
    | (Ok a, tr') => k a be tr'
    | (Throw e, tr') => (Throw e, tr')
    end.

Definition lift {A} (r : Res A) : M A := fun _ tr => (r, tr).

(** [try { m } catch (error) { h error }] *)
Definition tryCatch {A} (m : M A) (h : JSError -> M A) : M A :=
  fun be tr =>
    match m be tr with
    | (Ok a, tr') => (Ok a, tr')
    | (Throw e, tr') => h e be tr'
    end.

Definition request (rq : Request) : M JS :=
  fun be tr =>
    (match be tr rq with
     | Resp d => Ok d
     | Reject m st => Throw (AxiosError m st)
     end, (tr ++ [rq])%list).

Declare Scope m_scope.
Delimit Scope m_scope with M.
Notation "x <- m ;; k" := (bind m (fun x => k))
  (at level 61, m at next level, right associativity) : m_scope.
Open Scope m_scope.

Definition result {A} (x : Res A * list Request) : Res A := fst x.
Definition calls {A} (x : Res A * list Request) : list Request := snd x.

(** ** The Backend Client ([AzureDevOpsClient]) *)

(** The connection context the constructor resolves from the environment. *)
Record Client : Type := mkClient {
  this_organization : string;
  this_project : string;
  this_pat : string
}.

Definition iget (u : string) : M JS :=
  request (mkRequest GET ViaInstance u JUndef []).

Definition ipost (u : string) (b : JS) (h : list (string * string)) : M JS :=
  request (mkRequest POST ViaInstance u b h).

Definition ipatch (u : string) (b : JS) (h : list (string * string)) : M JS :=
  request (mkRequest PATCH ViaInstance u b h).

(** A parameter default [p = d] applies to an undefined argument only. *)
Definition dflt (v d : JS) : JS :=
  match v with JUndef => d | _ => v end.

(** [a && b] *)
Definition andand (a b : JS) : JS := if truthy a then b else a.

(** [project || this.project] *)
Definition projOr (c : Client) (project : JS) : string :=
  toStr (oror project (JStr (this_project c))).

(** [catch (error) { if (error.response?.status === 404) return []; throw error; }] *)
Definition catch404 (m : M JS) : M JS :=
  tryCatch m (fun e => if is404 e then ret (JArr []) else throw e).

Definition json_patch : list (string * string) :=
  [("Content-Type", "application/json-patch+json")].

Definition getProjects (c : Client) : M JS :=
  data <- iget "/_apis/projects?api-version=7.1" ;;
  lift (get data "value").

Definition getWorkItems (c : Client) (ids : JS) : M JS :=
  none <- lift (length_is_zero ids) ;;
  if none then ret (JArr []) else
  idsString <- lift (join ids ",") ;;
  data <- iget ("/" ++ this_project c ++ "/_apis/wit/workitems?ids=" ++ idsString
                ++ "&api-version=7.1") ;;
  lift (get data "value").

(** [refs.map((wi: any) => wi.id)] *)
Definition idsOf (refs : JS) : Res JS :=
  rmap JArr (arrayMap refs (fun wi => get wi "id")).

Definition queryWorkItems (c : Client) (wiql : JS) : M JS :=
  data <- ipost ("/" ++ this_project c ++ "/_apis/wit/wiql?api-version=7.1")
                (JObj [("query", wiql)]) [] ;;
  workItemRefs <- lift (get data "workItems") ;;
  none <- lift (if negb (truthy workItemRefs) then Ok true
                else length_is_zero workItemRefs) ;;
  if none then ret (JArr []) else
  ids <- lift (idsOf workItemRefs) ;;
  getWorkItems c ids.

Definition getBuilds (c : Client) (definitionId top : JS) : M JS :=
  let top := dflt top (JNum 10) in
  let url := "/" ++ this_project c ++ "/_apis/build/builds?api-version=7.1&$top="
             ++ toStr top in
  let url := if truthy definitionId
             then url ++ "&definitions=" ++ toStr definitionId else url in
  data <- iget url ;;
  lift (get data "value").

Definition getReleases (c : Client) (top : JS) : M JS :=
  let top := dflt top (JNum 10) in
  data <- iget ("/" ++ this_project c ++ "/_apis/release/releases?api-version=7.1&$top="
                ++ toStr top) ;;
  lift (get data "value").

Definition getCurrentUser (c : Client) : M JS :=
  data <- iget "/_apis/connectionData" ;;
  lift (get data "authenticatedUser").

Definition patchOp (field : string) (value : JS) : JS :=
  JObj [("op", JStr "add"); ("path", JStr ("/fields/" ++ field)); ("value", value)].

Definition createWorkItem (c : Client) (workItemType title description additionalFields : JS)
  : M JS :=
  let url := "/" ++ this_project c ++ "/_apis/wit/workitems/$" ++ toStr workItemType
             ++ "?api-version=7.1" in
  let fields :=
    spread
      (spread [("System.Title", title)]
              (andand description (JObj [("System.Description", description)])))
      additionalFields in
  let patchDocument := map (fun p => patchOp (fst p) (snd p)) fields in
  ipost url (JArr patchDocument) json_patch.

Definition updateWorkItem (c : Client) (id fields comment : JS) : M JS :=
  let url := "/" ++ this_project c ++ "/_apis/wit/workitems/" ++ toStr id
             ++ "?api-version=7.1" in
  es <- lift (entries fields) ;;
  let patchDocument := map (fun p => patchOp (fst p) (snd p)) es in
  let patchDocument :=
    if truthy comment
    then (patchDocument ++ [patchOp "System.History" comment])%list
    else patchDocument in
  ipatch url (JArr patchDocument) json_patch.

Definition assignWorkItem (c : Client) (id assignee comment : JS) : M JS :=
  updateWorkItem c id (JObj [("System.AssignedTo", assignee)]) comment.

(** Repository methods *)

Definition getRepositories (c : Client) (project : JS) : M JS :=
  let proj := projOr c project in
  data <- iget ("/" ++ proj ++ "/_apis/git/repositories?api-version=7.1") ;;
  lift (get data "value").

Definition branchOfRef (ref : JS) : Res JS :=
  n <~ get ref "name" ;;
  name <~ replaceMethod n "refs/heads/" ;;
  objectId <~ get ref "objectId" ;;
  creator <~ get ref "creator" ;;
  Ok (JObj [("name", name); ("objectId", objectId); ("creator", creator)]).

Definition getBranches (c : Client) (repositoryId project : JS) : M JS :=
  let proj := projOr c project in
  data <- iget ("/" ++ proj ++ "/_apis/git/repositories/" ++ toStr repositoryId
                ++ "/refs?filter=heads&api-version=7.1") ;;
  value <- lift (get data "value") ;;
  lift (rmap JArr (arrayMap value branchOfRef)).

(** An object literal copying the listed properties of [o]. *)
Definition pick (o : JS) (ks : list string) : Res JS :=
  rmap JObj (mapM (fun k => rmap (pair k) (get o k)) ks).

Definition pullRequestFields : list string :=
  ["pullRequestId"; "repository"; "title"; "description"; "createdBy";
   "creationDate"; "status"; "sourceRefName"; "targetRefName"; "isDraft"].

Definition getPullRequests (c : Client) (repositoryId project top status : JS) : M JS :=
  let top := dflt top (JNum 100) in
  let status := dflt status (JStr "active") in
  let proj := projOr c project in
  let url := "/" ++ proj ++ "/_apis/git/pullrequests?api-version=7.1&$top=" ++ toStr top
             ++ "&searchCriteria.status=" ++ toStr status in
  let url := if truthy repositoryId
             then url ++ "&searchCriteria.repositoryId=" ++ toStr repositoryId
             else url in
  data <- iget url ;;
  value <- lift (get data "value") ;;
  lift (rmap JArr (arrayMap value (fun pr => pick pr pullRequestFields))).

Definition getPullRequestById (c : Client) (repositoryId pullRequestId project : JS) : M JS :=
  let proj := projOr c project in
  pr <- iget ("/" ++ proj ++ "/_apis/git/repositories/" ++ toStr repositoryId
              ++ "/pullrequests/" ++ toStr pullRequestId ++ "?api-version=7.1") ;;
  lift (pick pr pullRequestFields).

(** Search methods *)

Definition searchCode (c : Client) (searchText project repository top : JS) : M JS :=
  let top := dflt top (JNum 5) in
  let proj := oror project (JStr (this_project c)) in
  let url := "https://almsearch.dev.azure.com/" ++ this_organization c
             ++ "/_apis/search/codesearchresults?api-version=7.1" in
  let body := [("searchText", searchText); ("$top", top)] in
  let filters := [] in
  let filters := if truthy proj then define filters "Project" (JArr [proj]) else filters in
  let filters := if truthy repository
                 then define filters "Repository" (JArr [repository]) else filters in
  let body := match filters with
              | [] => body
              | _ => define body "filters" (JObj filters)
              end in
  data <- ipost url (JObj body) [] ;;
  lift (get data "results" ||| JArr []).

Definition searchWorkItems (c : Client) (searchText project top : JS) : M JS :=
  let top := dflt top (JNum 10) in
  let proj := oror project (JStr (this_project c)) in
  let url := "https://almsearch.dev.azure.com/" ++ this_organization c
             ++ "/_apis/search/workitemsearchresults?api-version=7.1" in
  let body := [("searchText", searchText); ("$top", top)] in
  let body := if truthy proj
              then define body "filters" (JObj [("System.TeamProject", JArr [proj])])
              else body in
  data <- ipost url (JObj body) [] ;;
  lift (get data "results" ||| JArr []).

(** Wiki methods *)

Definition getWikis (c : Client) (project : JS) : M JS :=
  let proj := projOr c project in
  data <- iget ("/" ++ proj ++ "/_apis/wiki/wikis?api-version=7.1") ;;
  lift (get data "value").

Definition getWikiPageContent (c : Client) (wikiIdentifier project path : JS) : M JS :=
  let path := dflt path (JStr "/") in
  let proj := projOr c project in
  let encodedPath := encodeURIComponent path in
  data <- iget ("/" ++ proj ++ "/_apis/wiki/wikis/" ++ toStr wikiIdentifier
                ++ "/pages?path=" ++ encodedPath
                ++ "&includeContent=true&api-version=7.1") ;;
  lift (get data "content").

(** Work methods *)

Definition getTeamIterations (c : Client) (project team : JS) : M JS :=
  data <- iget ("/" ++ toStr project ++ "/" ++ toStr team
                ++ "/_apis/work/teamsettings/iterations?api-version=7.1") ;;
  lift (get data "value").

(** Test Plan methods *)

Definition getTestPlans (c : Client) (project : JS) : M JS :=
  catch404
    (data <- iget ("/" ++ toStr project ++ "/_apis/test/plans?api-version=7.1") ;;
     lift (get data "value")).

(** Core methods *)

(** [if (v !== undefined) params.append(k, v.toString())] *)
Definition appendParam (k : string) (v : JS) (ps : list (string * string))
  : Res (list (string * string)) :=
  match v with
  | JUndef => Ok ps
  | _ => s <~ toStringMethod v ;; Ok (ps ++ [(k, s)])%list
  end.

Definition getTeams (c : Client) (project mine top skip : JS) : M JS :=
  let url := "/_apis/projects/" ++ toStr project ++ "/teams?api-version=7.1" in
  params <- lift (ps <~ appendParam "$mine" mine [] ;;
                  ps <~ appendParam "$top" top ps ;;
                  appendParam "$skip" skip ps) ;;
  let url := match params with
             | [] => url
             | _ => url ++ "&" ++ searchParams params
             end in
  data <- iget url ;;
  lift (get data "value").

Definition searchIdentities (c : Client) (searchFilter : JS) : M JS :=
  let url := "https://vssps.dev.azure.com/" ++ this_organization c ++ "/_apis/identities" in
  let params := searchParams [("api-version", "7.1"); ("searchFilter", "General");
                              ("filterValue", toStr searchFilter)] in
  let auth := base64 (":" ++ this_pat c) in
  request (mkRequest GET ViaAxios (url ++ "?" ++ params) JUndef
             [("Authorization", "Basic " ++ auth); ("Content-Type", "application/json")]).

(** Work Item Types *)

Definition getWorkItemTypes (c : Client) (project : JS) : M JS :=
  let proj := projOr c project in
  data <- iget ("/" ++ proj ++ "/_apis/wit/workitemtypes?api-version=7.1") ;;
  lift (get data "value").

(** Project Iterations (classification nodes); the console logging of the
    source is not part of the model. *)
Definition getIterations (c : Client) (project : JS) : M JS :=
  let proj := projOr c project in
  let url := "/" ++ proj
             ++ "/_apis/work/classificationnodes?structureGroup=Iterations&api-version=7.1" in
  catch404
    (data <- iget url ;;
     lift (get data "children" ||| JArr [])).

Definition getBuildDefinitions (c : Client) (project : JS) : M JS :=
  let proj := projOr c project in
  data <- iget ("/" ++ proj ++ "/_apis/build/definitions?api-version=7.1") ;;
  lift (get data "value").

Definition getReleaseDefinitions (c : Client) (project : JS) : M JS :=
  let proj := projOr c project in
  catch404
    (data <- iget ("/" ++ proj ++ "/_apis/release/definitions?api-version=7.1") ;;
     lift (get data "value")).

Definition getQueries (c : Client) (project : JS) : M JS :=
  let proj := projOr c project in
  data <- iget ("/" ++ proj ++ "/_apis/wit/queries?api-version=7.1") ;;
  lift (get data "value").

Definition getWorkItemRevisions (c : Client) (id project : JS) : M JS :=
  let proj := projOr c project in
  data <- iget ("/" ++ proj ++ "/_apis/wit/workitems/" ++ toStr id
                ++ "/revisions?api-version=7.1") ;;
  lift (get data "value").

Definition getWorkItemLinks (c : Client) (id project : JS) : M JS :=
  let proj := projOr c project in
  data <- iget ("/" ++ proj ++ "/_apis/wit/workitems/" ++ toStr id
                ++ "?$expand=relations&api-version=7.1") ;;
  lift (get data "relations" ||| JArr []).

Definition createPullRequest (c : Client)
  (repositoryId sourceBranch targetBranch title description project : JS) : M JS :=
  let proj := projOr c project in
  let url := "/" ++ proj ++ "/_apis/git/repositories/" ++ toStr repositoryId
             ++ "/pullrequests?api-version=7.1" in
  let body := JObj [("sourceRefName", JStr ("refs/heads/" ++ toStr sourceBranch));
                    ("targetRefName", JStr ("refs/heads/" ++ toStr targetBranch));
                    ("title", title);
                    ("description", description)] in
  ipost url body [].

Definition getCommits (c : Client) (repositoryId project top : JS) : M JS :=
  let top := dflt top (JNum 10) in
  let proj := projOr c project in
  data <- iget ("/" ++ proj ++ "/_apis/git/repositories/" ++ toStr repositoryId
                ++ "/commits?api-version=7.1&$top=" ++ toStr top) ;;
  lift (get data "value").

Definition getFileContent (c : Client) (repositoryId path project : JS) : M JS :=
  let proj := projOr c project in
  let encodedPath := encodeURIComponent path in
  iget ("/" ++ proj ++ "/_apis/git/repositories/" ++ toStr repositoryId
        ++ "/items?path=" ++ encodedPath ++ "&api-version=7.1").

Definition getAreas (c : Client) (project : JS) : M JS :=
  let proj := projOr c project in
  let url := "/" ++ proj
             ++ "/_apis/wit/classificationnodes?structureGroup=Areas&api-version=7.1" in
  catch404
    (data <- iget url ;;
     lift (get data "children" ||| JArr [])).

Definition getIterationCapacities (c : Client) (project team iterationId : JS) : M JS :=
  let url := "/" ++ toStr project ++ "/" ++ toStr team
             ++ "/_apis/work/teamsettings/iterations/" ++ toStr iterationId
             ++ "/capacities?api-version=7.1" in
  catch404
    (data <- iget url ;;
     lift (get data "value" ||| JArr [])).

Definition getWorkItemCategories (c : Client) (project : JS) : M JS :=
  let proj := projOr c project in
  let url := "/" ++ proj ++ "/_apis/wit/workitemtypecategories?api-version=7.1" in
  catch404
    (data <- iget url ;;
     lift (get data "value" ||| JArr [])).

Definition getDashboards (c : Client) (project : JS) : M JS :=
  let proj := projOr c project in
  let url := "/" ++ proj ++ "/_apis/dashboard/dashboards?api-version=7.1" in
  catch404
    (data <- iget url ;;
     lift (get data "value" ||| JArr [])).

Definition getPipelines (c : Client) (project : JS) : M JS :=
  let proj := projOr c project in
  let url := "/" ++ proj ++ "/_apis/pipelines?api-version=7.1" in
  catch404
    (data <- iget url ;;
     lift (get data "value" ||| JArr [])).

Definition getTestSuites (c : Client) (project planId : JS) : M JS :=
  let url := "/" ++ toStr project ++ "/_apis/test/plans/" ++ toStr planId
             ++ "/suites?api-version=7.1" in
  catch404
    (data <- iget url ;;
     lift (get data "value" ||| JArr [])).

Definition getVariableGroups (c : Client) (project : JS) : M JS :=
  let proj := projOr c project in
  let url := "/" ++ proj ++ "/_apis/distributedtask/variablegroups?api-version=7.1" in
  catch404
    (data <- iget url ;;
     lift (get data "value" ||| JArr [])).

Definition getServiceEndpoints (c : Client) (project : JS) : M JS :=
  let proj := projOr c project in
  let url := "/" ++ proj ++ "/_apis/serviceendpoint/endpoints?api-version=7.1" in
  catch404
    (data <- iget url ;;
     lift (get data "value" ||| JArr [])).

Definition getTags (c : Client) (project : JS) : M JS :=
  let proj := projOr c project in
  let url := "/" ++ proj ++ "/_apis/tagging/scopes/" ++ proj ++ "/tags?api-version=7.1" in
  catch404
    (data <- iget url ;;
     lift (get data "value" ||| JArr [])).

Definition getTeamMembers (c : Client) (project team : JS) : M JS :=
  let url := "/_apis/projects/" ++ toStr project ++ "/teams/" ++ toStr team
             ++ "/members?api-version=7.1" in
  catch404
    (data <- iget url ;;
     lift (get data "value" ||| JArr [])).

Definition getBoards (c : Client) (project team : JS) : M JS :=
  let url := "/" ++ toStr project ++ "/" ++ toStr team
             ++ "/_apis/work/boards?api-version=7.1" in
  catch404
    (data <- iget url ;;
     lift (get data "value" ||| JArr [])).

Definition getBoardColumns (c : Client) (project team board : JS) : M JS :=
  let url := "/" ++ toStr project ++ "/" ++ toStr team ++ "/_apis/work/boards/"
             ++ toStr board ++ "/columns?api-version=7.1" in
  catch404
    (data <- iget url ;;
     lift (get data "value" ||| JArr [])).

Definition getBoardRows (c : Client) (project team board : JS) : M JS :=
  let url := "/" ++ toStr project ++ "/" ++ toStr team ++ "/_apis/work/boards/"
             ++ toStr board ++ "/rows?api-version=7.1" in
  catch404
    (data <- iget url ;;
     lift (get data "value" ||| JArr [])).

Definition getWorkItemStates (c : Client) (project workItemType : JS) : M JS :=
  let url := "/" ++ toStr project ++ "/_apis/wit/workitemtypes/" ++ toStr workItemType
             ++ "/states?api-version=7.1" in
  catch404
    (data <- iget url ;;
     lift (get data "value" ||| JArr [])).

Definition getWorkItemFields (c : Client) (project : JS) : M JS :=
  let proj := projOr c project in
  let url := "/" ++ proj ++ "/_apis/wit/fields?api-version=7.1" in
  catch404
    (data <- iget url ;;
     lift (get data "value" ||| JArr [])).

Definition getWorkItemUpdates (c : Client) (id project : JS) : M JS :=
  let proj := projOr c project in
  let url := "/" ++ proj ++ "/_apis/wit/workitems/" ++ toStr id
             ++ "/updates?api-version=7.1" in
  catch404
    (data <- iget url ;;
     lift (get data "value" ||| JArr [])).

Definition getWorkItemAttachments (c : Client) (id project : JS) : M JS :=
  let proj := projOr c project in
  let url := "/" ++ proj ++ "/_apis/wit/attachments?artifactId=" ++ toStr id
             ++ "&api-version=7.1" in
  catch404
    (data <- iget url ;;
     lift (get data "value" ||| JArr [])).

Definition getWorkItemComments (c : Client) (id project : JS) : M JS :=
  let proj := projOr c project in
  let url := "/" ++ proj ++ "/_apis/wit/workitems/" ++ toStr id
             ++ "/comments?api-version=7.1-preview.1" in
  catch404
    (data <- iget url ;;
     lift (get data "comments" ||| JArr [])).

Definition getWorkItemRelations (c : Client) (id project : JS) : M JS :=
  let proj := projOr c project in
  let url := "/" ++ proj ++ "/_apis/wit/workitems/" ++ toStr id
             ++ "?$expand=relations&api-version=7.1" in
  catch404
    (data <- iget url ;;
     lift (get data "relations" ||| JArr [])).

(** Run a saved query.  The batch fetch is returned, not awaited, inside the
    [try] block: its rejection settles the method's promise after the block
    has been left, so the [catch] clause guards the first request and the
    synchronous part only. *)
Definition getQueryResults (c : Client) (project queryId : JS) : M JS :=
  let url := "/" ++ toStr project ++ "/_apis/wit/queries/" ++ toStr queryId
             ++ "?$expand=results&api-version=7.1" in
  pending <-
    tryCatch
      (data <- iget url ;;
       results <- lift (get data "results") ;;
       if truthy results && truthy (prop results "workItems")
       then ids <- lift (idsOf (prop results "workItems")) ;; ret (Some ids)
       else ret None)
      (fun e => if is404 e then ret None else throw e) ;;
  match pending with
  | Some ids => getWorkItems c ids
  | None => ret (JArr [])
  end.

(** ** The tool registry ([tools])

    Each descriptor keeps its name, its parameters in schema order (name,
    JSON type, declared default) and the [required] list; the free-text
    descriptions are left out. *)

Record Param : Type := mkParam {
  pname : string;
  ptype : string;
  pdefault : option JS
}.

Record Tool : Type := mkTool {
  name : string;
  properties : list Param;
  required : list string
}.

Definition P (n ty : string) : Param := mkParam n ty None.
Definition PD (n ty : string) (d : JS) : Param := mkParam n ty (Some d).

Definition tools : list Tool := [
  mkTool "list_projects"
    []
    [];
  mkTool "list_project_teams"
    [P "project" "string"; P "mine" "boolean"; P "top" "number"; P "skip" "number"]
    ["project"];
  mkTool "get_identity_ids"
    [P "searchFilter" "string"]
    ["searchFilter"];
  mkTool "query_work_items"
    [P "wiql" "string"]
    ["wiql"];
  mkTool "get_work_items_by_ids"
    [P "ids" "array"]
    ["ids"];
  mkTool "get_builds"
    [P "definitionId" "number"; PD "top" "number" (JNum 10)]
    [];
  mkTool "get_releases"
    [PD "top" "number" (JNum 10)]
    [];
  mkTool "create_work_item"
    [P "workItemType" "string"; P "title" "string"; P "description" "string"; P "additionalFields" "object"]
    ["workItemType"; "title"];
  mkTool "update_work_item"
    [P "id" "number"; P "fields" "object"; P "comment" "string"]
    ["id"; "fields"];
  mkTool "assign_work_item"
    [P "id" "number"; P "assignee" "string"; P "comment" "string"]
    ["id"; "assignee"];
  mkTool "list_repositories"
    [P "project" "string"]
    [];
  mkTool "list_branches"
    [P "repositoryId" "string"; P "project" "string"]
    ["repositoryId"];
  mkTool "list_pull_requests"
    [P "repositoryId" "string"; P "project" "string"; PD "top" "number" (JNum 100); PD "status" "string" (JStr "active")]
    [];
  mkTool "get_pull_request"
    [P "repositoryId" "string"; P "pullRequestId" "number"; P "project" "string"]
    ["repositoryId"; "pullRequestId"];
  mkTool "search_code"
    [P "searchText" "string"; P "project" "string"; P "repository" "string"; PD "top" "number" (JNum 5)]
    ["searchText"];
  mkTool "search_work_items"
    [P "searchText" "string"; P "project" "string"; PD "top" "number" (JNum 10)]
    ["searchText"];
  mkTool "list_wikis"
    [P "project" "string"]
    [];
  mkTool "get_wiki_page"
    [P "wikiIdentifier" "string"; P "project" "string"; PD "path" "string" (JStr "/")]
    ["wikiIdentifier"];
  mkTool "list_team_iterations"
    [P "project" "string"; P "team" "string"]
    ["project"; "team"];
  mkTool "list_test_plans"
    [P "project" "string"]
    ["project"];
  mkTool "get_current_user"
    []
    [];
  mkTool "list_work_item_types"
    [P "project" "string"]
    [];
  mkTool "list_iterations"
    [P "project" "string"]
    [];
  mkTool "list_build_definitions"
    [P "project" "string"]
    [];
  mkTool "list_release_definitions"
    [P "project" "string"]
    [];
  mkTool "list_queries"
    [P "project" "string"]
    [];
  mkTool "get_work_item_revisions"
    [P "id" "number"; P "project" "string"]
    ["id"];
  mkTool "get_work_item_links"
    [P "id" "number"; P "project" "string"]
    ["id"];
  mkTool "create_pull_request"
    [P "repositoryId" "string"; P "sourceBranch" "string"; P "targetBranch" "string"; P "title" "string"; P "description" "string"; P "project" "string"]
    ["repositoryId"; "sourceBranch"; "targetBranch"; "title"];
  mkTool "list_commits"
    [P "repositoryId" "string"; P "project" "string"; PD "top" "number" (JNum 10)]
    ["repositoryId"];
  mkTool "get_file_content"
    [P "repositoryId" "string"; P "path" "string"; P "project" "string"]
    ["repositoryId"; "path"];
  mkTool "list_areas"
    [P "project" "string"]
    [];
  mkTool "list_iteration_capacities"
    [P "project" "string"; P "team" "string"; P "iterationId" "string"]
    ["project"; "team"; "iterationId"];
  mkTool "list_work_item_categories"
    [P "project" "string"]
    [];
  mkTool "list_dashboards"
    [P "project" "string"]
    [];
  mkTool "list_pipelines"
    [P "project" "string"]
    [];
  mkTool "list_test_suites"
    [P "project" "string"; P "planId" "number"]
    ["project"; "planId"];
  mkTool "list_variable_groups"
    [P "project" "string"]
    [];
  mkTool "list_service_endpoints"
    [P "project" "string"]
    [];
  mkTool "list_tags"
    [P "project" "string"]
    [];
  mkTool "list_team_members"
    [P "project" "string"; P "team" "string"]
    ["project"; "team"];
  mkTool "list_boards"
    [P "project" "string"; P "team" "string"]
    ["project"; "team"];
  mkTool "list_board_columns"
    [P "project" "string"; P "team" "string"; P "board" "string"]
    ["project"; "team"; "board"];
  mkTool "list_board_rows"
    [P "project" "string"; P "team" "string"; P "board" "string"]
    ["project"; "team"; "board"];
  mkTool "list_work_item_states"
    [P "project" "string"; P "workItemType" "string"]
    ["project"; "workItemType"];
  mkTool "list_work_item_fields"
    [P "project" "string"]
    [];
  mkTool "list_work_item_updates"
    [P "id" "number"; P "project" "string"]
    ["id"];
  mkTool "list_work_item_attachments"
    [P "id" "number"; P "project" "string"]
    ["id"];
  mkTool "list_work_item_comments"
    [P "id" "number"; P "project" "string"]
    ["id"];
  mkTool "list_work_item_relations"
    [P "id" "number"; P "project" "string"]
    ["id"];
  mkTool "list_work_item_query_results"
    [P "project" "string"; P "queryId" "string"]
    ["project"; "queryId"]
].

(** ** Formatting combinators shared by the call sites *)

(** [e.substring(0, n)] and [e?.substring(0, n)] *)
Definition substr (e : Res JS) (n : nat) : Res JS := v <~ e ;; substring0 v n.

Definition osubstr (e : Res JS) (n : nat) : Res JS :=
  v <~ e ;; if nullish v then Ok JUndef else substring0 v n.

(** [e?.map(f).join(sep)] *)
Definition omapJoin (e : Res JS) (f : JS -> Res JS) (sep : string) : Res JS :=
  v <~ e ;;
  if nullish v then Ok JUndef
  else l <~ arrayMap v f ;; rmap JStr (join (JArr l) sep).

(** [`## ${title} (${items.length})\n${header}\n${rule}\n${table}`] *)
Definition tableOf (items : JS) (title header rule : string) (row : JS -> Res string)
  : Res string :=
  table <~ rows items row ;;
  tpl [T "## "; T title; T " ("; V (get items "length"); T ")"; T nl;
       T header; T nl; T rule; T nl; T table].

(** [if (items.length === 0) <emptyMsg> else <table>] *)
Definition formatList (items : JS) (emptyMsg title header rule : string)
  (row : JS -> Res string) : Res string :=
  none <~ length_is_zero items ;;
  if none then Ok emptyMsg else tableOf items title header rule row.

(** [if (!items || items.length === 0) <emptyMsg> else <table>] *)
Definition formatListOrNone (items : JS) (emptyMsg title header rule : string)
  (row : JS -> Res string) : Res string :=
  none <~ (if negb (truthy items) then Ok true else length_is_zero items) ;;
  if none then Ok emptyMsg else tableOf items title header rule row.

(** [${v ? `${label}${v}` : ''}] *)
Definition optLine (label : string) (v : JS) : Res string :=
  if truthy v then tpl [T label; V (Ok v)] else T "".

(** [Object.entries(fields).map(([key, val]) => `- **${key}**: ${val}`).join('\n')] *)
Definition fieldListOf (fields : JS) : Res string :=
  es <~ entries fields ;;
  Ok (String.concat nl (map (fun p => "- **" ++ fst p ++ "**: " ++ toStr (snd p)) es)).

(** ** Tables of the MCP CallTool handler, one per list-shaped case *)

Module McpTables.

Definition row_list_projects (p : JS) : Res string :=
  tpl [T "| "; V (get p "id"); T " | "; V (get p "name"); T " | ";
       V (get p "description" ||| JStr ""); T " | "; V (get p "url"); T " |"].

Definition format_list_projects (projects : JS) : Res string :=
  formatList projects "No projects found."
    "Projects"
    "| ID | Name | Description | URL |"
    "|----|------|-------------|-----|"
    row_list_projects.

Definition row_query_work_items (wi : JS) : Res string :=
  fields <~ get wi "fields" ;;
  tpl [T "| "; V (get wi "id"); T " | "; V (get fields "System.Title" ||| JStr ""); T " | ";
       V (get fields "System.State" ||| JStr ""); T " | ";
       V (odot (get fields "System.AssignedTo") "displayName" ||| JStr ""); T " | ";
       V (get fields "System.WorkItemType" ||| JStr ""); T " |"].

Definition format_query_work_items (workItems : JS) : Res string :=
  formatList workItems "No work items match the query."
    "Work Items"
    "| ID | Title | State | Assigned To | Type |"
    "|----|-------|-------|-------------|------|"
    row_query_work_items.

Definition row_get_work_items_by_ids (wi : JS) : Res string :=
  fields <~ get wi "fields" ;;
  tpl [T "| "; V (get wi "id"); T " | "; V (get fields "System.Title" ||| JStr ""); T " | ";
       V (get fields "System.State" ||| JStr ""); T " | ";
       V (odot (get fields "System.AssignedTo") "displayName" ||| JStr ""); T " | ";
       V (get fields "System.WorkItemType" ||| JStr ""); T " |"].

Definition format_get_work_items_by_ids (workItems : JS) : Res string :=
  formatList workItems "No work items found with those IDs."
    "Work Items"
    "| ID | Title | State | Assigned To | Type |"
    "|----|-------|-------|-------------|------|"
    row_get_work_items_by_ids.

Definition row_get_builds (b : JS) : Res string :=
  tpl [T "| "; V (get b "id"); T " | "; V (get b "buildNumber"); T " | "; V (get b "status");
       T " | "; V (get b "result"); T " | "; V (get b "queueTime"); T " | ";
       V (get b "sourceBranch"); T " |"].

Definition format_get_builds (builds : JS) : Res string :=
  formatList builds "No builds found."
    "Builds"
    "| ID | Build Number | Status | Result | Queue Time | Branch |"
    "|----|--------------|--------|--------|------------|--------|"
    row_get_builds.

Definition row_get_releases (r : JS) : Res string :=
  tpl [T "| "; V (get r "id"); T " | "; V (get r "name"); T " | "; V (get r "status");
       T " | "; V (get r "createdOn"); T " | "; V (get r "modifiedOn"); T " |"].

Definition format_get_releases (releases : JS) : Res string :=
  formatList releases "No releases found."
    "Releases"
    "| ID | Name | Status | Created | Modified |"
    "|----|------|--------|---------|----------|"
    row_get_releases.

Definition row_list_repositories (r : JS) : Res string :=
  tpl [T "| "; V (get r "id"); T " | "; V (get r "name"); T " | ";
       V (ite (get r "isDisabled") "Disabled" "Active"); T " | ";
       V (ite (get r "isFork") "Fork" "No"); T " | "; V (get r "webUrl"); T " |"].

Definition format_list_repositories (repos : JS) : Res string :=
  formatList repos "No repositories found."
    "Repositories"
    "| ID | Name | Status | Fork | URL |"
    "|----|------|--------|------|-----|"
    row_list_repositories.

Definition row_list_branches (b : JS) : Res string :=
  tpl [T "| "; V (get b "name"); T " | "; V (substr (get b "objectId") 8); T " | ";
       V (odot (get b "creator") "displayName" ||| JStr ""); T " |"].

Definition format_list_branches (branches : JS) : Res string :=
  formatList branches "No branches found."
    "Branches"
    "| Name | Commit | Creator |"
    "|------|--------|---------|"
    row_list_branches.

Definition row_list_pull_requests (pr : JS) : Res string :=
  tpl [T "| "; V (get pr "pullRequestId"); T " | "; V (get pr "title"); T " | ";
       V (get pr "status"); T " | "; V (dot (get pr "createdBy") "displayName"); T " | ";
       V (get pr "creationDate"); T " |"].

Definition format_list_pull_requests (prs : JS) : Res string :=
  formatList prs "No pull requests found."
    "Pull Requests"
    "| ID | Title | Status | Created By | Created |"
    "|----|-------|--------|------------|---------|"
    row_list_pull_requests.

Definition row_search_code (r : JS) : Res string :=
  tpl [T "| "; V (odot (get r "project") "name" ||| JStr ""); T " | ";
       V (odot (get r "repository") "name" ||| JStr ""); T " | ";
       V (get r "path" ||| JStr ""); T " | ";
       V (odot (get r "matches") "length" ||| JNum 0); T " matches |"].

Definition format_search_code (results : JS) : Res string :=
  formatList results "No code search results found."
    "Code Search Results"
    "| Project | Repository | Path | Matches |"
    "|---------|------------|------|---------|"
    row_search_code.

Definition row_search_work_items (r : JS) : Res string :=
  tpl [T "| "; V (odot (get r "fields") "System.Id" ||| JStr ""); T " | ";
       V (odot (get r "fields") "System.Title" ||| JStr ""); T " | ";
       V (odot (get r "fields") "System.State" ||| JStr ""); T " | ";
       V (odot (get r "fields") "System.WorkItemType" ||| JStr ""); T " |"].

Definition format_search_work_items (results : JS) : Res string :=
  formatList results "No work item search results found."
    "Work Item Search Results"
    "| ID | Title | State | Type |"
    "|----|-------|-------|------|"
    row_search_work_items.

Definition row_list_wikis (w : JS) : Res string :=
  tpl [T "| "; V (get w "id"); T " | "; V (get w "name"); T " | "; V (get w "type"); T " | ";
       V (get w "projectId"); T " |"].

Definition format_list_wikis (wikis : JS) : Res string :=
  formatList wikis "No wikis found."
    "Wikis"
    "| ID | Name | Type | Project ID |"
    "|----|------|------|------------|"
    row_list_wikis.

Definition row_list_team_iterations (i : JS) : Res string :=
  tpl [T "| "; V (get i "id"); T " | "; V (get i "name"); T " | "; V (get i "path"); T " | ";
       V (dot (get i "attributes") "startDate" ||| JStr ""); T " - ";
       V (dot (get i "attributes") "finishDate" ||| JStr ""); T " |"].

Definition format_list_team_iterations (iterations : JS) : Res string :=
  formatList iterations "No iterations found for this team."
    "Iterations"
    "| ID | Name | Path | Dates |"
    "|----|------|------|-------|"
    row_list_team_iterations.

Definition row_list_test_plans (tp : JS) : Res string :=
  tpl [T "| "; V (get tp "id"); T " | "; V (get tp "name"); T " | ";
       V (get tp "description" ||| JStr ""); T " | "; V (get tp "areaPath" ||| JStr "");
       T " | "; V (get tp "iteration" ||| JStr ""); T " |"].

Definition format_list_test_plans (testPlans : JS) : Res string :=
  formatList testPlans "No test plans found."
    "Test Plans"
    "| ID | Name | Description | Area Path | Iteration |"
    "|----|------|-------------|-----------|-----------|"
    row_list_test_plans.

Definition row_list_project_teams (t : JS) : Res string :=
  tpl [T "| "; V (get t "id"); T " | "; V (get t "name"); T " | ";
       V (get t "description" ||| JStr ""); T " | "; V (get t "projectName" ||| JStr "");
       T " |"].

Definition format_list_project_teams (teams : JS) : Res string :=
  formatList teams "No teams found."
    "Teams"
    "| ID | Name | Description | Project |"
    "|----|------|-------------|---------|"
    row_list_project_teams.

Definition row_get_identity_ids (id : JS) : Res string :=
  tpl [T "| "; V (get id "localId"); T " | "; V (get id "displayName"); T " | ";
       V (get id "uniqueName"); T " | "; V (get id "subjectDescriptor"); T " |"].

Definition format_get_identity_ids (identities : JS) : Res string :=
  formatListOrNone identities "No identities found."
    "Identities"
    "| Local ID | Display Name | Unique Name | Subject Descriptor |"
    "|----------|--------------|-------------|-------------------|"
    row_get_identity_ids.

Definition row_list_work_item_types (t : JS) : Res string :=
  tpl [T "| "; V (get t "name"); T " | "; V (get t "referenceName"); T " | ";
       V (get t "description" ||| JStr ""); T " |"].

Definition format_list_work_item_types (types : JS) : Res string :=
  formatList types "No work item types found."
    "Work Item Types"
    "| Name | Reference Name | Description |"
    "|------|----------------|-------------|"
    row_list_work_item_types.

Definition row_list_iterations (i : JS) : Res string :=
  tpl [T "| "; V (get i "id"); T " | "; V (get i "name"); T " | "; V (get i "path"); T " | ";
       V (odot (get i "attributes") "startDate" ||| JStr ""); T " - ";
       V (odot (get i "attributes") "finishDate" ||| JStr ""); T " |"].

Definition format_list_iterations (iterations : JS) : Res string :=
  formatList iterations "No iterations found."
    "Iterations"
    "| ID | Name | Path | Dates |"
    "|----|------|------|-------|"
    row_list_iterations.

Definition row_list_build_definitions (d : JS) : Res string :=
  tpl [T "| "; V (get d "id"); T " | "; V (get d "name"); T " | ";
       V (get d "path" ||| JStr ""); T " | "; V (get d "queueStatus" ||| JStr ""); T " |"].

Definition format_list_build_definitions (definitions : JS) : Res string :=
  formatList definitions "No build definitions found."
    "Build Definitions"
    "| ID | Name | Path | Queue Status |"
    "|----|------|------|-------------|"
    row_list_build_definitions.

Definition row_list_release_definitions (d : JS) : Res string :=
  tpl [T "| "; V (get d "id"); T " | "; V (get d "name"); T " | ";
       V (get d "path" ||| JStr ""); T " | "; V (get d "releaseNameFormat" ||| JStr "");
       T " |"].

Definition format_list_release_definitions (definitions : JS) : Res string :=
  formatList definitions "No release definitions found."
    "Release Definitions"
    "| ID | Name | Path | Release Name Format |"
    "|----|------|------|-------------------|"
    row_list_release_definitions.

Definition row_list_queries (q : JS) : Res string :=
  tpl [T "| "; V (get q "id"); T " | "; V (get q "name"); T " | ";
       V (get q "path" ||| JStr ""); T " | "; V (ite (get q "isFolder") "Folder" "Query");
       T " |"].

Definition format_list_queries (queries : JS) : Res string :=
  formatList queries "No queries found."
    "Queries"
    "| ID | Name | Path | Type |"
    "|----|------|------|------|"
    row_list_queries.

Definition row_get_work_item_revisions (r : JS) : Res string :=
  tpl [T "| "; V (get r "rev"); T " | ";
       V (odot (get r "fields") "System.ChangedDate" ||| JStr ""); T " | ";
       V (odot (odot (get r "fields") "System.ChangedBy") "displayName" ||| JStr "");
       T " | "; V (odot (get r "fields") "System.State" ||| JStr ""); T " |"].

Definition format_get_work_item_revisions (revisions : JS) : Res string :=
  formatList revisions "No revisions found for this work item."
    "Work Item Revisions"
    "| Rev | Changed Date | Changed By | State |"
    "|-----|--------------|------------|-------|"
    row_get_work_item_revisions.

Definition row_get_work_item_links (l : JS) : Res string :=
  tpl [T "| "; V (get l "rel"); T " | "; V (get l "url"); T " | ";
       V (odot (get l "attributes") "name" ||| JStr ""); T " |"].

Definition format_get_work_item_links (links : JS) : Res string :=
  formatList links "No links found for this work item."
    "Work Item Links"
    "| Relation | URL | Name |"
    "|----------|-----|------|"
    row_get_work_item_links.

Definition row_list_commits (c : JS) : Res string :=
  tpl [T "| "; V (osubstr (get c "commitId") 8 ||| JStr ""); T " | ";
       V (odot (get c "author") "name" ||| JStr ""); T " | ";
       V (get c "comment" ||| JStr ""); T " | ";
       V (odot (get c "committer") "date" ||| JStr ""); T " |"].

Definition format_list_commits (commits : JS) : Res string :=
  formatList commits "No commits found."
    "Commits"
    "| Commit | Author | Message | Date |"
    "|--------|--------|---------|------|"
    row_list_commits.

Definition row_list_areas (a : JS) : Res string :=
  tpl [T "| "; V (get a "id"); T " | "; V (get a "name"); T " | ";
       V (get a "path" ||| JStr ""); T " | "; V (get a "structureType" ||| JStr ""); T " |"].

Definition format_list_areas (areas : JS) : Res string :=
  formatList areas "No areas found."
    "Areas"
    "| ID | Name | Path | Type |"
    "|----|------|------|------|"
    row_list_areas.

Definition row_list_iteration_capacities (c : JS) : Res string :=
  tpl [T "| "; V (odot (get c "teamMember") "displayName" ||| JStr ""); T " | ";
       V (omapJoin (get c "activities") (fun a => get a "name") ", " ||| JStr ""); T " | ";
       V (odot (get c "daysOff") "length" ||| JNum 0); T " days off |"].

Definition format_list_iteration_capacities (capacities : JS) : Res string :=
  formatList capacities "No capacities found for this iteration."
    "Iteration Capacities"
    "| Team Member | Activities | Days Off |"
    "|-------------|------------|----------|"
    row_list_iteration_capacities.

Definition row_list_work_item_categories (c : JS) : Res string :=
  tpl [T "| "; V (get c "name"); T " | "; V (get c "referenceName"); T " | ";
       V (odot (get c "defaultWorkItemType") "name" ||| JStr ""); T " |"].

Definition format_list_work_item_categories (categories : JS) : Res string :=
  formatList categories "No work item categories found."
    "Work Item Categories"
    "| Name | Reference Name | Default Work Item Type |"
    "|------|----------------|------------------------|"
    row_list_work_item_categories.

Definition row_list_dashboards (d : JS) : Res string :=
  tpl [T "| "; V (get d "id"); T " | "; V (get d "name"); T " | ";
       V (get d "description" ||| JStr ""); T " | "; V (get d "modifiedDate" ||| JStr "");
       T " |"].

Definition format_list_dashboards (dashboards : JS) : Res string :=
  formatList dashboards "No dashboards found."
    "Dashboards"
    "| ID | Name | Description | Modified |"
    "|----|------|-------------|----------|"
    row_list_dashboards.

Definition row_list_pipelines (p : JS) : Res string :=
  tpl [T "| "; V (get p "id"); T " | "; V (get p "name"); T " | ";
       V (get p "folder" ||| JStr ""); T " | "; V (get p "revision" ||| JStr ""); T " |"].

Definition format_list_pipelines (pipelines : JS) : Res string :=
  formatList pipelines "No pipelines found."
    "Pipelines"
    "| ID | Name | Folder | Revision |"
    "|----|------|--------|----------|"
    row_list_pipelines.

Definition row_list_test_suites (ts : JS) : Res string :=
  tpl [T "| "; V (get ts "id"); T " | "; V (get ts "name"); T " | ";
       V (get ts "testCaseCount" ||| JNum 0); T " test cases | ";
       V (get ts "suiteType" ||| JStr ""); T " |"].

Definition format_list_test_suites (testSuites : JS) : Res string :=
  formatList testSuites "No test suites found."
    "Test Suites"
    "| ID | Name | Test Cases | Type |"
    "|----|------|------------|------|"
    row_list_test_suites.

Definition row_list_variable_groups (vg : JS) : Res string :=
  tpl [T "| "; V (get vg "id"); T " | "; V (get vg "name"); T " | ";
       V (get vg "description" ||| JStr ""); T " | ";
       V (odot (odot (odot (get vg "variableGroupProjectReferences") "0") "projectReference") "name" ||| JStr "");
       T " |"].

Definition format_list_variable_groups (variableGroups : JS) : Res string :=
  formatList variableGroups "No variable groups found."
    "Variable Groups"
    "| ID | Name | Description | Project |"
    "|----|------|-------------|---------|"
    row_list_variable_groups.

Definition row_list_service_endpoints (se : JS) : Res string :=
  tpl [T "| "; V (get se "id"); T " | "; V (get se "name"); T " | ";
       V (get se "type" ||| JStr ""); T " | ";
       V (ite (get se "isReady") "Ready" "Not Ready"); T " |"].

Definition format_list_service_endpoints (serviceEndpoints : JS) : Res string :=
  formatList serviceEndpoints "No service endpoints found."
    "Service Endpoints"
    "| ID | Name | Type | Status |"
    "|----|------|------|--------|"
    row_list_service_endpoints.

Definition row_list_tags (t : JS) : Res string :=
  tpl [T "| "; V (get t "id"); T " | "; V (get t "name"); T " | ";
       V (ite (get t "active") "Active" "Inactive"); T " |"].

Definition format_list_tags (tags : JS) : Res string :=
  formatList tags "No tags found."
    "Tags"
    "| ID | Name | Status |"
    "|----|------|--------|"
    row_list_tags.

Definition row_list_team_members (m : JS) : Res string :=
  tpl [T "| "; V (odot (get m "identity") "displayName" ||| JStr ""); T " | ";
       V (odot (get m "identity") "uniqueName" ||| JStr ""); T " | ";
       V (odot (get m "identity") "id" ||| JStr ""); T " |"].

Definition format_list_team_members (members : JS) : Res string :=
  formatList members "No team members found."
    "Team Members"
    "| Display Name | Unique Name | ID |"
    "|--------------|-------------|----|"
    row_list_team_members.

Definition row_list_boards (b : JS) : Res string :=
  tpl [T "| "; V (get b "id"); T " | "; V (get b "name"); T " | ";
       V (get b "description" ||| JStr ""); T " |"].

Definition format_list_boards (boards : JS) : Res string :=
  formatList boards "No boards found."
    "Boards"
    "| ID | Name | Description |"
    "|----|------|-------------|"
    row_list_boards.

Definition row_list_board_columns (c : JS) : Res string :=
  tpl [T "| "; V (get c "id"); T " | "; V (get c "name"); T " | ";
       V (get c "itemLimit" ||| JStr "No limit"); T " | ";
       V (get c "columnType" ||| JStr ""); T " |"].

Definition format_list_board_columns (columns : JS) : Res string :=
  formatList columns "No board columns found."
    "Board Columns"
    "| ID | Name | Item Limit | Type |"
    "|----|------|------------|------|"
    row_list_board_columns.

Definition row_list_board_rows (r : JS) : Res string :=
  tpl [T "| "; V (get r "id"); T " | "; V (get r "name"); T " | ";
       V (get r "rank" ||| JStr ""); T " |"].

Definition format_list_board_rows (rows : JS) : Res string :=
  formatList rows "No board rows found."
    "Board Rows"
    "| ID | Name | Rank |"
    "|----|------|------|"
    row_list_board_rows.

Definition row_list_work_item_states (s : JS) : Res string :=
  tpl [T "| "; V (get s "name"); T " | "; V (get s "category" ||| JStr ""); T " | ";
       V (get s "color" ||| JStr ""); T " | "; V (get s "order" ||| JStr ""); T " |"].

Definition format_list_work_item_states (states : JS) : Res string :=
  formatList states "No work item states found."
    "Work Item States"
    "| Name | Category | Color | Order |"
    "|------|----------|-------|-------|"
    row_list_work_item_states.

Definition row_list_work_item_fields (f : JS) : Res string :=
  tpl [T "| "; V (get f "referenceName"); T " | "; V (get f "name"); T " | ";
       V (get f "type" ||| JStr ""); T " | ";
       V (ite (get f "readOnly") "Read-only" "Editable"); T " |"].

Definition format_list_work_item_fields (fields : JS) : Res string :=
  formatList fields "No work item fields found."
    "Work Item Fields"
    "| Reference Name | Name | Type | Access |"
    "|----------------|------|------|--------|"
    row_list_work_item_fields.

Definition row_list_work_item_updates (u : JS) : Res string :=
  tpl [T "| "; V (get u "id"); T " | "; V (get u "rev"); T " | ";
       V (odot (get u "fields") "System.ChangedDate" ||| JStr ""); T " | ";
       V (odot (odot (get u "fields") "System.ChangedBy") "displayName" ||| JStr "");
       T " |"].

Definition format_list_work_item_updates (updates : JS) : Res string :=
  formatList updates "No updates found for this work item."
    "Work Item Updates"
    "| Update ID | Revision | Changed Date | Changed By |"
    "|-----------|----------|--------------|------------|"
    row_list_work_item_updates.

Definition row_list_work_item_attachments (a : JS) : Res string :=
  tpl [T "| "; V (get a "id"); T " | "; V (get a "name"); T " | ";
       V (get a "size" ||| JStr ""); T " | "; V (get a "createdDate" ||| JStr ""); T " |"].

Definition format_list_work_item_attachments (attachments : JS) : Res string :=
  formatList attachments "No attachments found for this work item."
    "Work Item Attachments"
    "| ID | Name | Size | Created Date |"
    "|----|------|------|--------------|"
    row_list_work_item_attachments.

Definition row_list_work_item_comments (c : JS) : Res string :=
  tpl [T "| "; V (get c "id"); T " | "; V (get c "text" ||| JStr ""); T " | ";
       V (odot (get c "createdBy") "displayName" ||| JStr ""); T " | ";
       V (get c "createdDate" ||| JStr ""); T " |"].

Definition format_list_work_item_comments (comments : JS) : Res string :=
  formatList comments "No comments found for this work item."
    "Work Item Comments"
    "| ID | Text | Created By | Created Date |"
    "|----|------|------------|--------------|"
    row_list_work_item_comments.

Definition row_list_work_item_relations (r : JS) : Res string :=
  tpl [T "| "; V (get r "rel"); T " | "; V (get r "url"); T " | ";
       V (odot (get r "attributes") "name" ||| JStr ""); T " |"].

Definition format_list_work_item_relations (relations : JS) : Res string :=
  formatList relations "No relations found for this work item."
    "Work Item Relations"
    "| Relation | URL | Name |"
    "|----------|-----|------|"
    row_list_work_item_relations.

Definition row_list_work_item_query_results (wi : JS) : Res string :=
  fields <~ get wi "fields" ;;
  tpl [T "| "; V (get wi "id"); T " | "; V (get fields "System.Title" ||| JStr ""); T " | ";
       V (get fields "System.State" ||| JStr ""); T " | ";
       V (odot (get fields "System.AssignedTo") "displayName" ||| JStr ""); T " | ";
       V (get fields "System.WorkItemType" ||| JStr ""); T " |"].

Definition format_list_work_item_query_results (workItems : JS) : Res string :=
  formatList workItems "No work items found for this query."
    "Query Results"
    "| ID | Title | State | Assigned To | Type |"
    "|----|-------|-------|-------------|------|"
    row_list_work_item_query_results.

End McpTables.

(** ** Tables of the formatting chain of [POST /api/tools/:name]

    The chain of [POST /api/chat] is the same text with [name] and [args]
    renamed [functionName] and [functionArgs] (update_work_item apart, see
    [apiFormat]); both chains end in a JSON fallback after get_file_content. *)

Module ApiTables.

Definition row_list_projects (p : JS) : Res string :=
  tpl [T "| "; V (get p "id"); T " | "; V (get p "name"); T " | ";
       V (get p "description" ||| JStr ""); T " | "; V (get p "url"); T " |"].

Definition format_list_projects (projects : JS) : Res string :=
  formatList projects "No projects found."
    "Projects"
    "| ID | Name | Description | URL |"
    "|----|------|-------------|-----|"
    row_list_projects.

Definition row_work_items (wi : JS) : Res string :=
  fields <~ get wi "fields" ;;
  tpl [T "| "; V (get wi "id"); T " | "; V (get fields "System.Title" ||| JStr ""); T " | ";
       V (get fields "System.State" ||| JStr ""); T " | ";
       V (odot (get fields "System.AssignedTo") "displayName" ||| JStr ""); T " | ";
       V (get fields "System.WorkItemType" ||| JStr ""); T " |"].

Definition format_work_items (workItems : JS) : Res string :=
  formatList workItems "No work items found."
    "Work Items"
    "| ID | Title | State | Assigned To | Type |"
    "|----|-------|-------|-------------|------|"
    row_work_items.

Definition row_get_builds (b : JS) : Res string :=
  tpl [T "| "; V (get b "id"); T " | "; V (get b "buildNumber"); T " | "; V (get b "status");
       T " | "; V (get b "result"); T " | "; V (get b "queueTime"); T " | ";
       V (get b "sourceBranch"); T " |"].

Definition format_get_builds (builds : JS) : Res string :=
  formatList builds "No builds found."
    "Builds"
    "| ID | Build Number | Status | Result | Queue Time | Branch |"
    "|----|--------------|--------|--------|------------|--------|"
    row_get_builds.

Definition row_get_releases (r : JS) : Res string :=
  tpl [T "| "; V (get r "id"); T " | "; V (get r "name"); T " | "; V (get r "status");
       T " | "; V (get r "createdOn"); T " | "; V (get r "modifiedOn"); T " |"].

Definition format_get_releases (releases : JS) : Res string :=
  formatList releases "No releases found."
    "Releases"
    "| ID | Name | Status | Created | Modified |"
    "|----|------|--------|---------|----------|"
    row_get_releases.

Definition row_list_repositories (r : JS) : Res string :=
  tpl [T "| "; V (get r "id"); T " | "; V (get r "name"); T " | ";
       V (ite (get r "isDisabled") "Disabled" "Active"); T " | ";
       V (ite (get r "isFork") "Fork" "No"); T " | "; V (get r "webUrl"); T " |"].

Definition format_list_repositories (repos : JS) : Res string :=
  formatList repos "No repositories found."
    "Repositories"
    "| ID | Name | Status | Fork | URL |"
    "|----|------|--------|------|-----|"
    row_list_repositories.

Definition row_list_branches (b : JS) : Res string :=
  tpl [T "| "; V (get b "name"); T " | "; V (osubstr (get b "objectId") 8 ||| JStr "");
       T " | "; V (odot (get b "creator") "displayName" ||| JStr ""); T " |"].

Definition format_list_branches (branches : JS) : Res string :=
  formatList branches "No branches found."
    "Branches"
    "| Name | Commit | Creator |"
    "|------|--------|---------|"
    row_list_branches.

Definition row_list_pull_requests (pr : JS) : Res string :=
  tpl [T "| "; V (get pr "pullRequestId"); T " | "; V (get pr "title"); T " | ";
       V (get pr "status"); T " | ";
       V (odot (get pr "createdBy") "displayName" ||| JStr ""); T " | ";
       V (get pr "creationDate"); T " |"].

Definition format_list_pull_requests (prs : JS) : Res string :=
  formatList prs "No pull requests found."
    "Pull Requests"
    "| ID | Title | Status | Created By | Created |"
    "|----|-------|--------|------------|---------|"
    row_list_pull_requests.

Definition row_search_code (r : JS) : Res string :=
  tpl [T "| "; V (odot (get r "project") "name" ||| JStr ""); T " | ";
       V (odot (get r "repository") "name" ||| JStr ""); T " | ";
       V (get r "path" ||| JStr ""); T " | ";
       V (odot (get r "matches") "length" ||| JNum 0); T " matches |"].

Definition format_search_code (results : JS) : Res string :=
  formatList results "No code search results found."
    "Code Search Results"
    "| Project | Repository | Path | Matches |"
    "|---------|------------|------|---------|"
    row_search_code.

Definition row_search_work_items (r : JS) : Res string :=
  tpl [T "| "; V (odot (get r "fields") "System.Id" ||| JStr ""); T " | ";
       V (odot (get r "fields") "System.Title" ||| JStr ""); T " | ";
       V (odot (get r "fields") "System.State" ||| JStr ""); T " | ";
       V (odot (get r "fields") "System.WorkItemType" ||| JStr ""); T " |"].

Definition format_search_work_items (results : JS) : Res string :=
  formatList results "No work item search results found."
    "Work Item Search Results"
    "| ID | Title | State | Type |"
    "|----|-------|-------|------|"
    row_search_work_items.

Definition row_list_wikis (w : JS) : Res string :=
  tpl [T "| "; V (get w "id"); T " | "; V (get w "name"); T " | "; V (get w "type"); T " | ";
       V (get w "projectId"); T " |"].

Definition format_list_wikis (wikis : JS) : Res string :=
  formatList wikis "No wikis found."
    "Wikis"
    "| ID | Name | Type | Project ID |"
    "|----|------|------|------------|"
    row_list_wikis.

Definition row_list_team_iterations (i : JS) : Res string :=
  tpl [T "| "; V (get i "id"); T " | "; V (get i "name"); T " | "; V (get i "path"); T " | ";
       V (odot (get i "attributes") "startDate" ||| JStr ""); T " - ";
       V (odot (get i "attributes") "finishDate" ||| JStr ""); T " |"].

Definition format_list_team_iterations (iterations : JS) : Res string :=
  formatList iterations "No iterations found for this team."
    "Iterations"
    "| ID | Name | Path | Dates |"
    "|----|------|------|-------|"
    row_list_team_iterations.

Definition row_list_test_plans (tp : JS) : Res string :=
  tpl [T "| "; V (get tp "id"); T " | "; V (get tp "name"); T " | ";
       V (get tp "description" ||| JStr ""); T " | "; V (get tp "areaPath" ||| JStr "");
       T " | "; V (get tp "iteration" ||| JStr ""); T " |"].

Definition format_list_test_plans (testPlans : JS) : Res string :=
  formatList testPlans "No test plans found."
    "Test Plans"
    "| ID | Name | Description | Area Path | Iteration |"
    "|----|------|-------------|-----------|-----------|"
    row_list_test_plans.

Definition row_list_project_teams (t : JS) : Res string :=
  tpl [T "| "; V (get t "id"); T " | "; V (get t "name"); T " | ";
       V (get t "description" ||| JStr ""); T " | "; V (get t "projectName" ||| JStr "");
       T " |"].

Definition format_list_project_teams (teams : JS) : Res string :=
  formatList teams "No teams found."
    "Teams"
    "| ID | Name | Description | Project |"
    "|----|------|-------------|---------|"
    row_list_project_teams.

Definition row_get_identity_ids (id : JS) : Res string :=
  tpl [T "| "; V (get id "localId"); T " | "; V (get id "displayName"); T " | ";
       V (get id "uniqueName"); T " | "; V (get id "subjectDescriptor"); T " |"].

Definition format_get_identity_ids (identities : JS) : Res string :=
  formatListOrNone identities "No identities found."
    "Identities"
    "| Local ID | Display Name | Unique Name | Subject Descriptor |"
    "|----------|--------------|-------------|-------------------|"
    row_get_identity_ids.

Definition row_list_work_item_types (t : JS) : Res string :=
  tpl [T "| "; V (get t "name"); T " | "; V (get t "referenceName"); T " | ";
       V (get t "description" ||| JStr ""); T " |"].

Definition format_list_work_item_types (types : JS) : Res string :=
  formatList types "No work item types found."
    "Work Item Types"
    "| Name | Reference Name | Description |"
    "|------|----------------|-------------|"
    row_list_work_item_types.

Definition row_list_iterations (i : JS) : Res string :=
  tpl [T "| "; V (get i "id"); T " | "; V (get i "name"); T " | "; V (get i "path"); T " | ";
       V (odot (get i "attributes") "startDate" ||| JStr ""); T " - ";
       V (odot (get i "attributes") "finishDate" ||| JStr ""); T " |"].

Definition format_list_iterations (iterations : JS) : Res string :=
  formatList iterations "No iterations found."
    "Iterations"
    "| ID | Name | Path | Dates |"
    "|----|------|------|-------|"
    row_list_iterations.

Definition row_list_build_definitions (d : JS) : Res string :=
  tpl [T "| "; V (get d "id"); T " | "; V (get d "name"); T " | ";
       V (get d "path" ||| JStr ""); T " | "; V (get d "queueStatus" ||| JStr ""); T " |"].

Definition format_list_build_definitions (definitions : JS) : Res string :=
  formatList definitions "No build definitions found."
    "Build Definitions"
    "| ID | Name | Path | Queue Status |"
    "|----|------|------|-------------|"
    row_list_build_definitions.

Definition row_list_release_definitions (d : JS) : Res string :=
  tpl [T "| "; V (get d "id"); T " | "; V (get d "name"); T " | ";
       V (get d "path" ||| JStr ""); T " | "; V (get d "releaseNameFormat" ||| JStr "");
       T " |"].

Definition format_list_release_definitions (definitions : JS) : Res string :=
  formatList definitions "No release definitions found."
    "Release Definitions"
    "| ID | Name | Path | Release Name Format |"
    "|----|------|------|-------------------|"
    row_list_release_definitions.

Definition row_list_queries (q : JS) : Res string :=
  tpl [T "| "; V (get q "id"); T " | "; V (get q "name"); T " | ";
       V (get q "path" ||| JStr ""); T " | "; V (ite (get q "isFolder") "Folder" "Query");
       T " |"].

Definition format_list_queries (queries : JS) : Res string :=
  formatList queries "No queries found."
    "Queries"
    "| ID | Name | Path | Type |"
    "|----|------|------|------|"
    row_list_queries.

Definition row_get_work_item_revisions (r : JS) : Res string :=
  tpl [T "| "; V (get r "rev"); T " | ";
       V (odot (get r "fields") "System.ChangedDate" ||| JStr ""); T " | ";
       V (odot (odot (get r "fields") "System.ChangedBy") "displayName" ||| JStr "");
       T " | "; V (odot (get r "fields") "System.State" ||| JStr ""); T " |"].

Definition format_get_work_item_revisions (revisions : JS) : Res string :=
  formatList revisions "No revisions found for this work item."
    "Work Item Revisions"
    "| Rev | Changed Date | Changed By | State |"
    "|-----|--------------|------------|-------|"
    row_get_work_item_revisions.

Definition row_get_work_item_links (l : JS) : Res string :=
  tpl [T "| "; V (get l "rel"); T " | "; V (get l "url"); T " | ";
       V (odot (get l "attributes") "name" ||| JStr ""); T " |"].

Definition format_get_work_item_links (links : JS) : Res string :=
  formatList links "No links found for this work item."
    "Work Item Links"
    "| Relation | URL | Name |"
    "|----------|-----|------|"
    row_get_work_item_links.

Definition row_list_commits (c : JS) : Res string :=
  tpl [T "| "; V (osubstr (get c "commitId") 8 ||| JStr ""); T " | ";
       V (odot (get c "author") "name" ||| JStr ""); T " | ";
       V (get c "comment" ||| JStr ""); T " | ";
       V (odot (get c "committer") "date" ||| JStr ""); T " |"].

Definition format_list_commits (commits : JS) : Res string :=
  formatList commits "No commits found."
    "Commits"
    "| Commit | Author | Message | Date |"
    "|--------|--------|---------|------|"
    row_list_commits.

End ApiTables.

(** ** The MCP CallTool handler *)

Record CallToolResult : Type := mkResult {
  text : string;
  isError : bool
}.

(** [return { content: [{ type: 'text', text: s }] }] *)
Definition textContent (s : string) : M CallToolResult := ret (mkResult s false).

Definition isArray (v : JS) : bool :=
  match v with JArr _ => true | _ => false end.

Module Mcp.

Import McpTables.

Definition list_projects (c : Client) (args : JS) : M CallToolResult :=
  projects <- getProjects c ;;
  formatted <- lift (format_list_projects projects) ;;
  textContent formatted.

Definition query_work_items (c : Client) (args : JS) : M CallToolResult :=
  let wiql := oget args "wiql" in
  if negb (truthy wiql) then throw (Error "wiql argument is required") else
  workItems <- queryWorkItems c wiql ;;
  formatted <- lift (format_query_work_items workItems) ;;
  textContent formatted.

Definition get_work_items_by_ids (c : Client) (args : JS) : M CallToolResult :=
  let ids := oget args "ids" in
  if negb (truthy ids) || negb (isArray ids)
  then throw (Error "ids argument must be an array of numbers") else
  workItems <- getWorkItems c ids ;;
  formatted <- lift (format_get_work_items_by_ids workItems) ;;
  textContent formatted.

Definition get_builds (c : Client) (args : JS) : M CallToolResult :=
  let definitionId := oget args "definitionId" in
  let top := oror (oget args "top") (JNum 10) in
  builds <- getBuilds c definitionId top ;;
  formatted <- lift (format_get_builds builds) ;;
  textContent formatted.

Definition get_releases (c : Client) (args : JS) : M CallToolResult :=
  let top := oror (oget args "top") (JNum 10) in
  releases <- getReleases c top ;;
  formatted <- lift (format_get_releases releases) ;;
  textContent formatted.

Definition format_create_work_item (workItem workItemType title description : JS)
  : Res string :=
  tpl [T "✅ Work item created successfully!"; T nl;
       T "**ID**: "; V (get workItem "id"); T nl;
       T "**Type**: "; V (Ok workItemType); T nl;
       T "**Title**: "; V (Ok title); T nl;
       T "**URL**: "; V (get workItem "url"); T nl;
       optLine "**Description**: " description; T nl].

Definition create_work_item (c : Client) (args : JS) : M CallToolResult :=
  let workItemType := oget args "workItemType" in
  let title := oget args "title" in
  let description := oget args "description" in
  let additionalFields := oget args "additionalFields" in
  if negb (truthy workItemType) || negb (truthy title)
  then throw (Error "workItemType and title are required") else
  workItem <- createWorkItem c workItemType title description additionalFields ;;
  formatted <- lift (format_create_work_item workItem workItemType title description) ;;
  textContent formatted.

Definition format_update_work_item (workItem fields comment : JS) : Res string :=
  fieldList <~ fieldListOf fields ;;
  tpl [T "✅ Work item "; V (get workItem "id"); T " updated successfully!"; T nl;
       T "**Updated fields**:"; T nl;
       T fieldList; T nl;
       optLine "**Comment**: " comment].

Definition update_work_item (c : Client) (args : JS) : M CallToolResult :=
  let id := oget args "id" in
  let fields := oget args "fields" in
  let comment := oget args "comment" in
  if negb (truthy id) || negb (truthy fields)
  then throw (Error "id and fields are required") else
  workItem <- updateWorkItem c id fields comment ;;
  formatted <- lift (format_update_work_item workItem fields comment) ;;
  textContent formatted.

Definition format_assign_work_item (workItem assignee comment : JS) : Res string :=
  tpl [T "✅ Work item "; V (get workItem "id"); T " assigned to "; V (Ok assignee);
       T " successfully!"; T nl;
       optLine "**Comment**: " comment].

Definition assign_work_item (c : Client) (args : JS) : M CallToolResult :=
  let id := oget args "id" in
  let assignee := oget args "assignee" in
  let comment := oget args "comment" in
  if negb (truthy id) || negb (truthy assignee)
  then throw (Error "id and assignee are required") else
  workItem <- assignWorkItem c id assignee comment ;;
  formatted <- lift (format_assign_work_item workItem assignee comment) ;;
  textContent formatted.

Definition list_repositories (c : Client) (args : JS) : M CallToolResult :=
  let project := oget args "project" in
  repos <- getRepositories c project ;;
  formatted <- lift (format_list_repositories repos) ;;
  textContent formatted.

Definition list_branches (c : Client) (args : JS) : M CallToolResult :=
  let repositoryId := oget args "repositoryId" in
  let project := oget args "project" in
  branches <- getBranches c repositoryId project ;;
  formatted <- lift (format_list_branches branches) ;;
  textContent formatted.

Definition list_pull_requests (c : Client) (args : JS) : M CallToolResult :=
  let repositoryId := oget args "repositoryId" in
  let project := oget args "project" in
  let top := oror (oget args "top") (JNum 100) in
  let status := oror (oget args "status") (JStr "active") in
  prs <- getPullRequests c repositoryId project top status ;;
  formatted <- lift (format_list_pull_requests prs) ;;
  textContent formatted.

Definition format_get_pull_request (pr : JS) : Res string :=
  tpl [T "## Pull Request "; V (get pr "pullRequestId"); T nl;
       T "**Title**: "; V (get pr "title"); T nl;
       T "**Repository**: "; V (dot (get pr "repository") "name"); T nl;
       T "**Status**: "; V (get pr "status"); T nl;
       T "**Created By**: "; V (dot (get pr "createdBy") "displayName");
       T " ("; V (dot (get pr "createdBy") "uniqueName"); T ")"; T nl;
       T "**Created**: "; V (get pr "creationDate"); T nl;
       T "**Source**: "; V (get pr "sourceRefName"); T nl;
       T "**Target**: "; V (get pr "targetRefName"); T nl;
       (d <~ get pr "description" ;; optLine "**Description**: " d)].

Definition get_pull_request (c : Client) (args : JS) : M CallToolResult :=
  let repositoryId := oget args "repositoryId" in
  let pullRequestId := oget args "pullRequestId" in
  let project := oget args "project" in
  pr <- getPullRequestById c repositoryId pullRequestId project ;;
  formatted <- lift (format_get_pull_request pr) ;;
  textContent formatted.

Definition search_code (c : Client) (args : JS) : M CallToolResult :=
  let searchText := oget args "searchText" in
  let project := oget args "project" in
  let repository := oget args "repository" in
  let top := oror (oget args "top") (JNum 5) in
  results <- searchCode c searchText project repository top ;;
  formatted <- lift (format_search_code results) ;;
  textContent formatted.

Definition search_work_items (c : Client) (args : JS) : M CallToolResult :=
  let searchText := oget args "searchText" in
  let project := oget args "project" in
  let top := oror (oget args "top") (JNum 10) in
  results <- searchWorkItems c searchText project top ;;
  formatted <- lift (format_search_work_items results) ;;
  textContent formatted.

Definition list_wikis (c : Client) (args : JS) : M CallToolResult :=
  let project := oget args "project" in
  wikis <- getWikis c project ;;
  formatted <- lift (format_list_wikis wikis) ;;
  textContent formatted.

Definition format_get_wiki_page (path content : JS) : Res string :=
  tpl [T "## Wiki Page: "; V (Ok path); T nl; V (Ok content)].

Definition get_wiki_page (c : Client) (args : JS) : M CallToolResult :=
  let wikiIdentifier := oget args "wikiIdentifier" in
  let project := oget args "project" in
  let path := oror (oget args "path") (JStr "/") in
  content <- getWikiPageContent c wikiIdentifier project path ;;
  formatted <- lift (format_get_wiki_page path content) ;;
  textContent formatted.

Definition list_team_iterations (c : Client) (args : JS) : M CallToolResult :=
  let project := oget args "project" in
  let team := oget args "team" in
  iterations <- getTeamIterations c project team ;;
  formatted <- lift (format_list_team_iterations iterations) ;;
  textContent formatted.

Definition list_test_plans (c : Client) (args : JS) : M CallToolResult :=
  let project := oget args "project" in
  testPlans <- getTestPlans c project ;;
  formatted <- lift (format_list_test_plans testPlans) ;;
  textContent formatted.

Definition list_project_teams (c : Client) (args : JS) : M CallToolResult :=
  let project := oget args "project" in
  let mine := oget args "mine" in
  let top := oror (oget args "top") (JNum 100) in
  let skip := oror (oget args "skip") (JNum 0) in
  teams <- getTeams c project mine top skip ;;
  formatted <- lift (format_list_project_teams teams) ;;
  textContent formatted.

Definition get_identity_ids (c : Client) (args : JS) : M CallToolResult :=
  let searchFilter := oget args "searchFilter" in
  if negb (truthy searchFilter) then throw (Error "searchFilter argument is required") else
  identities <- searchIdentities c searchFilter ;;
  formatted <- lift (format_get_identity_ids identities) ;;
  textContent formatted.

Definition format_get_current_user (user : JS) : Res string :=
  tpl [T "## Current User"; T nl;
       T "**ID**: "; V (get user "id"); T nl;
       T "**Display Name**: "; V (get user "displayName"); T nl;
       T "**Unique Name**: "; V (get user "uniqueName"); T nl;
       T "**Email**: "; V (get user "email" ||| JStr "N/A")].

Definition get_current_user (c : Client) (args : JS) : M CallToolResult :=
  user <- getCurrentUser c ;;
  formatted <- lift (format_get_current_user user) ;;
  textContent formatted.

Definition list_work_item_types (c : Client) (args : JS) : M CallToolResult :=
  let project := oget args "project" in
  types <- getWorkItemTypes c project ;;
  formatted <- lift (format_list_work_item_types types) ;;
  textContent formatted.

Definition list_iterations (c : Client) (args : JS) : M CallToolResult :=
  let project := oget args "project" in
  iterations <- getIterations c project ;;
  formatted <- lift (format_list_iterations iterations) ;;
  textContent formatted.

Definition list_build_definitions (c : Client) (args : JS) : M CallToolResult :=
  let project := oget args "project" in
  definitions <- getBuildDefinitions c project ;;
  formatted <- lift (format_list_build_definitions definitions) ;;
  textContent formatted.

Definition list_release_definitions (c : Client) (args : JS) : M CallToolResult :=
  let project := oget args "project" in
  definitions <- getReleaseDefinitions c project ;;
  formatted <- lift (format_list_release_definitions definitions) ;;
  textContent formatted.

Definition list_queries (c : Client) (args : JS) : M CallToolResult :=
  let project := oget args "project" in
  queries <- getQueries c project ;;
  formatted <- lift (format_list_queries queries) ;;
  textContent formatted.

Definition get_work_item_revisions (c : Client) (args : JS) : M CallToolResult :=
  let id := oget args "id" in
  let project := oget args "project" in
  if negb (truthy id) then throw (Error "id argument is required") else
  revisions <- getWorkItemRevisions c id project ;;
  formatted <- lift (format_get_work_item_revisions revisions) ;;
  textContent formatted.

Definition get_work_item_links (c : Client) (args : JS) : M CallToolResult :=
  let id := oget args "id" in
  let project := oget args "project" in
  if negb (truthy id) then throw (Error "id argument is required") else
  links <- getWorkItemLinks c id project ;;
  formatted <- lift (format_get_work_item_links links) ;;
  textContent formatted.

Definition format_create_pull_request (pr title sourceBranch targetBranch description : JS)
  : Res string :=
  tpl [T "✅ Pull request created successfully!"; T nl;
       T "**ID**: "; V (get pr "pullRequestId"); T nl;
       T "**Title**: "; V (Ok title); T nl;
       T "**Repository**: "; V (odot (get pr "repository") "name" ||| JStr ""); T nl;
       T "**Source**: "; V (Ok sourceBranch); T nl;
       T "**Target**: "; V (Ok targetBranch); T nl;
       T "**Status**: "; V (get pr "status"); T nl;
       T "**URL**: "; V (get pr "url" ||| JStr "N/A"); T nl;
       optLine "**Description**: " description].

Definition create_pull_request (c : Client) (args : JS) : M CallToolResult :=
  let repositoryId := oget args "repositoryId" in
  let sourceBranch := oget args "sourceBranch" in
  let targetBranch := oget args "targetBranch" in
  let title := oget args "title" in
  let description := oget args "description" in
  let project := oget args "project" in
  if negb (truthy repositoryId) || negb (truthy sourceBranch)
     || negb (truthy targetBranch) || negb (truthy title)
  then throw (Error "repositoryId, sourceBranch, targetBranch, and title are required") else
  pr <- createPullRequest c repositoryId sourceBranch targetBranch title description project ;;
  formatted <- lift (format_create_pull_request pr title sourceBranch targetBranch description) ;;
  textContent formatted.

Definition list_commits (c : Client) (args : JS) : M CallToolResult :=
  let repositoryId := oget args "repositoryId" in
  let project := oget args "project" in
  let top := oror (oget args "top") (JNum 10) in
  if negb (truthy repositoryId) then throw (Error "repositoryId argument is required") else
  commits <- getCommits c repositoryId project top ;;
  formatted <- lift (format_list_commits commits) ;;
  textContent formatted.

Definition fence : string := "```".

Definition format_get_file_content (path content : JS) : Res string :=
  tpl [T "## File: "; V (Ok path); T nl; T fence; T nl; V (Ok content); T nl; T fence].

Definition get_file_content (c : Client) (args : JS) : M CallToolResult :=
  let repositoryId := oget args "repositoryId" in
  let path := oget args "path" in
  let project := oget args "project" in
  if negb (truthy repositoryId) || negb (truthy path)
  then throw (Error "repositoryId and path are required") else
  content <- getFileContent c repositoryId path project ;;
  formatted <- lift (format_get_file_content path content) ;;
  textContent formatted.

Definition list_areas (c : Client) (args : JS) : M CallToolResult :=
  let project := oget args "project" in
  areas <- getAreas c project ;;
  formatted <- lift (format_list_areas areas) ;;
  textContent formatted.

Definition list_iteration_capacities (c : Client) (args : JS) : M CallToolResult :=
  let project := oget args "project" in
  let team := oget args "team" in
  let iterationId := oget args "iterationId" in
  if negb (truthy project) || negb (truthy team) || negb (truthy iterationId)
  then throw (Error "project, team, and iterationId are required") else
  capacities <- getIterationCapacities c project team iterationId ;;
  formatted <- lift (format_list_iteration_capacities capacities) ;;
  textContent formatted.

Definition list_work_item_categories (c : Client) (args : JS) : M CallToolResult :=
  let project := oget args "project" in
  categories <- getWorkItemCategories c project ;;
  formatted <- lift (format_list_work_item_categories categories) ;;
  textContent formatted.

Definition list_dashboards (c : Client) (args : JS) : M CallToolResult :=
  let project := oget args "project" in
  dashboards <- getDashboards c project ;;
  formatted <- lift (format_list_dashboards dashboards) ;;
  textContent formatted.

Definition list_pipelines (c : Client) (args : JS) : M CallToolResult :=
  let project := oget args "project" in
  pipelines <- getPipelines c project ;;
  formatted <- lift (format_list_pipelines pipelines) ;;
  textContent formatted.

Definition list_test_suites (c : Client) (args : JS) : M CallToolResult :=
  let project := oget args "project" in
  let planId := oget args "planId" in
  if negb (truthy project) || negb (truthy planId)
  then throw (Error "project and planId are required") else
  testSuites <- getTestSuites c project planId ;;
  formatted <- lift (format_list_test_suites testSuites) ;;
  textContent formatted.

Definition list_variable_groups (c : Client) (args : JS) : M CallToolResult :=
  let project := oget args "project" in
  variableGroups <- getVariableGroups c project ;;
  formatted <- lift (format_list_variable_groups variableGroups) ;;
  textContent formatted.

Definition list_service_endpoints (c : Client) (args : JS) : M CallToolResult :=
  let project := oget args "project" in
  serviceEndpoints <- getServiceEndpoints c project ;;
  formatted <- lift (format_list_service_endpoints serviceEndpoints) ;;
  textContent formatted.

Definition list_tags (c : Client) (args : JS) : M CallToolResult :=
  let project := oget args "project" in
  tags <- getTags c project ;;
  formatted <- lift (format_list_tags tags) ;;
  textContent formatted.

Definition list_team_members (c : Client) (args : JS) : M CallToolResult :=
  let project := oget args "project" in
  let team := oget args "team" in
  if negb (truthy project) || negb (truthy team)
  then throw (Error "project and team are required") else
  members <- getTeamMembers c project team ;;
  formatted <- lift (format_list_team_members members) ;;
  textContent formatted.

Definition list_boards (c : Client) (args : JS) : M CallToolResult :=
  let project := oget args "project" in
  let team := oget args "team" in
  if negb (truthy project) || negb (truthy team)
  then throw (Error "project and team are required") else
  boards <- getBoards c project team ;;
  formatted <- lift (format_list_boards boards) ;;
  textContent formatted.

Definition list_board_columns (c : Client) (args : JS) : M CallToolResult :=
  let project := oget args "project" in
  let team := oget args "team" in
  let board := oget args "board" in
  if negb (truthy project) || negb (truthy team) || negb (truthy board)
  then throw (Error "project, team, and board are required") else
  columns <- getBoardColumns c project team board ;;
  formatted <- lift (format_list_board_columns columns) ;;
  textContent formatted.

Definition list_board_rows (c : Client) (args : JS) : M CallToolResult :=
  let project := oget args "project" in
  let team := oget args "team" in
  let board := oget args "board" in
  if negb (truthy project) || negb (truthy team) || negb (truthy board)
  then throw (Error "project, team, and board are required") else
  rows <- getBoardRows c project team board ;;
  formatted <- lift (format_list_board_rows rows) ;;
  textContent formatted.

Definition list_work_item_states (c : Client) (args : JS) : M CallToolResult :=
  let project := oget args "project" in
  let workItemType := oget args "workItemType" in
  if negb (truthy project) || negb (truthy workItemType)
  then throw (Error "project and workItemType are required") else
  states <- getWorkItemStates c project workItemType ;;
  formatted <- lift (format_list_work_item_states states) ;;
  textContent formatted.

Definition list_work_item_fields (c : Client) (args : JS) : M CallToolResult :=
  let project := oget args "project" in
  fields <- getWorkItemFields c project ;;
  formatted <- lift (format_list_work_item_fields fields) ;;
  textContent formatted.

Definition list_work_item_updates (c : Client) (args : JS) : M CallToolResult :=
  let id := oget args "id" in
  let project := oget args "project" in
  if negb (truthy id) then throw (Error "id is required") else
  updates <- getWorkItemUpdates c id project ;;
  formatted <- lift (format_list_work_item_updates updates) ;;
  textContent formatted.

Definition list_work_item_attachments (c : Client) (args : JS) : M CallToolResult :=
  let id := oget args "id" in
  let project := oget args "project" in
  if negb (truthy id) then throw (Error "id is required") else
  attachments <- getWorkItemAttachments c id project ;;
  formatted <- lift (format_list_work_item_attachments attachments) ;;
  textContent formatted.

Definition list_work_item_comments (c : Client) (args : JS) : M CallToolResult :=
  let id := oget args "id" in
  let project := oget args "project" in
  if negb (truthy id) then throw (Error "id is required") else
  comments <- getWorkItemComments c id project ;;
  formatted <- lift (format_list_work_item_comments comments) ;;
  textContent formatted.

Definition list_work_item_relations (c : Client) (args : JS) : M CallToolResult :=
  let id := oget args "id" in
  let project := oget args "project" in
  if negb (truthy id) then throw (Error "id is required") else
  relations <- getWorkItemRelations c id project ;;
  formatted <- lift (format_list_work_item_relations relations) ;;
  textContent formatted.

Definition list_work_item_query_results (c : Client) (args : JS) : M CallToolResult :=
  let project := oget args "project" in
  let queryId := oget args "queryId" in
  if negb (truthy project) || negb (truthy queryId)
  then throw (Error "project and queryId are required") else
  workItems <- getQueryResults c project queryId ;;
  formatted <- lift (format_list_work_item_query_results workItems) ;;
  textContent formatted.

(** The [case] labels of the [switch (name)], in source order. *)
Definition cases : list (string * (Client -> JS -> M CallToolResult)) :=
  [("list_projects", list_projects);
   ("query_work_items", query_work_items);
   ("get_work_items_by_ids", get_work_items_by_ids);
   ("get_builds", get_builds);
   ("get_releases", get_releases);
   ("create_work_item", create_work_item);
   ("update_work_item", update_work_item);
   ("assign_work_item", assign_work_item);
   ("list_repositories", list_repositories);
   ("list_branches", list_branches);
   ("list_pull_requests", list_pull_requests);
   ("get_pull_request", get_pull_request);
   ("search_code", search_code);
   ("search_work_items", search_work_items);
   ("list_wikis", list_wikis);
   ("get_wiki_page", get_wiki_page);
   ("list_team_iterations", list_team_iterations);
   ("list_test_plans", list_test_plans);
   ("list_project_teams", list_project_teams);
   ("get_identity_ids", get_identity_ids);
   ("get_current_user", get_current_user);
   ("list_work_item_types", list_work_item_types);
   ("list_iterations", list_iterations);
   ("list_build_definitions", list_build_definitions);
   ("list_release_definitions", list_release_definitions);
   ("list_queries", list_queries);
   ("get_work_item_revisions", get_work_item_revisions);
   ("get_work_item_links", get_work_item_links);
   ("create_pull_request", create_pull_request);
   ("list_commits", list_commits);
   ("get_file_content", get_file_content);
   ("list_areas", list_areas);
   ("list_iteration_capacities", list_iteration_capacities);
   ("list_work_item_categories", list_work_item_categories);
   ("list_dashboards", list_dashboards);
   ("list_pipelines", list_pipelines);
   ("list_test_suites", list_test_suites);
   ("list_variable_groups", list_variable_groups);
   ("list_service_endpoints", list_service_endpoints);
   ("list_tags", list_tags);
   ("list_team_members", list_team_members);
   ("list_boards", list_boards);
   ("list_board_columns", list_board_columns);
   ("list_board_rows", list_board_rows);
   ("list_work_item_states", list_work_item_states);
   ("list_work_item_fields", list_work_item_fields);
   ("list_work_item_updates", list_work_item_updates);
   ("list_work_item_attachments", list_work_item_attachments);
   ("list_work_item_comments", list_work_item_comments);
   ("list_work_item_relations", list_work_item_relations);
   ("list_work_item_query_results", list_work_item_query_results)].

End Mcp.

(** The first [case] whose label equals the discriminant is taken. *)
Fixpoint switch {A} (cases : list (string * A)) (name : string) : option A :=
  match cases with
  | [] => None
  | (label, k) :: r => if String.eqb name label then Some k else switch r name
  end.

(** The body of the [try] block: [switch (name) { ... default: throw ... }]. *)
Definition dispatch (c : Client) (name : string) (args : JS) : M CallToolResult :=
  match switch Mcp.cases name with
  | Some k => k c args
  | None => throw (Error ("Unknown tool: " ++ name))
  end.

(** [server.setRequestHandler(CallToolRequestSchema, ...)]; [name] and [args]
    are [request.params.name] and [request.params.arguments]. *)
Definition callTool (c : Client) (name : string) (args : JS) : M CallToolResult :=
  tryCatch (dispatch c name args)
           (fun error => ret (mkResult ("Error: " ++ message error) true)).

(** ** [JSON.stringify(v, null, 2)] *)

Definition dq : string := String (ascii_of_nat 34) EmptyString.
Definition backslash : string := String (ascii_of_nat 92) EmptyString.

Definition hex_lower (n : N) : ascii :=
  if (n <? 10)%N then ascii_of_N (48 + n) else ascii_of_N (87 + n).

Definition escape_char (c : ascii) : string :=
  let n := N_of_ascii c in
  if (n =? 34)%N then backslash ++ dq
  else if (n =? 92)%N then backslash ++ backslash
  else if (n =? 8)%N then backslash ++ "b"
  else if (n =? 9)%N then backslash ++ "t"
  else if (n =? 10)%N then backslash ++ "n"
  else if (n =? 12)%N then backslash ++ "f"
  else if (n =? 13)%N then backslash ++ "r"
  else if (n <? 32)%N
       then backslash ++ "u00"
            ++ String (hex_lower (n / 16)) (String (hex_lower (n mod 16)) EmptyString)
  else String c EmptyString.

Definition quote (s : string) : string :=
  dq ++ String.concat "" (map escape_char (list_ascii_of_string s)) ++ dq.

Fixpoint somes {A} (l : list (option A)) : list A :=
  match l with
  | [] => []
  | Some a :: r => a :: somes r
  | None :: r => somes r
  end.

(** [None] stands for the result [undefined]. *)
Fixpoint stringify (indent : string) (v : JS) : option string :=
  let inner := indent ++ "  " in
  match v with
  | JUndef => None
  | JNull => Some "null"
  | JBool true => Some "true"
  | JBool false => Some "false"
  | JNum n => Some (string_of_Z n)
  | JStr s => Some (quote s)
  | JArr [] => Some "[]"
  | JArr l =>
      Some ("[" ++ nl ++ inner
            ++ String.concat ("," ++ nl ++ inner)
                 (map (fun x => match stringify inner x with
                                | Some s => s
                                | None => "null"
                                end) l)
            ++ nl ++ indent ++ "]")
  | JObj ps =>
      match somes (map (fun p => match p with
                                 | (k, x) =>
                                     match stringify inner x with
                                     | Some s => Some (quote k ++ ": " ++ s)
                                     | None => None
                                     end
                                 end) ps) with
      | [] => Some "{}"
      | items =>
          Some ("{" ++ nl ++ inner ++ String.concat ("," ++ nl ++ inner) items
                ++ nl ++ indent ++ "}")
      end
  end.

(** ** The HTTP call sites: [POST /api/tools/:name] and [POST /api/chat] *)

Inductive Site : Type := ApiTools | ApiChat.

Record HttpResponse : Type := mkResponse {
  status : Z;
  json : JS
}.

Definition errorBody (msg : string) : JS := JObj [("error", JStr msg)].

Module Api.

Import ApiTables.

(** [args.k] ([functionArgs.k] in the chat endpoint) *)
Definition arg (args : JS) (k : string) : M JS := lift (get args k).

(** [typeof fields === 'object' && fields !== null ? fields : {}] *)
Definition safeFieldsOf (fields : JS) : JS :=
  match fields with
  | JObj _ | JArr _ => fields
  | _ => JObj []
  end.

Definition update_work_item (site : Site) (c : Client) (args : JS) : M JS :=
  match site with
  | ApiTools =>
      id <- arg args "id" ;; fields <- arg args "fields" ;;
      comment <- arg args "comment" ;;
      updateWorkItem c id fields comment
  | ApiChat =>
      fields <- lift (get args "fields" ||| JObj []) ;;
      let safeFields := safeFieldsOf fields in
      id <- arg args "id" ;; comment <- arg args "comment" ;;
      updateWorkItem c id safeFields comment
  end.

(** The [case] labels of the dispatching [switch], in source order. *)
Definition cases (site : Site) : list (string * (Client -> JS -> M JS)) :=
  [("list_projects", fun c args => getProjects c);
   ("query_work_items", fun c args => wiql <- arg args "wiql" ;; queryWorkItems c wiql);
   ("get_work_items_by_ids", fun c args => ids <- arg args "ids" ;; getWorkItems c ids);
   ("get_builds", fun c args =>
      definitionId <- arg args "definitionId" ;; top <- arg args "top" ;;
      getBuilds c definitionId top);
   ("get_releases", fun c args => top <- arg args "top" ;; getReleases c top);
   ("create_work_item", fun c args =>
      workItemType <- arg args "workItemType" ;; title <- arg args "title" ;;
      description <- arg args "description" ;;
      additionalFields <- arg args "additionalFields" ;;
      createWorkItem c workItemType title description additionalFields);
   ("update_work_item", update_work_item site);
   ("assign_work_item", fun c args =>
      id <- arg args "id" ;; assignee <- arg args "assignee" ;;
      comment <- arg args "comment" ;; assignWorkItem c id assignee comment);
   ("list_repositories", fun c args =>
      project <- arg args "project" ;; getRepositories c project);
   ("list_branches", fun c args =>
      repositoryId <- arg args "repositoryId" ;; project <- arg args "project" ;;
      getBranches c repositoryId project);
   ("list_pull_requests", fun c args =>
      repositoryId <- arg args "repositoryId" ;; project <- arg args "project" ;;
      top <- arg args "top" ;; status <- arg args "status" ;;
      getPullRequests c repositoryId project top status);
   ("get_pull_request", fun c args =>
      repositoryId <- arg args "repositoryId" ;; pullRequestId <- arg args "pullRequestId" ;;
      project <- arg args "project" ;; getPullRequestById c repositoryId pullRequestId project);
   ("search_code", fun c args =>
      searchText <- arg args "searchText" ;; project <- arg args "project" ;;
      repository <- arg args "repository" ;; top <- arg args "top" ;;
      searchCode c searchText project repository top);
   ("search_work_items", fun c args =>
      searchText <- arg args "searchText" ;; project <- arg args "project" ;;
      top <- arg args "top" ;; searchWorkItems c searchText project top);
   ("list_wikis", fun c args => project <- arg args "project" ;; getWikis c project);
   ("get_wiki_page", fun c args =>
      wikiIdentifier <- arg args "wikiIdentifier" ;; project <- arg args "project" ;;
      path <- arg args "path" ;; getWikiPageContent c wikiIdentifier project path);
   ("list_team_iterations", fun c args =>
      project <- arg args "project" ;; team <- arg args "team" ;;
      getTeamIterations c project team);
   ("list_test_plans", fun c args => project <- arg args "project" ;; getTestPlans c project);
   ("list_project_teams", fun c args =>
      project <- arg args "project" ;; mine <- arg args "mine" ;; top <- arg args "top" ;;
      skip <- arg args "skip" ;; getTeams c project mine top skip);
   ("get_identity_ids", fun c args =>
      searchFilter <- arg args "searchFilter" ;; searchIdentities c searchFilter);
   ("get_current_user", fun c args => getCurrentUser c);
   ("list_work_item_types", fun c args =>
      project <- arg args "project" ;; getWorkItemTypes c project);
   ("list_iterations", fun c args => project <- arg args "project" ;; getIterations c project);
   ("list_build_definitions", fun c args =>
      project <- arg args "project" ;; getBuildDefinitions c project);
   ("list_release_definitions", fun c args =>
      project <- arg args "project" ;; getReleaseDefinitions c project);
   ("list_queries", fun c args => project <- arg args "project" ;; getQueries c project);
   ("get_work_item_revisions", fun c args =>
      id <- arg args "id" ;; project <- arg args "project" ;;
      getWorkItemRevisions c id project);
   ("get_work_item_links", fun c args =>
      id <- arg args "id" ;; project <- arg args "project" ;; getWorkItemLinks c id project);
   ("create_pull_request", fun c args =>
      repositoryId <- arg args "repositoryId" ;; sourceBranch <- arg args "sourceBranch" ;;
      targetBranch <- arg args "targetBranch" ;; title <- arg args "title" ;;
      description <- arg args "description" ;; project <- arg args "project" ;;
      createPullRequest c repositoryId sourceBranch targetBranch title description project);
   ("list_commits", fun c args =>
      repositoryId <- arg args "repositoryId" ;; project <- arg args "project" ;;
      top <- arg args "top" ;; getCommits c repositoryId project top);
   ("get_file_content", fun c args =>
      repositoryId <- arg args "repositoryId" ;; path <- arg args "path" ;;
      project <- arg args "project" ;; getFileContent c repositoryId path project);
   ("list_areas", fun c args => project <- arg args "project" ;; getAreas c project);
   ("list_iteration_capacities", fun c args =>
      project <- arg args "project" ;; team <- arg args "team" ;;
      iterationId <- arg args "iterationId" ;;
      getIterationCapacities c project team iterationId);
   ("list_work_item_categories", fun c args =>
      project <- arg args "project" ;; getWorkItemCategories c project);
   ("list_dashboards", fun c args => project <- arg args "project" ;; getDashboards c project);
   ("list_pipelines", fun c args => project <- arg args "project" ;; getPipelines c project);
   ("list_test_suites", fun c args =>
      project <- arg args "project" ;; planId <- arg args "planId" ;;
      getTestSuites c project planId);
   ("list_variable_groups", fun c args =>
      project <- arg args "project" ;; getVariableGroups c project);
   ("list_service_endpoints", fun c args =>
      project <- arg args "project" ;; getServiceEndpoints c project);
   ("list_tags", fun c args => project <- arg args "project" ;; getTags c project);
   ("list_team_members", fun c args =>
      project <- arg args "project" ;; team <- arg args "team" ;;
      getTeamMembers c project team);
   ("list_boards", fun c args =>
      project <- arg args "project" ;; team <- arg args "team" ;; getBoards c project team);
   ("list_board_columns", fun c args =>
      project <- arg args "project" ;; team <- arg args "team" ;; board <- arg args "board" ;;
      getBoardColumns c project team board);
   ("list_board_rows", fun c args =>
      project <- arg args "project" ;; team <- arg args "team" ;; board <- arg args "board" ;;
      getBoardRows c project team board);
   ("list_work_item_states", fun c args =>
      project <- arg args "project" ;; workItemType <- arg args "workItemType" ;;
      getWorkItemStates c project workItemType);
   ("list_work_item_fields", fun c args =>
      project <- arg args "project" ;; getWorkItemFields c project);
   ("list_work_item_updates", fun c args =>
      id <- arg args "id" ;; project <- arg args "project" ;; getWorkItemUpdates c id project);
   ("list_work_item_attachments", fun c args =>
      id <- arg args "id" ;; project <- arg args "project" ;;
      getWorkItemAttachments c id project);
   ("list_work_item_comments", fun c args =>
      id <- arg args "id" ;; project <- arg args "project" ;; getWorkItemComments c id project);
   ("list_work_item_relations", fun c args =>
      id <- arg args "id" ;; project <- arg args "project" ;;
      getWorkItemRelations c id project);
   ("list_work_item_query_results", fun c args =>
      project <- arg args "project" ;; queryId <- arg args "queryId" ;;
      getQueryResults c project queryId)].

Definition format_create_work_item (workItem args : JS) : Res string :=
  tpl [T "✅ Work item created successfully!"; T nl;
       T "**ID**: "; V (get workItem "id"); T nl;
       T "**Type**: "; V (get args "workItemType"); T nl;
       T "**Title**: "; V (get args "title"); T nl;
       T "**URL**: "; V (get workItem "url"); T nl;
       (d <~ get args "description" ;; optLine "**Description**: " d)].

Definition format_update_work_item (site : Site) (workItem args : JS) : Res string :=
  fields <~ (get args "fields" ||| JObj []) ;;
  fieldList <~ fieldListOf (match site with
                            | ApiTools => fields
                            | ApiChat => safeFieldsOf fields
                            end) ;;
  tpl [T "✅ Work item "; V (get workItem "id"); T " updated successfully!"; T nl;
       T "**Updated fields**:"; T nl;
       T fieldList; T nl;
       (cm <~ get args "comment" ;; optLine "**Comment**: " cm)].

Definition format_assign_work_item (workItem args : JS) : Res string :=
  tpl [T "✅ Work item "; V (get workItem "id"); T " assigned to "; V (get args "assignee");
       T " successfully!"; T nl;
       (cm <~ get args "comment" ;; optLine "**Comment**: " cm)].

Definition format_get_pull_request (pr : JS) : Res string :=
  tpl [T "## Pull Request "; V (get pr "pullRequestId"); T nl;
       T "**Title**: "; V (get pr "title"); T nl;
       T "**Repository**: "; V (odot (get pr "repository") "name" ||| JStr ""); T nl;
       T "**Status**: "; V (get pr "status"); T nl;
       T "**Created By**: "; V (odot (get pr "createdBy") "displayName" ||| JStr "");
       T " ("; V (odot (get pr "createdBy") "uniqueName" ||| JStr ""); T ")"; T nl;
       T "**Created**: "; V (get pr "creationDate"); T nl;
       T "**Source**: "; V (get pr "sourceRefName"); T nl;
       T "**Target**: "; V (get pr "targetRefName"); T nl;
       (d <~ get pr "description" ;; optLine "**Description**: " d)].

Definition format_get_wiki_page (content args : JS) : Res string :=
  tpl [T "## Wiki Page: "; V (get args "path" ||| JStr "/"); T nl; V (Ok content)].

Definition format_get_current_user (user : JS) : Res string :=
  tpl [T "## Current User"; T nl;
       T "**ID**: "; V (get user "id"); T nl;
       T "**Display Name**: "; V (get user "displayName"); T nl;
       T "**Unique Name**: "; V (get user "uniqueName"); T nl;
       T "**Email**: "; V (get user "email" ||| JStr "N/A")].

Definition format_create_pull_request (pr args : JS) : Res string :=
  tpl [T "✅ Pull request created successfully!"; T nl;
       T "**ID**: "; V (get pr "pullRequestId"); T nl;
       T "**Title**: "; V (get args "title"); T nl;
       T "**Repository**: "; V (odot (get pr "repository") "name" ||| JStr ""); T nl;
       T "**Source**: "; V (get args "sourceBranch"); T nl;
       T "**Target**: "; V (get args "targetBranch"); T nl;
       T "**Status**: "; V (get pr "status"); T nl;
       T "**URL**: "; V (get pr "url" ||| JStr "N/A"); T nl;
       (d <~ get args "description" ;; optLine "**Description**: " d)].

Definition format_get_file_content (content args : JS) : Res string :=
  tpl [T "## File: "; V (get args "path"); T nl; T "```"; T nl; V (Ok content); T nl; T "```"].

(** The [if (name === ...) ... else if ...] chain, in source order; its
    final [else] is the JSON fallback of [format]. *)
Definition templates : list (string * (Site -> JS -> JS -> Res string)) :=
  [("list_projects", fun _ rawResult _ => format_list_projects rawResult);
   ("query_work_items", fun _ rawResult _ => format_work_items rawResult);
   ("get_work_items_by_ids", fun _ rawResult _ => format_work_items rawResult);
   ("get_builds", fun _ rawResult _ => format_get_builds rawResult);
   ("get_releases", fun _ rawResult _ => format_get_releases rawResult);
   ("create_work_item", fun _ rawResult args => format_create_work_item rawResult args);
   ("update_work_item", fun site rawResult args => format_update_work_item site rawResult args);
   ("assign_work_item", fun _ rawResult args => format_assign_work_item rawResult args);
   ("list_repositories", fun _ rawResult _ => format_list_repositories rawResult);
   ("list_branches", fun _ rawResult _ => format_list_branches rawResult);
   ("list_pull_requests", fun _ rawResult _ => format_list_pull_requests rawResult);
   ("get_pull_request", fun _ rawResult _ => format_get_pull_request rawResult);
   ("search_code", fun _ rawResult _ => format_search_code rawResult);
   ("search_work_items", fun _ rawResult _ => format_search_work_items rawResult);
   ("list_wikis", fun _ rawResult _ => format_list_wikis rawResult);
   ("get_wiki_page", fun _ rawResult args => format_get_wiki_page rawResult args);
   ("list_team_iterations", fun _ rawResult _ => format_list_team_iterations rawResult);
   ("list_test_plans", fun _ rawResult _ => format_list_test_plans rawResult);
   ("list_project_teams", fun _ rawResult _ => format_list_project_teams rawResult);
   ("get_identity_ids", fun _ rawResult _ => format_get_identity_ids rawResult);
   ("get_current_user", fun _ rawResult _ => format_get_current_user rawResult);
   ("list_work_item_types", fun _ rawResult _ => format_list_work_item_types rawResult);
   ("list_iterations", fun _ rawResult _ => format_list_iterations rawResult);
   ("list_build_definitions", fun _ rawResult _ => format_list_build_definitions rawResult);
   ("list_release_definitions", fun _ rawResult _ => format_list_release_definitions rawResult);
   ("list_queries", fun _ rawResult _ => format_list_queries rawResult);
   ("get_work_item_revisions", fun _ rawResult _ => format_get_work_item_revisions rawResult);
   ("get_work_item_links", fun _ rawResult _ => format_get_work_item_links rawResult);
   ("create_pull_request", fun _ rawResult args => format_create_pull_request rawResult args);
   ("list_commits", fun _ rawResult _ => format_list_commits rawResult);
   ("get_file_content", fun _ rawResult args => format_get_file_content rawResult args)].

(** [let formatted; if ... else formatted = JSON.stringify(rawResult, null, 2)] *)
Definition format (site : Site) (name : string) (rawResult args : JS) : Res JS :=
  match switch templates name with
  | Some f => rmap JStr (f site rawResult args)
  | None =>
      Ok (match stringify "" rawResult with
          | Some s => JStr s
          | None => JUndef
          end)
  end.

End Api.

(** [tools.find(t => t.name === n)] *)
Definition findTool (n : string) : option Tool :=
  find (fun t => String.eqb (name t) n) tools.

(** [app.post('/api/tools/:name', ...)]: [name] is [req.params.name] and
    [args] is [req.body].  The client constructed per request reads the same
    environment as the one built at start-up and is the same [Client].
    [apiToolsBody] is the body of the [try] block. *)
Definition apiToolsBody (c : Client) (name : string) (args : JS) : M HttpResponse :=
  match findTool name with
  | None => ret (mkResponse 404 (errorBody "Tool not found"))
  | Some _ =>
      match switch (Api.cases ApiTools) name with
      | None => ret (mkResponse 400 (errorBody "Unsupported tool"))
      | Some k =>
          rawResult <- k c args ;;
          formatted <- lift (Api.format ApiTools name rawResult args) ;;
          ret (mkResponse 200 (JObj [("result", formatted); ("raw", rawResult)]))
      end
  end.

Definition apiTools (c : Client) (name : string) (args : JS) : M HttpResponse :=
  tryCatch (apiToolsBody c name args)
           (fun error => ret (mkResponse 500 (errorBody (message error)))).

(** The function-call branch of [app.post('/api/chat', ...)], from the
    dispatching [switch (functionName)] to the value of [formatted] that is
    handed to the second model call; an unknown function name answers 400
    at once.  [functionName] is whatever the model returned: only a string
    can match a [case] label. *)
Definition chatFunctionCall (c : Client) (functionName functionArgs : JS)
  : M (HttpResponse + JS * JS) :=
  match functionName with
  | JStr name =>
      match switch (Api.cases ApiChat) name with
      | None => ret (inl (mkResponse 400 (errorBody ("Unknown function: " ++ name))))
      | Some k =>
          rawResult <- k c functionArgs ;;
          formatted <- lift (Api.format ApiChat name rawResult functionArgs) ;;
          ret (inr (formatted, rawResult))
      end
  | _ => ret (inl (mkResponse 400 (errorBody ("Unknown function: " ++ toStr functionName))))
  end.

(** [openai.chat.completions.create({ model, messages, functions, ... })].
    The call is recorded by its conversation; the model name, the fixed
    system prompt and the function catalog built from [tools] are the same
    in every call and are left out of the record. *)
Definition chatCompletion (messages : list JS) : M JS :=
  request (mkRequest POST ViaOpenAI "/chat/completions"
             (JObj [("messages", JArr messages)]) []).

Definition userMessage (message : JS) : JS :=
  JObj [("role", JStr "user"); ("content", message)].

Definition functionMessage (functionName formatted : JS) : JS :=
  JObj [("role", JStr "function"); ("name", functionName); ("content", formatted)].

(** [try { functionArgs = JSON.parse(s || '{}') } catch (e) { functionArgs = {} }];
    [JSON.parse] is the engine's parser, taken as a parameter. *)
Definition parseArguments (JSON_parse : string -> Res JS) (arguments : JS) : JS :=
  match JSON_parse (toStr (oror arguments (JStr "{}"))) with
  | Ok v => v
  | Throw _ => JObj []
  end.

(** The body of the [try] block of [app.post('/api/chat', ...)]. *)
Definition apiChatBody (JSON_parse : string -> Res JS) (c : Client) (message : JS)
  : M HttpResponse :=
  response <- chatCompletion [userMessage message] ;;
  choice <- lift (dot (get response "choices") "0") ;;
  choiceMessage <- lift (get choice "message") ;;
  if negb (truthy choiceMessage)
  then ret (mkResponse 500 (errorBody "No response from OpenAI")) else
  let function_call := prop choiceMessage "function_call" in
  if truthy function_call then
    let functionName := prop function_call "name" in
    let functionArgs := parseArguments JSON_parse (prop function_call "arguments") in
    called <- chatFunctionCall c functionName functionArgs ;;
    match called with
    | inl response => ret response
    | inr (formatted, rawResult) =>
        secondResponse <- chatCompletion [userMessage message; choiceMessage;
                                          functionMessage functionName formatted] ;;
        finalMessage <- lift (dot (dot (get secondResponse "choices") "0") "message") ;;
        content <- lift (get finalMessage "content") ;;
        ret (mkResponse 200 (JObj [("result", content); ("tool_used", functionName);
                                   ("raw_result", rawResult)]))
    end
  else
    ret (mkResponse 200 (JObj [("result", prop choiceMessage "content");
                               ("tool_used", JNull)])).

Definition isString (v : JS) : bool :=
  match v with JStr _ => true | _ => false end.

(** [res.status(500).json({ error: error.message })] *)
Definition serverError (error : JSError) : M HttpResponse :=
  ret (mkResponse 500 (errorBody (message error))).

(** [app.post('/api/chat', ...)]; [message] is [req.body.message]. *)
Definition apiChat (JSON_parse : string -> Res JS) (c : Client) (message : JS)
  : M HttpResponse :=
  if negb (truthy message) || negb (isString message)
  then ret (mkResponse 400 (errorBody "Message is required")) else
  tryCatch (apiChatBody JSON_parse c message) serverError.

(** * Vocabulary of the properties *)

(** ** Two-step WIQL query (C2) *)

(** The request of the first step and the batch fetch of the second. *)
Definition wiqlRequest (c : Client) (wiql : JS) : Request :=
  mkRequest POST ViaInstance ("/" ++ this_project c ++ "/_apis/wit/wiql?api-version=7.1")
            (JObj [("query", wiql)]) [].

Definition batchRequest (c : Client) (ids : string) : Request :=
  mkRequest GET ViaInstance
            ("/" ++ this_project c ++ "/_apis/wit/workitems?ids=" ++ ids ++ "&api-version=7.1")
            JUndef [].

(** After the requests [tr], the backend answers the WIQL query with the
    work-item references [refs]. *)
Definition firstStep (be : Backend) (tr : list Request) (c : Client) (wiql refs : JS) : Prop :=
  exists data, be tr (wiqlRequest c wiql) = Resp data /\ get data "workItems" = Ok refs.

(** A connection context and two backends used to exercise the theorems. *)
Definition demoClient : Client := mkClient "contoso" "Fabrikam" "secret".

Definition demoWiql : JS := JStr "SELECT [System.Id] FROM WorkItems".

Definition noRefsBackend : Backend :=
  fun _ _ => Resp (JObj [("workItems", JArr [])]).

Definition refs79Backend : Backend :=
  fun tr _ =>
    match tr with
    | [] => Resp (JObj [("workItems", JArr [JObj [("id", JNum 7)]; JObj [("id", JNum 9)]])])
    | _ => Resp (JObj [("value", JArr [JObj [("id", JNum 7)]; JObj [("id", JNum 9)]])])
    end.

(** ** The 404 policy of the Backend Client (C3) *)

(** The list-style methods that query a feature a project may not have
    enabled: those whose source carries the 404 clause.  Each takes up to
    three arguments. *)
Definition optionalListMethods : list (string * (Client -> JS -> JS -> JS -> M JS)) :=
  [("getTestPlans", fun c project _ _ => getTestPlans c project);
   ("getIterations", fun c project _ _ => getIterations c project);
   ("getReleaseDefinitions", fun c project _ _ => getReleaseDefinitions c project);
   ("getAreas", fun c project _ _ => getAreas c project);
   ("getIterationCapacities", fun c project team iterationId =>
      getIterationCapacities c project team iterationId);
   ("getWorkItemCategories", fun c project _ _ => getWorkItemCategories c project);
   ("getDashboards", fun c project _ _ => getDashboards c project);
   ("getPipelines", fun c project _ _ => getPipelines c project);
   ("getTestSuites", fun c project planId _ => getTestSuites c project planId);
   ("getVariableGroups", fun c project _ _ => getVariableGroups c project);
   ("getServiceEndpoints", fun c project _ _ => getServiceEndpoints c project);
   ("getTags", fun c project _ _ => getTags c project);
   ("getTeamMembers", fun c project team _ => getTeamMembers c project team);
   ("getBoards", fun c project team _ => getBoards c project team);
   ("getBoardColumns", fun c project team board => getBoardColumns c project team board);
   ("getBoardRows", fun c project team board => getBoardRows c project team board);
   ("getWorkItemStates", fun c project workItemType _ =>
      getWorkItemStates c project workItemType);
   ("getWorkItemFields", fun c project _ _ => getWorkItemFields c project);
   ("getWorkItemUpdates", fun c id project _ => getWorkItemUpdates c id project);
   ("getWorkItemAttachments", fun c id project _ => getWorkItemAttachments c id project);
   ("getWorkItemComments", fun c id project _ => getWorkItemComments c id project);
   ("getWorkItemRelations", fun c id project _ => getWorkItemRelations c id project);
   ("getQueryResults", fun c project queryId _ => getQueryResults c project queryId)].

(** After the requests [tr], the backend answers whatever is asked with
    status 404. *)
Definition answers404 (be : Backend) (tr : list Request) : Prop :=
  forall rq, exists msg, be tr rq = Reject msg (Some 404).

Definition always404 : Backend :=
  fun _ _ => Reject "Request failed with status code 404" (Some 404).

Definition mem (n : string) (l : list string) : bool := existsb (String.eqb n) l.

Definition included (l1 l2 : list string) : bool := forallb (fun n => mem n l2) l1.

Fixpoint distinct (l : list string) : bool :=
  match l with
  | [] => true
  | n :: r => negb (mem n r) && distinct r
  end.

(** ** Requests issued by an invocation *)

Inductive CallSite : Type := McpCallTool | HttpApiTools | HttpApiChat.

(** The requests on record after tool [name] was invoked with [args] at a
    call site. *)
Definition requestsOf (s : CallSite) (c : Client) (name : string) (args : JS)
  (be : Backend) (tr : list Request) : list Request :=
  match s with
  | McpCallTool => calls (callTool c name args be tr)
  | HttpApiTools => calls (apiTools c name args be tr)
  | HttpApiChat => calls (chatFunctionCall c (JStr name) args be tr)
  end.

(** A continuation that issues no request. *)
Definition silent {A B} (k : A -> M B) : Prop :=
  forall a be tr, calls (k a be tr) = tr.

(** ** Truthiness defaults (C10) *)

Definition buildsRequest (c : Client) (definitionId top : JS) : Request :=
  mkRequest GET ViaInstance
    ("/" ++ this_project c ++ "/_apis/build/builds?api-version=7.1&$top=" ++ toStr top
     ++ (if truthy definitionId then "&definitions=" ++ toStr definitionId else ""))
    JUndef [].

Definition releasesRequest (c : Client) (top : JS) : Request :=
  mkRequest GET ViaInstance
    ("/" ++ this_project c ++ "/_apis/release/releases?api-version=7.1&$top=" ++ toStr top)
    JUndef [].

(** The Backend Client methods that take an optional [project]; the other
    arguments, at most five, are passed in the order of the source. *)
Definition optionalProjectMethods
  : list (string * (Client -> JS -> JS -> JS -> JS -> JS -> JS -> M JS)) :=
  [("getRepositories", fun c project _ _ _ _ _ => getRepositories c project);
   ("getBranches", fun c project repositoryId _ _ _ _ => getBranches c repositoryId project);
   ("getPullRequests", fun c project repositoryId top status _ _ =>
      getPullRequests c repositoryId project top status);
   ("getPullRequestById", fun c project repositoryId pullRequestId _ _ _ =>
      getPullRequestById c repositoryId pullRequestId project);
   ("searchCode", fun c project searchText repository top _ _ =>
      searchCode c searchText project repository top);
   ("searchWorkItems", fun c project searchText top _ _ _ =>
      searchWorkItems c searchText project top);
   ("getWikis", fun c project _ _ _ _ _ => getWikis c project);
   ("getWikiPageContent", fun c project wikiIdentifier path _ _ _ =>
      getWikiPageContent c wikiIdentifier project path);
   ("getWorkItemTypes", fun c project _ _ _ _ _ => getWorkItemTypes c project);
   ("getIterations", fun c project _ _ _ _ _ => getIterations c project);
   ("getBuildDefinitions", fun c project _ _ _ _ _ => getBuildDefinitions c project);
   ("getReleaseDefinitions", fun c project _ _ _ _ _ => getReleaseDefinitions c project);
   ("getQueries", fun c project _ _ _ _ _ => getQueries c project);
   ("getWorkItemRevisions", fun c project id _ _ _ _ => getWorkItemRevisions c id project);
   ("getWorkItemLinks", fun c project id _ _ _ _ => getWorkItemLinks c id project);
   ("createPullRequest", fun c project repositoryId sourceBranch targetBranch title description =>
      createPullRequest c repositoryId sourceBranch targetBranch title description project);
   ("getCommits", fun c project repositoryId top _ _ _ => getCommits c repositoryId project top);
   ("getFileContent", fun c project repositoryId path _ _ _ =>
      getFileContent c repositoryId path project);
   ("getAreas", fun c project _ _ _ _ _ => getAreas c project);
   ("getWorkItemCategories", fun c project _ _ _ _ _ => getWorkItemCategories c project);
   ("getDashboards", fun c project _ _ _ _ _ => getDashboards c project);
   ("getPipelines", fun c project _ _ _ _ _ => getPipelines c project);
   ("getVariableGroups", fun c project _ _ _ _ _ => getVariableGroups c project);
   ("getServiceEndpoints", fun c project _ _ _ _ _ => getServiceEndpoints c project);
   ("getTags", fun c project _ _ _ _ _ => getTags c project);
   ("getWorkItemFields", fun c project _ _ _ _ _ => getWorkItemFields c project);
   ("getWorkItemUpdates", fun c project id _ _ _ _ => getWorkItemUpdates c id project);
   ("getWorkItemAttachments", fun c project id _ _ _ _ =>
      getWorkItemAttachments c id project);
   ("getWorkItemComments", fun c project id _ _ _ _ => getWorkItemComments c id project);
   ("getWorkItemRelations", fun c project id _ _ _ _ => getWorkItemRelations c id project)].

(** The first half of C10 read over every call site: a supplied [top] of 0
    reaches the backend as 10. *)
Definition top_zero_defaults_everywhere : Prop :=
  forall s c args be tr,
    oget args "top" = JNum 0 ->
    requestsOf s c "get_builds" args be tr
    = (tr ++ [buildsRequest c (oget args "definitionId") (JNum 10)])%list.

Definition emptyValueBackend : Backend :=
  fun _ _ => Resp (JObj [("value", JArr [])]).

(** ** Required parameters (C1) *)

(** The cases of the CallTool handler that test their required parameters
    before calling the Backend Client. *)
Definition guardedTools : list string :=
  ["query_work_items"; "get_work_items_by_ids"; "create_work_item"; "update_work_item";
   "assign_work_item"; "get_identity_ids"; "get_work_item_revisions"; "get_work_item_links";
   "create_pull_request"; "list_commits"; "get_file_content"; "list_iteration_capacities";
   "list_test_suites"; "list_team_members"; "list_boards"; "list_board_columns";
   "list_board_rows"; "list_work_item_states"; "list_work_item_updates";
   "list_work_item_attachments"; "list_work_item_comments"; "list_work_item_relations";
   "list_work_item_query_results"].

(** The [required] list the registry declares for a tool. *)
Definition requiredOf (n : string) : list string :=
  match findTool n with
  | Some t => required t
  | None => []
  end.

(** ** Missing fields in table cells (C5) *)

Definition branchWithoutObjectId : JS :=
  JObj [("name", JStr "refs/heads/main")].

Definition oneBranchBackend : Backend :=
  fun _ _ => Resp (JObj [("value", JArr [branchWithoutObjectId])]).

Definition branchesArgs : JS := JObj [("repositoryId", JStr "repo")].

(** ** The three call sites side by side (C9, C4) *)

Definition queryArgs : JS := JObj [("wiql", demoWiql)].

Definition noAreasBackend : Backend :=
  fun _ _ => Resp (JObj [("children", JArr [])]).

(** The registry tools with a required parameter that are not guarded. *)
Definition unguardedTools : list string :=
  ["list_project_teams"; "list_branches"; "get_pull_request"; "search_code";
   "search_work_items"; "get_wiki_page"; "list_team_iterations"; "list_test_plans"].

Definition mentions (p msg : string) : bool :=
  match String.index 0 p msg with
  | Some _ => true
  | None => false
  end.

(** ** Empty sequences in the tables of the CallTool handler *)

(** The list-shaped cases of the CallTool handler with the function that
    formats their payload. *)
Definition mcpListFormats : list (string * (JS -> Res string)) :=
  [("list_projects", McpTables.format_list_projects);
   ("query_work_items", McpTables.format_query_work_items);
   ("get_work_items_by_ids", McpTables.format_get_work_items_by_ids);
   ("get_builds", McpTables.format_get_builds);
   ("get_releases", McpTables.format_get_releases);
   ("list_repositories", McpTables.format_list_repositories);
   ("list_branches", McpTables.format_list_branches);
   ("list_pull_requests", McpTables.format_list_pull_requests);
   ("search_code", McpTables.format_search_code);
   ("search_work_items", McpTables.format_search_work_items);
   ("list_wikis", McpTables.format_list_wikis);
   ("list_team_iterations", McpTables.format_list_team_iterations);
   ("list_test_plans", McpTables.format_list_test_plans);
   ("list_project_teams", McpTables.format_list_project_teams);
   ("get_identity_ids", McpTables.format_get_identity_ids);
   ("list_work_item_types", McpTables.format_list_work_item_types);
   ("list_iterations", McpTables.format_list_iterations);
   ("list_build_definitions", McpTables.format_list_build_definitions);
   ("list_release_definitions", McpTables.format_list_release_definitions);
   ("list_queries", McpTables.format_list_queries);
   ("get_work_item_revisions", McpTables.format_get_work_item_revisions);
   ("get_work_item_links", McpTables.format_get_work_item_links);
   ("list_commits", McpTables.format_list_commits);
   ("list_areas", McpTables.format_list_areas);
   ("list_iteration_capacities", McpTables.format_list_iteration_capacities);
   ("list_work_item_categories", McpTables.format_list_work_item_categories);
   ("list_dashboards", McpTables.format_list_dashboards);
   ("list_pipelines", McpTables.format_list_pipelines);
   ("list_test_suites", McpTables.format_list_test_suites);
   ("list_variable_groups", McpTables.format_list_variable_groups);
   ("list_service_endpoints", McpTables.format_list_service_endpoints);
   ("list_tags", McpTables.format_list_tags);
   ("list_team_members", McpTables.format_list_team_members);
   ("list_boards", McpTables.format_list_boards);
   ("list_board_columns", McpTables.format_list_board_columns);
   ("list_board_rows", McpTables.format_list_board_rows);
   ("list_work_item_states", McpTables.format_list_work_item_states);
   ("list_work_item_fields", McpTables.format_list_work_item_fields);
   ("list_work_item_updates", McpTables.format_list_work_item_updates);
   ("list_work_item_attachments", McpTables.format_list_work_item_attachments);
   ("list_work_item_comments", McpTables.format_list_work_item_comments);
   ("list_work_item_relations", McpTables.format_list_work_item_relations);
   ("list_work_item_query_results", McpTables.format_list_work_item_query_results)].

Definition starts_with (p s : string) : bool := String.prefix p s.

Definition ends_with (p s : string) : bool :=
  String.eqb (String.substring (String.length s - String.length p) (String.length p) s) p.

(** A fixed one-line message of the form "No ... ." *)
Definition isEmptyMessage (msg : string) : bool :=
  starts_with "No " msg && ends_with "." msg && negb (mentions nl msg).

(** ** Confirmation blocks of the mutation tools (C8) *)










Definition echo5Backend : Backend := fun _ _ => Resp (JObj [("id", JNum 5)]).


Definition echo42Backend : Backend :=
  fun _ _ => Resp (JObj [("id", JNum 42); ("url", JStr "https://.../42")]).


(** ** The saved-query request and the document of a new work item *)

Definition queryResultsRequest (project queryId : JS) : Request :=
  mkRequest GET ViaInstance
    ("/" ++ toStr project ++ "/_apis/wit/queries/" ++ toStr queryId
     ++ "?$expand=results&api-version=7.1")
    JUndef [].

(** The request [createWorkItem] sends for the field list [fields]. *)
Definition createRequest (c : Client) (workItemType : JS) (fields : list (string * JS))
  : Request :=
  mkRequest POST ViaInstance
    ("/" ++ this_project c ++ "/_apis/wit/workitems/$" ++ toStr workItemType
     ++ "?api-version=7.1")
    (JArr (map (fun p => patchOp (fst p) (snd p)) fields)) json_patch.


(** A saved query with one result whose batch fetch is answered 404. *)
Definition staleQueryBackend : Backend :=
  fun tr _ =>
    match tr with
    | [] => Resp (JObj [("results", JObj [("workItems", JArr [JObj [("id", JNum 7)]])])])
    | _ => Reject "Request failed with status code 404" (Some 404)
    end.

(** ** Requests an invocation may issue *)

(** [m] only adds requests to the record: at most [n], each satisfying [P]. *)
Definition issues {A} (P : Request -> Prop) (n : nat) (m : M A) : Prop :=
  forall be tr, exists new,
    calls (m be tr) = (tr ++ new)%list /\ Forall P new /\ (length new <= n)%nat.

(** A request that reads: a GET, the WIQL query or a search. *)
Definition isQuery (rq : Request) : Prop :=
  verb rq = GET
  \/ (exists c wiql, rq = wiqlRequest c wiql)
  \/ (verb rq = POST
      /\ starts_with "https://almsearch.dev.azure.com/" (url rq) = true).

(** The tools that create or change a work item or a pull request. *)
Definition mutationTools : list string :=
  ["create_work_item"; "update_work_item"; "assign_work_item"; "create_pull_request"].

(** The tools backed by a two-step method of the Backend Client. *)
Definition twoStepTools : list string :=
  ["query_work_items"; "list_work_item_query_results"].

Definition allowed (n : string) : Request -> Prop :=
  if mem n mutationTools then fun _ => True else isQuery.

Definition budget (n : string) : nat :=
  if mem n twoStepTools then 2%nat else 1%nat.

(** ** Transport errors *)

(** The backend rejects every request with the message [msg] and the
    response status [st]. *)
Definition rejectsAll (be : Backend) (msg : string) (st : option Z) : Prop :=
  forall tr rq, be tr rq = Reject msg st.

(** Against such a backend [m] either makes no request or throws the
    rejection of a request. *)
Definition surfaces {A} (msg : string) (st : option Z) (m : M A) : Prop :=
  forall be tr, rejectsAll be msg st ->
    calls (m be tr) = tr
    \/ exists new, m be tr = (Throw (AxiosError msg st), (tr ++ new)%list).

Definition always500 : Backend :=
  fun _ _ => Reject "Request failed with status code 500" (Some 500).

(** ** Arguments a tool declares *)

(** The parameter names of a tool's input schema. *)
Definition declaredOf (n : string) : list string :=
  match findTool n with
  | Some t => map pname (properties t)
  | None => []
  end.

Definition zeroIdArgs : JS :=
  JObj [("id", JNum 0); ("fields", JObj [("System.Title", JStr "New")])].

(** ** Features a project may not have *)

(** The tools of the CallTool handler whose Backend Client method carries
    the 404 clause. *)
Definition clauseTools : list string :=
  ["list_test_plans"; "list_iterations"; "list_release_definitions"; "list_areas";
   "list_iteration_capacities"; "list_work_item_categories"; "list_dashboards";
   "list_pipelines"; "list_test_suites"; "list_variable_groups"; "list_service_endpoints";
   "list_tags"; "list_team_members"; "list_boards"; "list_board_columns"; "list_board_rows";
   "list_work_item_states"; "list_work_item_fields"; "list_work_item_updates";
   "list_work_item_attachments"; "list_work_item_comments"; "list_work_item_relations";
   "list_work_item_query_results"].

(** ** Rows that tolerate any record *)





(** ** Tables rendered at more than one call site *)



(** ** A turn of the chat endpoint *)

(** The first model call of a turn: the conversation is the user's message. *)
Definition firstCompletion (userText : JS) : Request :=
  mkRequest POST ViaOpenAI "/chat/completions"
            (JObj [("messages", JArr [userMessage userText])]) [].

(** The second model call: the user's message, the model's first message
    and the result of the function it selected. *)
Definition secondCompletion (userText choiceMessage functionName formatted : JS) : Request :=
  mkRequest POST ViaOpenAI "/chat/completions"
            (JObj [("messages", JArr [userMessage userText; choiceMessage;
                                      functionMessage functionName formatted])]) [].

(** A model that answers in plain text and selects no function. *)
Definition plainAnswerBackend : Backend :=
  fun _ _ =>
    Resp (JObj [("choices", JArr [JObj [("message", JObj [("content", JStr "Hello!")])]])]).

(** * The constructor of the Backend Client

    [new AzureDevOpsClient()] reads three variables of [process.env]; it
    either throws or yields the connection context together with the
    configuration of the axios instance. *)

(** [process.env]: a variable holds a string or is not set. *)
Definition Env : Type := string -> option string.

(** [process.env.K] *)
Definition envVar (env : Env) (k : string) : JS :=
  match env k with
  | Some s => JStr s
  | None => JUndef
  end.

(** [s] without its prefix [p], when [s] starts with [p]. *)
Fixpoint strip_prefix (p s : string) : option string :=
  match p, s with
  | EmptyString, _ => Some s
  | String a p', String b s' => if Ascii.eqb a b then strip_prefix p' s' else None
  | String _ _, EmptyString => None
  end.

(** What [[^\/]+] consumes: the longest prefix without a slash. *)
Fixpoint segment (s : string) : string :=
  match s with
  | EmptyString => EmptyString
  | String ch r => if Ascii.eqb ch "/" then EmptyString else String ch (segment r)
  end.

(** [s.match(/dev\.azure\.com\/([^\/]+)/)]: the capture group of the
    leftmost match, [None] when there is no match. *)
Fixpoint matchOrganization (s : string) : option string :=
  let here :=
    match strip_prefix "dev.azure.com/" s with
    | Some rest =>
        match segment rest with
        | EmptyString => None
        | org => Some org
        end
    | None => None
    end in
  match here with
  | Some org => Some org
  | None =>
      match s with
      | EmptyString => None
      | String _ r => matchOrganization r
      end
  end.

(** The options handed to [axios.create]. *)
Record AxiosConfig : Type := mkAxiosConfig {
  baseURL : string;
  defaultHeaders : list (string * string)
}.

Definition newAzureDevOpsClient (env : Env) : Res (Client * AxiosConfig) :=
  let orgUrl := envVar env "AZURE_DEVOPS_ORG_URL" in
  if negb (truthy orgUrl)
  then Throw (Error "AZURE_DEVOPS_ORG_URL is not defined in environment variables")
  else
    let pat := toStr (oror (envVar env "AZURE_DEVOPS_PAT") (JStr "")) in
    let project := toStr (oror (envVar env "AZURE_DEVOPS_PROJECT") (JStr "")) in
    match matchOrganization (toStr orgUrl) with
    | None =>
        Throw (Error ("Invalid AZURE_DEVOPS_ORG_URL format. "
                      ++ "Expected https://dev.azure.com/{organization}"))
    | Some organization =>
        let auth := base64 (":" ++ pat) in
        Ok (mkClient organization project pat,
            mkAxiosConfig ("https://dev.azure.com/" ++ organization)
              [("Authorization", "Basic " ++ auth);
               ("Content-Type", "application/json")])
    end.

(** ** Vocabulary for the constructor *)

Definition orEmpty (o : option string) : string :=
  match o with
  | Some s => s
  | None => ""
  end.

Definition noSlash (s : string) : Prop := ~ In "/"%char (list_ascii_of_string s).

Definition demoEnv : Env :=
  fun k =>
    if String.eqb k "AZURE_DEVOPS_ORG_URL" then Some "https://dev.azure.com/contoso/"
    else if String.eqb k "AZURE_DEVOPS_PAT" then Some "secret"
    else None.

(** * The chat page of the frontend ([Home])

    The state of the page is the value of its [useState] cells.  A handler
    maps the state of the render it was created in to the state after its
    updates have been applied, no other event intervening.  The [timestamp]
    fields are left out; the values [Date.now()] returns are parameters of
    the handlers. *)

Module Frontend.

Record Message : Type := mkMessage {
  message_id : string;
  role : string;
  content : JS;
  tool : JS
}.

Record Conversation : Type := mkConversation {
  conversation_id : string;
  title : string;
  messages : list Message
}.

Record Page : Type := mkPage {
  conversations : list Conversation;
  activeConversationId : string;
  selectedTool : option string;       (* [string | null] *)
  loading : bool
}.

(** The initial state of the page. *)
Definition initialPage : Page :=
  mkPage
    [mkConversation "1" "Welcome"
       [mkMessage "1" "assistant"
          (JStr ("Hello! I can help you query Azure DevOps. Select a tool from the "
                 ++ "sidebar or type a natural language request."))
          JUndef]]
    "1" None false.

(** [conversations.find(c => c.id === activeConversationId)] *)
Definition activeConversation (p : Page) : option Conversation :=
  find (fun c => String.eqb (conversation_id c) (activeConversationId p)) (conversations p).

Definition handleNewChat (now : Z) (p : Page) : Page :=
  let newConversation := mkConversation (string_of_Z now) "New Conversation" [] in
  mkPage (newConversation :: conversations p) (conversation_id newConversation)
         None (loading p).

Definition handleDeleteConversation (id : string) (p : Page) : Page :=
  let remaining :=
    filter (fun c => negb (String.eqb (conversation_id c) id)) (conversations p) in
  if String.eqb (activeConversationId p) id then
    match remaining with
    | first :: _ =>
        mkPage remaining (conversation_id first) (selectedTool p) (loading p)
    | [] =>
        let newConv := mkConversation "empty" "New Conversation" [] in
        mkPage [newConv] (conversation_id newConv) (selectedTool p) (loading p)
    end
  else mkPage remaining (activeConversationId p) (selectedTool p) (loading p).

Definition handleSelectConversation (id : string) (p : Page) : Page :=
  mkPage (conversations p) id None (loading p).

Definition handleSelectTool (toolName : string) (p : Page) : Page :=
  mkPage (conversations p) (activeConversationId p) (Some toolName) (loading p).

(** [s.trim()] is empty: [s] consists of white space (tab, line feed,
    vertical tab, form feed, carriage return, space). *)
Fixpoint isBlank (s : string) : bool :=
  match s with
  | EmptyString => true
  | String ch r =>
      existsb (N.eqb (N_of_ascii ch)) [9; 10; 11; 12; 13; 32]%N && isBlank r
  end.

(** [content.slice(0, 50) + (content.length > 50 ? '...' : '')] *)
Definition titleOf (content : string) : string :=
  String.substring 0 50 content
  ++ (if Nat.ltb 50 (String.length content) then "..." else "").

(** [selectedTool] as a value: a string or [null]. *)
Definition toolValue (t : option string) : JS :=
  match t with
  | Some s => JStr s
  | None => JNull
  end.

(** [const args = content ? { wiql: content } : {}] *)
Definition toolBody (content : string) : JS :=
  if truthy (JStr content) then JObj [("wiql", JStr content)] else JObj [].

(** An HTTP call made with [axios.post]: it resolves with [response.data],
    or it rejects with an error carrying [error.response?.data] and
    [error.message]. *)
Inductive HttpOutcome : Type :=
| Answered (data : JS)
| Failed (responseData : JS) (errorMessage : string).

(** [prev.map(conv => conv.id === conversationId ? update(conv) : conv)] *)
Definition updateConversation (conversationId : string)
  (update : Conversation -> Conversation) (prev : list Conversation) : list Conversation :=
  map (fun conv => if String.eqb (conversation_id conv) conversationId
                   then update conv else conv) prev.

(** The assistant message built from a response, inside the [try] block. *)
Definition assistantMessage (tAssistant : Z) (selected : JS) (data : JS) : Res Message :=
  r <~ get data "result" ;;
  let content := match r with
                 | JStr _ => r
                 | _ => match stringify "" r with
                        | Some s => JStr s
                        | None => JUndef
                        end
                 end in
  tool <~ (if truthy selected then Ok selected
           else rmap (fun used => oror used JUndef) (get data "tool_used")) ;;
  Ok (mkMessage (string_of_Z (tAssistant + 1)) "assistant" content tool).

(** The system message of the [catch] block. *)
Definition errorMessageOf (tError : Z) (responseData : JS) (errorMessage : string) : Message :=
  mkMessage (string_of_Z (tError + 2)) "system"
            (JStr ("Error: " ++ toStr (oror (oget responseData "error") (JStr errorMessage))))
            JUndef.

(** [handleSendMessage]: the page after the exchange and the request that
    was posted, if any.  [post] is [axios.post]; [apiUrl] the configured
    server address. *)
Definition handleSendMessage (apiUrl : string) (post : string -> JS -> HttpOutcome)
  (tConversation tUser tAssistant tError : Z) (content : string) (p : Page)
  : Page * option (string * JS) :=
  let selected := toolValue (selectedTool p) in
  if isBlank content && negb (truthy selected) then (p, None) else
  let '(started, conversationId) :=
    match activeConversation p with
    | Some _ => (conversations p, activeConversationId p)
    | None =>
        let newConversation :=
          mkConversation (string_of_Z tConversation) (titleOf content) [] in
        (newConversation :: conversations p, conversation_id newConversation)
    end in
  let userMessage :=
    mkMessage (string_of_Z tUser) "user"
              (oror (JStr content) (JStr ("Use tool: " ++ toStr selected)))
              (oror selected JUndef) in
  let withUser :=
    updateConversation conversationId
      (fun conv =>
         mkConversation (conversation_id conv)
           (match messages conv with
            | [] => if truthy (JStr content) then titleOf content
                    else "Tool: " ++ toStr selected
            | _ => title conv
            end)
           (messages conv ++ [userMessage])%list)
      started in
  let '(url, body) :=
    if truthy selected
    then (apiUrl ++ "/api/tools/" ++ toStr selected, toolBody content)
    else (apiUrl ++ "/api/chat", JObj [("message", JStr content)]) in
  let reply :=
    match post url body with
    | Answered data =>
        match assistantMessage tAssistant selected data with
        | Ok m => m
        | Throw e => errorMessageOf tError JUndef (message e)
        end
    | Failed responseData errorMessage => errorMessageOf tError responseData errorMessage
    end in
  let withReply :=
    updateConversation conversationId
      (fun conv => mkConversation (conversation_id conv) (title conv)
                                  (messages conv ++ [reply])%list)
      withUser in
  (mkPage withReply conversationId None false, Some (url, body)).

(** [handleSubmit] of the input box: the text handed to [onSendMessage], if
    any. *)
Definition handleSubmit (message : string) (disabled : bool) : option string :=
  if negb (isBlank message) && negb disabled then Some message else None.

(** The active conversation is one of the listed conversations. *)
Definition activeListed (p : Page) : Prop :=
  In (activeConversationId p) (map conversation_id (conversations p)).

End Frontend.

(** The page with list_branches selected in the sidebar. *)
Definition branchesSelected : Frontend.Page :=
  Frontend.handleSelectTool "list_branches" Frontend.initialPage.

(** The defaults a tool's input schema declares: parameter and value. *)
Definition defaultsOf (n : string) : list (string * JS) :=
  match findTool n with
  | Some t =>
      flat_map (fun q => match pdefault q with
                         | Some d => [(pname q, d)]
                         | None => []
                         end) (properties t)
  | None => []
  end.

(** ** Updating a work item; branch names *)

(** The request [updateWorkItem] sends for the operations [ops]. *)
Definition updateRequest (c : Client) (id : JS) (ops : list JS) : Request :=
  mkRequest PATCH ViaInstance
    ("/" ++ this_project c ++ "/_apis/wit/workitems/" ++ toStr id ++ "?api-version=7.1")
    (JArr ops) json_patch.

Definition noFieldsArgs : JS := JObj [("id", JNum 5); ("comment", JStr "fixed")].


(** ** Encoded paths *)





(** * Properties *)

(** ** Generic facts about the monad and the combinators *)

Lemma append_assoc (a b c : string) : (a ++ b) ++ c = a ++ (b ++ c).
Proof. induction a as [| x a IH]; cbn; [reflexivity | now rewrite IH]. Qed.

Lemma append_nil_r (a : string) : a ++ "" = a.
Proof. induction a as [| x a IH]; cbn; [reflexivity | now rewrite IH]. Qed.

Lemma bind_ok {A B} (m : M A) (k : A -> M B) be tr a tr' :
  m be tr = (Ok a, tr') -> bind m k be tr = k a be tr'.
Proof. intros H. unfold bind. now rewrite H. Qed.

Lemma bind_throw {A B} (m : M A) (k : A -> M B) be tr e tr' :
  m be tr = (Throw e, tr') -> bind m k be tr = (Throw e, tr').
Proof. intros H. unfold bind. now rewrite H. Qed.

Lemma request_resp rq be tr d :
  be tr rq = Resp d -> request rq be tr = (Ok d, (tr ++ [rq])%list).
Proof. intros H. unfold request. now rewrite H. Qed.

Lemma request_reject rq be tr m st :
  be tr rq = Reject m st ->
  request rq be tr = (Throw (AxiosError m st), (tr ++ [rq])%list).
Proof. intros H. unfold request. now rewrite H. Qed.

Lemma request_calls rq be tr : calls (request rq be tr) = (tr ++ [rq])%list.
Proof. reflexivity. Qed.

(** The handlers of [tryCatch] used in this program always return. *)
Lemma tryCatch_total {A} (m : M A) (h : JSError -> A) be tr :
  exists a tr', tryCatch m (fun e => ret (h e)) be tr = (Ok a, tr').
Proof.
  unfold tryCatch. destruct (m be tr) as [[a | e] tr'].
  - now exists a, tr'.
  - now exists (h e), tr'.
Qed.

(** ** Two-step WIQL query (C2) *)

Lemma queryWorkItems_no_refs c wiql be tr refs :
  firstStep be tr c wiql refs ->
  refs = JArr [] \/ truthy refs = false ->
  queryWorkItems c wiql be tr = (Ok (JArr []), (tr ++ [wiqlRequest c wiql])%list).
Proof.
  intros (data & Hbe & Hrefs) Hzero.
  unfold queryWorkItems, ipost.
  rewrite (bind_ok _ _ _ _ _ _ (request_resp _ _ _ _ Hbe)).
  unfold bind at 1, lift at 1. rewrite Hrefs.
  destruct Hzero as [-> | Hf].
  - reflexivity.
  - unfold bind, lift. now rewrite Hf.
Qed.

Lemma getWorkItems_fetch c ids be tr s :
  length_is_zero ids = Ok false -> join ids "," = Ok s ->
  getWorkItems c ids be tr
  = bind (request (batchRequest c s)) (fun data => lift (get data "value")) be tr.
Proof.
  intros H1 H2. unfold getWorkItems.
  unfold bind at 1, lift at 1. rewrite H1.
  unfold bind at 1, lift at 1. rewrite H2. reflexivity.
Qed.

Lemma getWorkItems_calls c ids be tr s :
  length_is_zero ids = Ok false -> join ids "," = Ok s ->
  calls (getWorkItems c ids be tr) = (tr ++ [batchRequest c s])%list.
Proof.
  intros H1 H2. rewrite (getWorkItems_fetch _ _ _ _ _ H1 H2).
  unfold bind, request, calls.
  destruct (be tr (batchRequest c s)); reflexivity.
Qed.

Lemma queryWorkItems_refs c wiql be tr r1 r2 (i1 i2 : Z) :
  firstStep be tr c wiql (JArr [r1; r2]) ->
  get r1 "id" = Ok (JNum i1) -> get r2 "id" = Ok (JNum i2) ->
  calls (queryWorkItems c wiql be tr)
  = (tr ++ [wiqlRequest c wiql;
            batchRequest c (string_of_Z i1 ++ "," ++ string_of_Z i2)])%list.
Proof.
  intros (data & Hbe & Hrefs) H1 H2.
  unfold queryWorkItems, ipost.
  rewrite (bind_ok _ _ _ _ _ _ (request_resp _ _ _ _ Hbe)).
  unfold bind at 1, lift at 1. rewrite Hrefs.
  unfold bind at 1, lift at 1.
  change (length_is_zero (JArr [r1; r2])) with (@Ok bool false).
  cbn [truthy negb].
  unfold bind at 1, lift at 1, idsOf, arrayMap. cbn [mapM]. rewrite H1, H2.
  cbn [rbind rmap].
  rewrite (getWorkItems_calls c _ be _ (string_of_Z i1 ++ "," ++ string_of_Z i2)).
  - now rewrite <- app_assoc.
  - reflexivity.
  - reflexivity.
Qed.

(** C2. The WIQL query is two-step: when the first step answers with zero
    work-item references (an empty list, or none at all), [queryWorkItems]
    returns the empty sequence having made no second call; when it answers
    with references of ids 7 and 9, exactly one more call is made, the batch
    fetch with ids 7,9. *)
Theorem queryWorkItems_two_step (c : Client) (wiql : JS) (tr : list Request)
  (be0 be79 : Backend) (refs0 r7 r9 : JS) :
  firstStep be0 tr c wiql refs0 ->
  refs0 = JArr [] \/ truthy refs0 = false ->
  firstStep be79 tr c wiql (JArr [r7; r9]) ->
  get r7 "id" = Ok (JNum 7) -> get r9 "id" = Ok (JNum 9) ->
  queryWorkItems c wiql be0 tr = (Ok (JArr []), (tr ++ [wiqlRequest c wiql])%list)
  /\ calls (queryWorkItems c wiql be79 tr)
     = (tr ++ [wiqlRequest c wiql; batchRequest c "7,9"])%list.
Proof.
  intros H0 Hz H79 H7 H9. split.
  - now apply queryWorkItems_no_refs with (refs := refs0).
  - exact (queryWorkItems_refs c wiql be79 tr r7 r9 7 9 H79 H7 H9).
Qed.

Lemma queryWorkItems_two_step_witness :
  queryWorkItems demoClient demoWiql noRefsBackend []
  = (Ok (JArr []), ([] ++ [wiqlRequest demoClient demoWiql])%list)
  /\ calls (queryWorkItems demoClient demoWiql refs79Backend [])
     = ([] ++ [wiqlRequest demoClient demoWiql; batchRequest demoClient "7,9"])%list.
Proof.
  apply (queryWorkItems_two_step demoClient demoWiql [] noRefsBackend refs79Backend
           (JArr []) (JObj [("id", JNum 7)]) (JObj [("id", JNum 9)])).
  - eexists; split; reflexivity.
  - left; reflexivity.
  - eexists; split; reflexivity.
  - reflexivity.
  - reflexivity.
Defined.

(** ** The 404 policy of the Backend Client (C3) *)

Lemma catch404_empty (k : JS -> M JS) rq be tr :
  answers404 be tr ->
  catch404 (bind (request rq) k) be tr = (Ok (JArr []), (tr ++ [rq])%list).
Proof.
  intros H. destruct (H rq) as [msg Hrq].
  unfold catch404, tryCatch.
  rewrite (bind_throw _ _ _ _ _ _ (request_reject _ _ _ _ _ Hrq)).
  reflexivity.
Qed.

Lemma getQueryResults_404 c project queryId be tr :
  answers404 be tr -> result (getQueryResults c project queryId be tr) = Ok (JArr []).
Proof.
  intros H. unfold getQueryResults, iget.
  match goal with |- context [request ?r] => destruct (H r) as [msg Hrq] end.
  unfold bind at 1, tryCatch.
  rewrite (bind_throw _ _ _ _ _ _ (request_reject _ _ _ _ _ Hrq)).
  reflexivity.
Qed.

Lemma getWorkItems_404 c ids be tr s :
  length_is_zero ids = Ok false -> join ids "," = Ok s ->
  answers404 be tr ->
  exists msg, result (getWorkItems c ids be tr) = Throw (AxiosError msg (Some 404)).
Proof.
  intros H1 H2 H. destruct (H (batchRequest c s)) as [msg Hrq]. exists msg.
  rewrite (getWorkItems_fetch _ _ _ _ _ H1 H2).
  now rewrite (bind_throw _ _ _ _ _ _ (request_reject _ _ _ _ _ Hrq)).
Qed.

(** Where the 404 clause is: on a backend 404 each method of
    [optionalListMethods] yields the empty sequence instead of throwing, and
    the lookup of work items by id (a non-empty id list) lets the 404
    propagate as the thrown error. *)
Lemma clause_404_methods_return_empty
  (c : Client) (be : Backend) (tr : list Request) (ids : JS) (idsString : string) :
  answers404 be tr ->
  length_is_zero ids = Ok false -> join ids "," = Ok idsString ->
  (forall m a1 a2 a3, In m optionalListMethods ->
     result (snd m c a1 a2 a3 be tr) = Ok (JArr []))
  /\ (exists msg, result (getWorkItems c ids be tr) = Throw (AxiosError msg (Some 404))).
Proof.
  intros H Hlen Hjoin. split.
  - intros m a1 a2 a3 Hin.
    unfold optionalListMethods in Hin. cbn [In] in Hin.
    repeat (destruct Hin as [<- | Hin];
            [ first [ apply getQueryResults_404; exact H
                    | cbn [snd];
                      unfold getTestPlans, getIterations, getReleaseDefinitions, getAreas,
                        getIterationCapacities, getWorkItemCategories, getDashboards,
                        getPipelines, getTestSuites, getVariableGroups, getServiceEndpoints,
                        getTags, getTeamMembers, getBoards, getBoardColumns, getBoardRows,
                        getWorkItemStates, getWorkItemFields, getWorkItemUpdates,
                        getWorkItemAttachments, getWorkItemComments, getWorkItemRelations,
                        iget;
                      cbv zeta; rewrite (catch404_empty _ _ _ _ H); reflexivity ]
            | ]).
    contradiction.
  - exact (getWorkItems_404 c ids be tr idsString Hlen Hjoin H).
Qed.

Lemma always404_answers404 tr : answers404 always404 tr.
Proof. intros rq. eexists. reflexivity. Qed.

(** C3, at the failing input. The 404 policy is not applied to every
    list-style method.  The release feature is one a project may not have
    enabled (the 404 clause of [getReleaseDefinitions] says so), yet
    [getReleases], the list-style method that queries the same feature, has
    no such clause: on a backend 404 it throws, and the tool get_releases
    ends in an error result instead of "No releases found.".  The same
    holds of [getTeamIterations] next to [getIterationCapacities], and
    [getWorkItemLinks] throws where [getWorkItemRelations], which sends the
    identical request, returns the empty sequence.  The lookup of work items
    by id propagates the 404, as stated. *)
Theorem releases_404_is_thrown_not_empty :
  result (getReleases demoClient JUndef always404 [])
  = Throw (AxiosError "Request failed with status code 404" (Some 404))
  /\ result (getReleaseDefinitions demoClient JUndef always404 []) = Ok (JArr [])
  /\ result (callTool demoClient "get_releases" (JObj []) always404 [])
     = Ok (mkResult "Error: Request failed with status code 404" true)
  /\ result (getTeamIterations demoClient (JStr "Fabrikam") (JStr "Core") always404 [])
     = Throw (AxiosError "Request failed with status code 404" (Some 404))
  /\ result (getIterationCapacities demoClient (JStr "Fabrikam") (JStr "Core")
                                    (JStr "sprint-1") always404 [])
     = Ok (JArr [])
  /\ result (getWorkItemLinks demoClient (JNum 7) JUndef always404 [])
     = Throw (AxiosError "Request failed with status code 404" (Some 404))
  /\ getWorkItemRelations demoClient (JNum 7) JUndef always404 []
     = (Ok (JArr []), calls (getWorkItemLinks demoClient (JNum 7) JUndef always404 []))
  /\ result (getWorkItems demoClient (JArr [JNum 7; JNum 9]) always404 [])
     = Throw (AxiosError "Request failed with status code 404" (Some 404)).
Proof. repeat split. Qed.

(** ** Registry and dispatcher (C6) *)

Lemma switch_In {A} (cs : list (string * A)) (n : string) :
  switch cs n <> None <-> In n (map fst cs).
Proof.
  induction cs as [| [label k] r IH]; cbn.
  - split; [congruence | tauto].
  - destruct (String.eqb_spec n label) as [-> | Hne].
    + split; [auto | congruence].
    + rewrite IH. split; [auto | intros [Heq | Hin]; [congruence | exact Hin]].
Qed.

Lemma mem_In n l : mem n l = true <-> In n l.
Proof.
  unfold mem. rewrite existsb_exists. split.
  - intros (x & Hin & Heq). apply String.eqb_eq in Heq. now subst.
  - intros Hin. exists n. split; [exact Hin | apply String.eqb_refl].
Qed.

Lemma included_In l1 l2 : included l1 l2 = true -> forall n, In n l1 -> In n l2.
Proof.
  unfold included. rewrite forallb_forall. intros H n Hin.
  apply mem_In. now apply H.
Qed.

Lemma distinct_NoDup l : distinct l = true -> NoDup l.
Proof.
  induction l as [| n r IH]; cbn; intros H.
  - constructor.
  - apply andb_prop in H as [Hn Hr]. constructor.
    + intros Hin. apply mem_In in Hin. rewrite Hin in Hn. discriminate.
    + now apply IH.
Qed.

Lemma same_names (cs : list string) :
  included (map name tools) cs = true -> included cs (map name tools) = true ->
  forall n, In n (map name tools) <-> In n cs.
Proof.
  intros H1 H2 n. split; [now apply included_In | now apply included_In].
Qed.

(** C6. The tool names of the registry are exactly the names the dispatcher
    routes: a name is in the registry if and only if the [switch] of the
    CallTool handler has a [case] for it (and likewise for the switches of the
    two HTTP call sites), and no name occurs twice in the registry. *)
Theorem registry_dispatcher_symmetry :
  (forall n, In n (map name tools) <-> switch Mcp.cases n <> None)
  /\ (forall site n, In n (map name tools) <-> switch (Api.cases site) n <> None)
  /\ NoDup (map name tools).
Proof.
  split; [| split].
  - intros n. rewrite switch_In. apply same_names; vm_compute; reflexivity.
  - intros site n. rewrite switch_In.
    destruct site; apply same_names; vm_compute; reflexivity.
  - apply distinct_NoDup. vm_compute. reflexivity.
Qed.

(** ** The invocation boundary (C7) *)

Lemma tryCatch_ok {A} (m : M A) (h : JSError -> M A) be tr a tr' :
  m be tr = (Ok a, tr') -> tryCatch m h be tr = (Ok a, tr').
Proof. intros H. unfold tryCatch. now rewrite H. Qed.

Lemma tryCatch_caught {A} (m : M A) (h : JSError -> A) be tr e :
  result (m be tr) = Throw e ->
  result (tryCatch m (fun e => ret (h e)) be tr) = Ok (h e).
Proof.
  unfold tryCatch, result. destruct (m be tr) as [[a | e'] tr']; cbn.
  - discriminate.
  - intros [= ->]. reflexivity.
Qed.

(** C7. Whatever the tool name, the arguments and the backend, the CallTool
    handler returns a result and never throws: an error thrown while
    dispatching or by the Backend Client becomes the result with text
    "Error: <message>" and [isError] set, and an unknown tool name gives
    "Error: Unknown tool: <name>".  The handler of [POST /api/tools/:name]
    likewise always answers: a thrown error becomes a 500 response carrying
    the message, and an unknown tool the 404 response "Tool not found".  So
    does the handler of [POST /api/chat]: an error thrown while the selected
    tool runs becomes a 500 response carrying the message, and an unknown
    function name a 400 response. *)
Theorem errors_caught_at_invocation_boundary
  (c : Client) (name : string) (args : JS) (be : Backend) (tr : list Request) :
  (exists r, result (callTool c name args be tr) = Ok r)
  /\ (forall e, result (dispatch c name args be tr) = Throw e ->
        result (callTool c name args be tr) = Ok (mkResult ("Error: " ++ message e) true))
  /\ (switch Mcp.cases name = None ->
        callTool c name args be tr
        = (Ok (mkResult ("Error: Unknown tool: " ++ name) true), tr))
  /\ (exists r, result (apiTools c name args be tr) = Ok r)
  /\ (forall e, result (apiToolsBody c name args be tr) = Throw e ->
        result (apiTools c name args be tr) = Ok (mkResponse 500 (errorBody (message e))))
  /\ (findTool name = None ->
        apiTools c name args be tr = (Ok (mkResponse 404 (errorBody "Tool not found")), tr))
  /\ (forall JSON_parse userText, exists r,
        result (apiChat JSON_parse c userText be tr) = Ok r)
  /\ (forall JSON_parse userText e,
        truthy userText = true -> isString userText = true ->
        result (apiChatBody JSON_parse c userText be tr) = Throw e ->
        result (apiChat JSON_parse c userText be tr)
        = Ok (mkResponse 500 (errorBody (message e))))
  /\ (switch (Api.cases ApiChat) name = None ->
        chatFunctionCall c (JStr name) args be tr
        = (Ok (inl (mkResponse 400 (errorBody ("Unknown function: " ++ name)))), tr)).
Proof.
  repeat split.
  - destruct (tryCatch_total (dispatch c name args)
                (fun e => mkResult ("Error: " ++ message e) true) be tr) as (r & tr' & H).
    exists r. unfold callTool. now rewrite H.
  - intros e H. unfold callTool.
    exact (tryCatch_caught _ (fun e => mkResult ("Error: " ++ message e) true) _ _ _ H).
  - intros H. unfold callTool, tryCatch, dispatch. rewrite H. reflexivity.
  - destruct (tryCatch_total (apiToolsBody c name args)
                (fun e => mkResponse 500 (errorBody (message e))) be tr) as (r & tr' & H).
    exists r. unfold apiTools. now rewrite H.
  - intros e H. unfold apiTools.
    exact (tryCatch_caught _ (fun e => mkResponse 500 (errorBody (message e))) _ _ _ H).
  - intros H. unfold apiTools, tryCatch, apiToolsBody. rewrite H. reflexivity.
  - intros JSON_parse userText. unfold apiChat.
    destruct (negb (truthy userText) || negb (isString userText)).
    + eexists. reflexivity.
    + destruct (tryCatch_total (apiChatBody JSON_parse c userText)
                  (fun e => mkResponse 500 (errorBody (message e))) be tr)
        as (r & tr' & H).
      exists r. unfold serverError. now rewrite H.
  - intros JSON_parse userText e Ht Hs H. unfold apiChat. rewrite Ht, Hs. cbn [negb orb].
    exact (tryCatch_caught _ (fun e => mkResponse 500 (errorBody (message e))) _ _ _ H).
  - intros H. unfold chatFunctionCall. rewrite H. reflexivity.
Qed.

(** ** Requests issued by an invocation *)

Lemma calls_bind_silent {A B} (m : M A) (k : A -> M B) be tr :
  silent k -> calls (bind m k be tr) = calls (m be tr).
Proof.
  intros Hk. unfold bind, calls. destruct (m be tr) as [[a | e] tr']; cbn.
  - apply Hk.
  - reflexivity.
Qed.

Lemma calls_tryCatch_silent {A} (m : M A) (h : JSError -> M A) be tr :
  silent h -> calls (tryCatch m h be tr) = calls (m be tr).
Proof.
  intros Hh. unfold tryCatch, calls. destruct (m be tr) as [[a | e] tr']; cbn.
  - reflexivity.
  - apply Hh.
Qed.

Lemma silent_ret {A B} (f : A -> B) : silent (fun a => ret (f a)).
Proof. intros a be tr. reflexivity. Qed.

Lemma silent_lift {A B} (f : A -> Res B) : silent (fun a => lift (f a)).
Proof. intros a be tr. reflexivity. Qed.

Lemma silent_format {A B C} (f : A -> Res B) (g : B -> M C) :
  silent g -> silent (fun a => bind (lift (f a)) g).
Proof.
  intros Hg a be tr. unfold bind, lift, calls. destruct (f a); cbn.
  - apply Hg.
  - reflexivity.
Qed.

Create HintDb silent.
#[local] Hint Resolve silent_ret silent_lift silent_format : silent.

Lemma silent_textContent : silent textContent.
Proof. intros a be tr. reflexivity. Qed.

#[local] Hint Resolve silent_textContent : silent.

(** ** Truthiness defaults (C10) *)

Lemma oror_empty_project c : oror (JStr "") (JStr (this_project c)) = JStr (this_project c).
Proof. reflexivity. Qed.

Lemma oror_own_project c :
  oror (JStr (this_project c)) (JStr (this_project c)) = JStr (this_project c).
Proof. unfold oror. now destruct (truthy _). Qed.

Lemma projOr_empty c : projOr c (JStr "") = this_project c.
Proof. reflexivity. Qed.

Lemma projOr_own c : projOr c (JStr (this_project c)) = this_project c.
Proof. unfold projOr. now rewrite oror_own_project. Qed.

Lemma empty_project_falls_back c m a1 a2 a3 a4 a5 :
  In m optionalProjectMethods ->
  snd m c (JStr "") a1 a2 a3 a4 a5 = snd m c (JStr (this_project c)) a1 a2 a3 a4 a5.
Proof.
  intros Hin. unfold optionalProjectMethods in Hin. cbn [In] in Hin.
  repeat (destruct Hin as [<- | Hin];
          [ cbn [snd];
            unfold getRepositories, getBranches, getPullRequests, getPullRequestById,
              searchCode, searchWorkItems, getWikis, getWikiPageContent, getWorkItemTypes,
              getIterations, getBuildDefinitions, getReleaseDefinitions, getQueries,
              getWorkItemRevisions, getWorkItemLinks, createPullRequest, getCommits,
              getFileContent, getAreas, getWorkItemCategories, getDashboards, getPipelines,
              getVariableGroups, getServiceEndpoints, getTags, getWorkItemFields,
              getWorkItemUpdates, getWorkItemAttachments, getWorkItemComments,
              getWorkItemRelations;
            rewrite ?projOr_empty, ?projOr_own, ?oror_empty_project, ?oror_own_project;
            reflexivity
          | ]).
  contradiction.
Qed.

Lemma callTool_get_builds_calls c args be tr :
  calls (callTool c "get_builds" args be tr)
  = (tr ++ [buildsRequest c (oget args "definitionId") (oror (oget args "top") (JNum 10))])%list.
Proof.
  unfold callTool. rewrite calls_tryCatch_silent by auto with silent.
  change (dispatch c "get_builds" args) with (Mcp.get_builds c args).
  unfold Mcp.get_builds. cbv zeta.
  rewrite calls_bind_silent by auto with silent.
  unfold getBuilds. cbv zeta.
  rewrite calls_bind_silent by auto with silent.
  unfold iget, buildsRequest.
  replace (dflt (oror (oget args "top") (JNum 10)) (JNum 10))
    with (oror (oget args "top") (JNum 10)).
  - rewrite request_calls. destruct (truthy (oget args "definitionId")).
    + now rewrite !append_assoc.
    + now rewrite append_nil_r.
  - unfold oror. destruct (truthy (oget args "top")) eqn:Ht; [| reflexivity].
    destruct (oget args "top"); try reflexivity. discriminate.
Qed.

Lemma callTool_get_releases_calls c args be tr :
  calls (callTool c "get_releases" args be tr)
  = (tr ++ [releasesRequest c (oror (oget args "top") (JNum 10))])%list.
Proof.
  unfold callTool. rewrite calls_tryCatch_silent by auto with silent.
  change (dispatch c "get_releases" args) with (Mcp.get_releases c args).
  unfold Mcp.get_releases. cbv zeta.
  rewrite calls_bind_silent by auto with silent.
  unfold getReleases. cbv zeta.
  rewrite calls_bind_silent by auto with silent.
  unfold iget, releasesRequest.
  replace (dflt (oror (oget args "top") (JNum 10)) (JNum 10))
    with (oror (oget args "top") (JNum 10)).
  - now rewrite request_calls.
  - unfold oror. destruct (truthy (oget args "top")) eqn:Ht; [| reflexivity].
    destruct (oget args "top"); try reflexivity. discriminate.
Qed.

(** C10, counterexample. Through [POST /api/tools/get_builds] with the body
    [{top: 0}] the backend is asked for [$top=0], not [$top=10]: that call
    site hands [args.top] to [getBuilds] as it is, and the default of the
    parameter applies to an absent [top] only. *)
Lemma top_zero_reaches_backend_over_http :
  requestsOf HttpApiTools demoClient "get_builds" (JObj [("top", JNum 0)])
             emptyValueBackend []
  = [mkRequest GET ViaInstance "/Fabrikam/_apis/build/builds?api-version=7.1&$top=0"
               JUndef []]
  /\ ~ top_zero_defaults_everywhere.
Proof.
  split.
  - reflexivity.
  - intros H.
    specialize (H HttpApiTools demoClient (JObj [("top", JNum 0)]) emptyValueBackend []
                  eq_refl).
    vm_compute in H. discriminate H.
Qed.

(** C10 (amended). Defaulting in the CallTool handler is by truthiness: for
    every invocation of get_builds or get_releases through that handler whose
    supplied [top] is 0, the backend is called with top = 10; and for every
    Backend Client method taking an optional project, a supplied empty-string
    project behaves as the configured default project. *)
Theorem top_zero_defaults_in_callTool_and_empty_project_falls_back
  (c : Client) (args : JS) (be : Backend) (tr : list Request) :
  oget args "top" = JNum 0 ->
  requestsOf McpCallTool c "get_builds" args be tr
  = (tr ++ [buildsRequest c (oget args "definitionId") (JNum 10)])%list
  /\ requestsOf McpCallTool c "get_releases" args be tr
     = (tr ++ [releasesRequest c (JNum 10)])%list
  /\ (forall m a1 a2 a3 a4 a5, In m optionalProjectMethods ->
        snd m c (JStr "") a1 a2 a3 a4 a5 = snd m c (JStr (this_project c)) a1 a2 a3 a4 a5).
Proof.
  intros Htop. unfold requestsOf. repeat split.
  - rewrite callTool_get_builds_calls, Htop. reflexivity.
  - rewrite callTool_get_releases_calls, Htop. reflexivity.
  - intros m a1 a2 a3 a4 a5 Hin. now apply empty_project_falls_back.
Qed.

Lemma top_zero_defaults_in_callTool_and_empty_project_falls_back_witness :
  requestsOf McpCallTool demoClient "get_builds" (JObj [("top", JNum 0)])
             emptyValueBackend []
  = ([] ++ [buildsRequest demoClient (oget (JObj [("top", JNum 0)]) "definitionId")
                          (JNum 10)])%list
  /\ requestsOf McpCallTool demoClient "get_releases" (JObj [("top", JNum 0)])
                emptyValueBackend []
     = ([] ++ [releasesRequest demoClient (JNum 10)])%list
  /\ (forall m a1 a2 a3 a4 a5, In m optionalProjectMethods ->
        snd m demoClient (JStr "") a1 a2 a3 a4 a5
        = snd m demoClient (JStr (this_project demoClient)) a1 a2 a3 a4 a5).
Proof.
  apply (top_zero_defaults_in_callTool_and_empty_project_falls_back
           demoClient (JObj [("top", JNum 0)]) emptyValueBackend []).
  reflexivity.
Defined.

(** ** Required parameters (C1) *)

Lemma callTool_list_branches_calls c args be tr :
  calls (callTool c "list_branches" args be tr)
  = (tr ++ [mkRequest GET ViaInstance
              ("/" ++ projOr c (oget args "project") ++ "/_apis/git/repositories/"
               ++ toStr (oget args "repositoryId") ++ "/refs?filter=heads&api-version=7.1")
              JUndef []])%list.
Proof.
  unfold callTool. rewrite calls_tryCatch_silent by auto with silent.
  change (dispatch c "list_branches" args) with (Mcp.list_branches c args).
  unfold Mcp.list_branches. cbv zeta.
  rewrite calls_bind_silent by auto with silent.
  unfold getBranches. cbv zeta.
  rewrite calls_bind_silent by auto with silent.
  unfold iget. now rewrite request_calls.
Qed.

(** C1, at the failing input. The registry declares [repositoryId] required
    for list_branches, yet invoking list_branches with the empty arguments
    object reaches the Backend Client: [getBranches] is called with an
    undefined repository id and sends its request (the id rendered as the
    text "undefined"), and with a backend that answers an empty list the
    invocation succeeds with "No branches found." instead of failing. *)
Theorem list_branches_without_repositoryId_reaches_backend (c : Client) (be : Backend) :
  requiredOf "list_branches" = ["repositoryId"]
  /\ oget (JObj []) "repositoryId" = JUndef
  /\ calls (callTool c "list_branches" (JObj []) be [])
     = [mkRequest GET ViaInstance
          ("/" ++ this_project c
           ++ "/_apis/git/repositories/undefined/refs?filter=heads&api-version=7.1")
          JUndef []]
  /\ callTool c "list_branches" (JObj []) emptyValueBackend []
     = (Ok (mkResult "No branches found." false),
        [mkRequest GET ViaInstance
           ("/" ++ this_project c
            ++ "/_apis/git/repositories/undefined/refs?filter=heads&api-version=7.1")
           JUndef []]).
Proof.
  repeat split.
  - rewrite callTool_list_branches_calls. reflexivity.
Qed.

(** ** Missing fields in table cells (C5) *)

(** C5, at the failing input. A branch record without [objectId] makes the
    CallTool handler fail: its cell reads [b.objectId.substring(0, 8)], which
    throws on the undefined field, and the invocation ends in an error
    result.  The two HTTP call sites read [b.objectId?.substring(0, 8) || '']
    and render the empty cell.  A work item without a [fields] object makes the
    row fail at every call site, and a missing plain field such as a
    project's [id] is rendered as the text "undefined", not as the empty
    string. *)
Theorem table_cells_do_not_tolerate_missing_fields :
  result (callTool demoClient "list_branches" branchesArgs oneBranchBackend [])
  = Ok (mkResult "Error: Cannot read properties of undefined (reading 'substring')" true)
  /\ McpTables.row_list_branches (JObj [("name", JStr "main")])
     = Throw (cannot_read "undefined" "substring")
  /\ ApiTables.row_list_branches (JObj [("name", JStr "main")]) = Ok "| main |  |  |"
  /\ McpTables.row_query_work_items (JObj [("id", JNum 1)])
     = Throw (cannot_read "undefined" "System.Title")
  /\ ApiTables.row_work_items (JObj [("id", JNum 1)])
     = Throw (cannot_read "undefined" "System.Title")
  /\ McpTables.row_list_projects (JObj [("name", JStr "Fabrikam")])
     = Ok "| undefined | Fabrikam |  | undefined |".
Proof. repeat split. Qed.

(** ** The three call sites side by side (C9, C4) *)

(** C9, at the failing input. For the same tool name (query_work_items), the
    same payload (the empty sequence) and the same arguments, the CallTool
    handler answers "No work items match the query." while
    [POST /api/tools/:name] and [POST /api/chat] produce
    "No work items found.": the three call sites do not produce identical
    text. *)
Theorem call_sites_disagree_on_empty_query :
  callTool demoClient "query_work_items" queryArgs noRefsBackend []
  = (Ok (mkResult "No work items match the query." false),
     [wiqlRequest demoClient demoWiql])
  /\ apiTools demoClient "query_work_items" queryArgs noRefsBackend []
     = (Ok (mkResponse 200 (JObj [("result", JStr "No work items found.");
                                  ("raw", JArr [])])),
        [wiqlRequest demoClient demoWiql])
  /\ chatFunctionCall demoClient (JStr "query_work_items") queryArgs noRefsBackend []
     = (Ok (inr (JStr "No work items found.", JArr [])),
        [wiqlRequest demoClient demoWiql])
  /\ McpTables.format_query_work_items (JArr []) = Ok "No work items match the query."
  /\ (forall site, Api.format site "query_work_items" (JArr []) queryArgs
                   = Ok (JStr "No work items found.")).
Proof.
  repeat split.
Qed.

(** C4, at the failing input. list_areas is list-shaped, and on the empty
    sequence the CallTool handler answers its fixed "No areas found."; the
    formatting chains of [POST /api/tools/:name] and [POST /api/chat] have no
    branch for it and fall through to the JSON dump, so the same empty result
    is formatted as "[]". *)
Theorem empty_list_formats_as_json_over_http :
  callTool demoClient "list_areas" (JObj []) noAreasBackend []
  = (Ok (mkResult "No areas found." false),
     [mkRequest GET ViaInstance
        "/Fabrikam/_apis/wit/classificationnodes?structureGroup=Areas&api-version=7.1"
        JUndef []])
  /\ apiTools demoClient "list_areas" (JObj []) noAreasBackend []
     = (Ok (mkResponse 200 (JObj [("result", JStr "[]"); ("raw", JArr [])])),
        [mkRequest GET ViaInstance
           "/Fabrikam/_apis/wit/classificationnodes?structureGroup=Areas&api-version=7.1"
           JUndef []])
  /\ (forall site args, Api.format site "list_areas" (JArr []) args = Ok (JStr "[]")).
Proof.
  repeat split.
Qed.

(** ** Where the required-parameter check is made *)

Ltac guard_case H :=
  unfold callTool, tryCatch, dispatch;
  cbv [switch Mcp.cases String.eqb Ascii.eqb Bool.eqb
       Mcp.query_work_items Mcp.get_work_items_by_ids Mcp.create_work_item
       Mcp.update_work_item Mcp.assign_work_item Mcp.get_identity_ids
       Mcp.get_work_item_revisions Mcp.get_work_item_links Mcp.create_pull_request
       Mcp.list_commits Mcp.get_file_content Mcp.list_iteration_capacities
       Mcp.list_test_suites Mcp.list_team_members Mcp.list_boards Mcp.list_board_columns
       Mcp.list_board_rows Mcp.list_work_item_states Mcp.list_work_item_updates
       Mcp.list_work_item_attachments Mcp.list_work_item_comments
       Mcp.list_work_item_relations Mcp.list_work_item_query_results];
  rewrite H; cbn [truthy negb orb];
  rewrite ?orb_true_r; cbn [orb];
  eexists; split; [reflexivity | vm_compute; reflexivity].

Lemma guarded_tools_fail_fast c n p args be tr :
  In n guardedTools -> In p (requiredOf n) -> oget args p = JUndef ->
  exists msg,
    callTool c n args be tr = (Ok (mkResult ("Error: " ++ msg) true), tr)
    /\ mentions p msg = true.
Proof.
  intros Hn Hp H. unfold guardedTools in Hn. cbn [In] in Hn.
  repeat (destruct Hn as [<- | Hn];
          [ vm_compute in Hp;
            repeat (destruct Hp as [<- | Hp]; [ guard_case H | ]); contradiction
          | ]).
  contradiction.
Qed.

Lemma guarded_or_unguarded n :
  requiredOf n <> [] -> In n guardedTools \/ In n unguardedTools.
Proof.
  intros H.
  assert (Hin : In n (map name tools)).
  { unfold requiredOf, findTool in H.
    destruct (find _ tools) as [t |] eqn:Hf; [| congruence].
    apply find_some in Hf as [Hin Heq]. apply String.eqb_eq in Heq. subst n.
    now apply in_map. }
  vm_compute in Hin.
  repeat (destruct Hin as [<- | Hin];
          [ first [ exfalso; apply H; reflexivity
                  | left; apply mem_In; vm_compute; reflexivity
                  | right; apply mem_In; vm_compute; reflexivity ]
          | ]).
  contradiction.
Qed.

(** ** Empty sequences in the tables of the CallTool handler *)

Lemma mcp_empty_list_messages t :
  In t mcpListFormats ->
  exists msg, snd t (JArr []) = Ok msg /\ isEmptyMessage msg = true.
Proof.
  intros Hin. unfold mcpListFormats in Hin. cbn [In] in Hin.
  repeat (destruct Hin as [<- | Hin];
          [ eexists; split; [reflexivity | vm_compute; reflexivity] | ]).
  contradiction.
Qed.

(** Invoking list_projects against a backend that returns no project yields
    exactly "No projects found." at each of the three call sites. *)
Lemma list_projects_empty c be tr :
  be tr (mkRequest GET ViaInstance "/_apis/projects?api-version=7.1" JUndef [])
  = Resp (JObj [("value", JArr [])]) ->
  result (callTool c "list_projects" JUndef be tr) = Ok (mkResult "No projects found." false)
  /\ result (apiTools c "list_projects" JUndef be tr)
     = Ok (mkResponse 200 (JObj [("result", JStr "No projects found."); ("raw", JArr [])]))
  /\ result (chatFunctionCall c (JStr "list_projects") JUndef be tr)
     = Ok (inr (JStr "No projects found.", JArr [])).
Proof.
  intros H.
  unfold callTool, apiTools, apiToolsBody, chatFunctionCall, tryCatch, dispatch.
  cbn [switch Mcp.cases Api.cases String.eqb Ascii.eqb Bool.eqb].
  change (findTool "list_projects") with (Some (mkTool "list_projects" [] [])).
  unfold Mcp.list_projects, getProjects, iget.
  rewrite !(bind_ok _ _ _ _ _ _ (bind_ok _ _ _ _ _ _ (request_resp _ _ _ _ H))).
  repeat split.
Qed.

(** ** Confirmation blocks of the mutation tools (C8) *)



Lemma get_present v k : nullish v = false -> get v k = Ok (prop v k).
Proof. destruct v; cbn; intros H; try reflexivity; discriminate. Qed.




(** * Further properties of the Backend Client *)

(** ** Work items by id *)


(** ** The two-step queries *)

Lemma mapM_length {A B} (f : A -> Res B) (l : list A) (ys : list B) :
  mapM f l = Ok ys -> length ys = length l.
Proof.
  revert ys. induction l as [| x l IH]; cbn; intros ys H.
  - now injection H as <-.
  - destruct (f x) as [y | e]; cbn in H; [| discriminate].
    destruct (mapM f l) as [ys' | e]; cbn in H; [| discriminate].
    injection H as <-. cbn. now rewrite (IH ys').
Qed.



(** X3. In [getQueryResults] the 404 clause covers the saved-query request
    only.  When that request succeeds and lists work items, the batch fetch
    is the method's result as it is: if the backend rejects it, with status
    404 or any other, the method throws that error instead of returning the
    empty sequence. *)
Theorem getQueryResults_batch_failure_is_thrown
  (c : Client) (project queryId : JS) (be : Backend) (tr : list Request)
  (data results r : JS) (refs ids : list JS) (msg : string) (st : option Z) :
  be tr (queryResultsRequest project queryId) = Resp data ->
  get data "results" = Ok results ->
  truthy results = true ->
  prop results "workItems" = JArr (r :: refs) ->
  mapM (fun wi => get wi "id") (r :: refs) = Ok ids ->
  be (tr ++ [queryResultsRequest project queryId])%list (batchRequest c (toStr (JArr ids)))
  = Reject msg st ->
  getQueryResults c project queryId be tr
  = (Throw (AxiosError msg st),
     (tr ++ [queryResultsRequest project queryId; batchRequest c (toStr (JArr ids))])%list).
Proof.
  intros Hbe Hres Ht Hw Hids Hrej.
  pose proof (mapM_length _ _ _ Hids) as Hlen.
  destruct ids as [| i ids]; [discriminate Hlen |].
  unfold getQueryResults, iget. cbv zeta.
  change (mkRequest GET ViaInstance _ JUndef [])
    with (queryResultsRequest project queryId).
  unfold bind at 1, tryCatch.
  rewrite (bind_ok _ _ _ _ _ _ (request_resp _ _ _ _ Hbe)).
  unfold bind at 1, lift at 1. rewrite Hres, Ht, Hw. cbn [truthy andb].
  unfold bind at 1, lift at 1, idsOf, arrayMap. rewrite Hids. cbn [rmap rbind ret].
  rewrite (getWorkItems_fetch c (JArr (i :: ids)) be _ (toStr (JArr (i :: ids))))
    by reflexivity.
  rewrite (bind_throw _ _ _ _ _ _ (request_reject _ _ _ _ _ Hrej)).
  now rewrite <- app_assoc.
Qed.

Lemma getQueryResults_batch_failure_is_thrown_witness :
  getQueryResults demoClient (JStr "Fabrikam") (JStr "q1") staleQueryBackend []
  = (Throw (AxiosError "Request failed with status code 404" (Some 404)),
     ([] ++ [queryResultsRequest (JStr "Fabrikam") (JStr "q1");
             batchRequest demoClient (toStr (JArr [JNum 7]))])%list).
Proof.
  apply (getQueryResults_batch_failure_is_thrown demoClient (JStr "Fabrikam") (JStr "q1")
           staleQueryBackend []
           (JObj [("results", JObj [("workItems", JArr [JObj [("id", JNum 7)]])])])
           (JObj [("workItems", JArr [JObj [("id", JNum 7)]])])
           (JObj [("id", JNum 7)]) [] [JNum 7]
           "Request failed with status code 404" (Some 404));
    reflexivity.
Defined.

(** ** The patch document of a new work item *)

Lemma define_same l k v : In (k, v) (define l k v).
Proof.
  induction l as [| [k' v'] r IH]; cbn [define In map fst]; [now left |].
  destruct (String.eqb k k'); [now left |].
  destruct (index_of_key k) as [i |]; [| now right].
  destruct (index_of_key k') as [i' |].
  - destruct (Nat.ltb i i'); [| now right].
    destruct (existsb _ r); [now right | now left].
  - destruct (existsb _ r); [now right | now left].
Qed.

Lemma define_other l k v p : In p l -> fst p <> k -> In p (define l k v).
Proof.
  induction l as [| [k' v'] r IH]; cbn [define In map fst]; [tauto |].
  intros Hin Hne.
  destruct (String.eqb_spec k k') as [-> | Hkk'].
  - destruct Hin as [<- | Hin]; [now cbn in Hne | now right].
  - assert (Hrec : In p ((k', v') :: define r k v)).
    { destruct Hin as [<- | Hin]; [now left | right; now apply IH]. }
    assert (Hcons : In p ((k, v) :: (k', v') :: r)) by (right; exact Hin).
    destruct (index_of_key k) as [i |]; [| exact Hrec].
    destruct (index_of_key k') as [i' |].
    + destruct (Nat.ltb i i'); [| exact Hrec].
      destruct (existsb _ r); [exact Hrec | exact Hcons].
    + destruct (existsb _ r); [exact Hrec | exact Hcons].
Qed.

Lemma define_keys l k v k0 :
  In k0 (map fst (define l k v)) <-> k0 = k \/ In k0 (map fst l).
Proof.
  induction l as [| [k' v'] r IH]; cbn [define In map fst].
  - split; [intros [<- | []]; now left | intros [-> | []]; now left].
  - destruct (String.eqb_spec k k') as [-> | Hkk'].
    + cbn. split; [intros [<- | H]; auto | intros [-> | [<- | H]]; auto].
    + assert (Hrec : In k0 (map fst ((k', v') :: define r k v))
                     <-> k0 = k \/ k' = k0 \/ In k0 (map fst r)).
      { cbn. rewrite IH. tauto. }
      assert (Hcons : In k0 (map fst ((k, v) :: (k', v') :: r))
                      <-> k0 = k \/ k' = k0 \/ In k0 (map fst r)).
      { cbn. split; [intros [<- | H]; auto | intros [-> | H]; auto]. }
      destruct (index_of_key k) as [i |]; [| exact Hrec].
      destruct (index_of_key k') as [i' |].
      * destruct (Nat.ltb i i'); [| exact Hrec].
        destruct (existsb _ r); [exact Hrec | exact Hcons].
      * destruct (existsb _ r); [exact Hrec | exact Hcons].
Qed.

Lemma existsb_key k (r : list (string * JS)) :
  existsb (fun p => String.eqb k (fst p)) r = false -> ~ In k (map fst r).
Proof.
  induction r as [| [k' v'] r IH]; cbn; [tauto |].
  intros H. apply orb_false_iff in H as [H1 H2].
  intros [-> | Hin]; [now rewrite String.eqb_refl in H1 | now apply IH].
Qed.

Lemma define_NoDup l k v : NoDup (map fst l) -> NoDup (map fst (define l k v)).
Proof.
  induction l as [| [k' v'] r IH]; cbn [define In map fst]; intros Hnd.
  - repeat constructor. tauto.
  - inversion Hnd as [| ? ? Hk' Hr]; subst.
    destruct (String.eqb_spec k k') as [-> | Hkk']; [exact Hnd |].
    assert (Hrec : NoDup (map fst ((k', v') :: define r k v))).
    { cbn. constructor; [| now apply IH].
      rewrite define_keys. intros [-> | Hin]; [now apply Hkk' | now apply Hk']. }
    assert (Hcons : existsb (fun p => String.eqb k (fst p)) r = false ->
                    NoDup (map fst ((k, v) :: (k', v') :: r))).
    { intros Hex. cbn. constructor; [| exact Hnd].
      intros [<- | Hin]; [now apply Hkk' | now apply (existsb_key _ _ Hex)]. }
    destruct (index_of_key k) as [i |]; [| exact Hrec].
    destruct (index_of_key k') as [i' |].
    + destruct (Nat.ltb i i'); [| exact Hrec].
      destruct (existsb _ r) eqn:Hex; [exact Hrec | now apply Hcons].
    + destruct (existsb _ r) eqn:Hex; [exact Hrec | now apply Hcons].
Qed.

Lemma defineAll_NoDup (ps acc : list (string * JS)) :
  NoDup (map fst acc) ->
  NoDup (map fst (fold_left (fun acc p => define acc (fst p) (snd p)) ps acc)).
Proof.
  revert acc. induction ps as [| p ps IH]; cbn; intros acc H; [exact H |].
  apply IH. now apply define_NoDup.
Qed.

Lemma defineAll_keys (ps acc : list (string * JS)) k :
  In k (map fst acc) ->
  In k (map fst (fold_left (fun acc p => define acc (fst p) (snd p)) ps acc)).
Proof.
  revert acc. induction ps as [| p ps IH]; cbn; intros acc H; [exact H |].
  apply IH. rewrite define_keys. now right.
Qed.

Lemma defineAll_keeps (ps acc : list (string * JS)) p :
  In p acc -> ~ In (fst p) (map fst ps) ->
  In p (fold_left (fun acc p => define acc (fst p) (snd p)) ps acc).
Proof.
  revert acc. induction ps as [| q ps IH]; cbn; intros acc Hin Hk; [exact Hin |].
  apply IH; [| tauto].
  apply define_other; [exact Hin | intros Heq; apply Hk; left; now symmetry].
Qed.

Lemma defineAll_wins (ps acc : list (string * JS)) p :
  NoDup (map fst ps) -> In p ps ->
  In p (fold_left (fun acc p => define acc (fst p) (snd p)) ps acc).
Proof.
  revert acc. induction ps as [| q ps IH]; cbn; intros acc Hnd Hin; [contradiction |].
  inversion Hnd as [| ? ? Hq Hps]; subst.
  destruct Hin as [-> | Hin].
  - apply defineAll_keeps; [| exact Hq].
    destruct p as [k v]. apply define_same.
  - now apply IH.
Qed.

Lemma spread_NoDup target v : NoDup (map fst target) -> NoDup (map fst (spread target v)).
Proof. intros H. destruct v; cbn; auto using defineAll_NoDup. Qed.

Lemma spread_keys target v k : In k (map fst target) -> In k (map fst (spread target v)).
Proof. intros H. destruct v; cbn; auto using defineAll_keys. Qed.

Lemma spread_falsy target v : truthy v = false -> spread target v = target.
Proof.
  destruct v as [| | b | n | s | l | ps]; cbn; try reflexivity; try discriminate.
  destruct s; [reflexivity | discriminate].
Qed.

(** X4. [createWorkItem] sends one POST whose patch document never names a
    field twice and always sets System.Title.  A field given in
    [additionalFields] reaches the document with the value given there, the
    title and the description included: [additionalFields] overrides the
    [title] and [description] arguments.  Without [additionalFields] the
    document is the title followed by the description when that is
    non-empty. *)
Theorem createWorkItem_patch_document
  (c : Client) (workItemType title description additionalFields : JS)
  (be : Backend) (tr : list Request) :
  exists fields,
    calls (createWorkItem c workItemType title description additionalFields be tr)
    = (tr ++ [createRequest c workItemType fields])%list
    /\ NoDup (map fst fields)
    /\ In "System.Title" (map fst fields)
    /\ (forall ps p, additionalFields = JObj ps -> NoDup (map fst ps) -> In p ps ->
          In p fields)
    /\ (truthy additionalFields = false ->
          fields = ("System.Title", title)
                   :: (if truthy description
                       then [("System.Description", description)] else [])).
Proof.
  eexists. split; [unfold createWorkItem, ipost; cbv zeta; apply request_calls |].
  split; [| split; [| split]].
  - apply spread_NoDup, spread_NoDup. cbn. repeat constructor. tauto.
  - apply spread_keys, spread_keys. now left.
  - intros ps p -> Hnd Hin. cbn [spread]. now apply defineAll_wins.
  - intros Hf. rewrite (spread_falsy _ _ Hf). unfold andand.
    destruct (truthy description) eqn:Hd; [reflexivity |].
    now apply spread_falsy.
Qed.

Lemma createWorkItem_patch_document_witness :
  exists fields,
    calls (createWorkItem demoClient (JStr "Bug") (JStr "Login issue") JUndef
             (JObj [("System.Title", JStr "Overridden")]) echo42Backend [])
    = ([] ++ [createRequest demoClient (JStr "Bug") fields])%list
    /\ In ("System.Title", JStr "Overridden") fields.
Proof.
  destruct (createWorkItem_patch_document demoClient (JStr "Bug") (JStr "Login issue") JUndef
              (JObj [("System.Title", JStr "Overridden")]) echo42Backend [])
    as (fields & Hc & _ & _ & Hin & _).
  exists fields. split; [exact Hc |].
  apply (Hin [("System.Title", JStr "Overridden")]).
  - reflexivity.
  - repeat constructor. cbn. tauto.
  - now left.
Defined.

(** * Further properties of the three call sites *)

(** ** Requests an invocation may issue *)

Lemma issues_ret {A} P n (a : A) : issues P n (ret a).
Proof. intros be tr. exists []. cbn. rewrite app_nil_r. repeat split; [constructor | lia]. Qed.

Lemma issues_throw {A} P n e : issues P n (@throw A e).
Proof. intros be tr. exists []. cbn. rewrite app_nil_r. repeat split; [constructor | lia]. Qed.

Lemma issues_lift {A} P n (r : Res A) : issues P n (lift r).
Proof. intros be tr. exists []. cbn. rewrite app_nil_r. repeat split; [constructor | lia]. Qed.

Lemma issues_request P n rq : P rq -> issues P (S n) (request rq).
Proof.
  intros H be tr. exists [rq]. rewrite request_calls.
  repeat split; [repeat constructor; exact H | cbn; lia].
Qed.

Lemma issues_bind {A B} P a b (m : M A) (k : A -> M B) :
  issues P a m -> (forall x, issues P b (k x)) -> issues P (a + b) (bind m k).
Proof.
  intros Hm Hk be tr. destruct (Hm be tr) as (new & Hc & HP & Hl).
  unfold bind. unfold calls in Hc. destruct (m be tr) as [[x | e] tr']; cbn in Hc; subst tr'.
  - destruct (Hk x be (tr ++ new)%list) as (new' & Hc' & HP' & Hl').
    exists (new ++ new')%list. rewrite Hc', app_assoc.
    repeat split; [now apply Forall_app | rewrite length_app; lia].
  - exists new. repeat split; [exact HP | lia].
Qed.

Lemma issues_tryCatch {A} P a b (m : M A) (h : JSError -> M A) :
  issues P a m -> (forall e, issues P b (h e)) -> issues P (a + b) (tryCatch m h).
Proof.
  intros Hm Hh be tr. destruct (Hm be tr) as (new & Hc & HP & Hl).
  unfold tryCatch. unfold calls in Hc. destruct (m be tr) as [[x | e] tr']; cbn in Hc; subst tr'.
  - exists new. repeat split; [exact HP | lia].
  - destruct (Hh e be (tr ++ new)%list) as (new' & Hc' & HP' & Hl').
    exists (new ++ new')%list. rewrite Hc', app_assoc.
    repeat split; [now apply Forall_app | rewrite length_app; lia].
Qed.

Lemma issues_bind_pure {A B} P n (r : Res A) (k : A -> M B) :
  (forall x, issues P n (k x)) -> issues P n (bind (lift r) k).
Proof. intros Hk. apply (issues_bind P 0 n); [apply issues_lift | exact Hk]. Qed.

Lemma issues_bind_request {B} P n rq (k : JS -> M B) :
  P rq -> (forall x, issues P n (k x)) -> issues P (S n) (bind (request rq) k).
Proof. intros H Hk. apply (issues_bind P 1 n); [now apply issues_request | exact Hk]. Qed.

Lemma issues_then {A B} P n (m : M A) (k : A -> M B) :
  issues P n m -> (forall x, issues P 0 (k x)) -> issues P n (bind m k).
Proof. intros Hm Hk. rewrite <- (Nat.add_0_r n). now apply issues_bind. Qed.

Lemma issues_catch404 P n (m : M JS) : issues P n m -> issues P n (catch404 m).
Proof.
  intros Hm. rewrite <- (Nat.add_0_r n). unfold catch404.
  apply issues_tryCatch; [exact Hm |].
  intros e. destruct (is404 e); [apply issues_ret | apply issues_throw].
Qed.

Lemma isQuery_get ch u b h : isQuery (mkRequest GET ch u b h).
Proof. now left. Qed.

Ltac issues_step :=
  first
    [ apply issues_ret | apply issues_throw | apply issues_lift
    | apply issues_catch404
    | apply issues_bind_pure; intros
    | apply issues_bind_request; [ try apply isQuery_get; try exact I | intros ]
    | apply issues_request; try apply isQuery_get; try exact I
    | match goal with
      | |- issues _ _ (if ?b then _ else _) => destruct b
      | |- issues _ _ (match ?x with _ => _ end) => destruct x
      end ].

Ltac issues_tac := unfold iget, ipost, ipatch; cbv zeta; repeat issues_step.

Lemma issues_getWorkItems n c ids : issues isQuery (S n) (getWorkItems c ids).
Proof. unfold getWorkItems. issues_tac. Qed.

Lemma issues_queryWorkItems c wiql : issues isQuery 2 (queryWorkItems c wiql).
Proof.
  unfold queryWorkItems. issues_tac.
  right. left. now exists c, wiql.
Qed.

Lemma issues_getQueryResults c project queryId :
  issues isQuery 2 (getQueryResults c project queryId).
Proof.
  unfold getQueryResults. cbv zeta. apply (issues_bind isQuery 1 1).
  - rewrite <- (Nat.add_0_r 1). apply issues_tryCatch; [| intros e]; issues_tac.
  - intros [ids |]; [apply issues_getWorkItems | apply issues_ret].
Qed.

Lemma starts_with_append (p s : string) : starts_with p (p ++ s) = true.
Proof.
  unfold starts_with. induction p as [| a p IH]; cbn.
  - now destruct s.
  - destruct (ascii_dec a a) as [_ | Hne]; [exact IH | now elim Hne].
Qed.

Lemma isQuery_search u b h :
  isQuery (mkRequest POST ViaInstance ("https://almsearch.dev.azure.com/" ++ u) b h).
Proof. right. right. split; [reflexivity | apply starts_with_append]. Qed.

Lemma switch_Some_In {A} (cs : list (string * A)) (n : string) (k : A) :
  switch cs n = Some k -> In (n, k) cs.
Proof.
  induction cs as [| [label k'] r IH]; cbn; [discriminate |].
  destruct (String.eqb_spec n label) as [-> | Hne].
  - intros [= ->]. now left.
  - intros H. right. now apply IH.
Qed.

Ltac case_step :=
  first
    [ apply issues_queryWorkItems | apply issues_getQueryResults
    | apply issues_getWorkItems
    | issues_step
    | apply isQuery_search
    | apply issues_then; [ | intros ] ].

Ltac case_issues :=
  cbv [allowed budget mem existsb String.eqb Ascii.eqb Bool.eqb orb
       mutationTools twoStepTools];
  unfold textContent, Api.arg, iget, ipost, ipatch; cbv zeta;
  repeat case_step.

Lemma mcp_case_issues n k c args :
  In (n, k) Mcp.cases -> issues (allowed n) (budget n) (k c args).
Proof.
  intros Hin. unfold Mcp.cases in Hin. cbn [In] in Hin.
  repeat (destruct Hin as [Heq | Hin];
          [ injection Heq as <- <-;
            unfold Mcp.list_projects, Mcp.query_work_items, Mcp.get_work_items_by_ids, Mcp.get_builds,
    Mcp.get_releases, Mcp.create_work_item, Mcp.update_work_item, Mcp.assign_work_item,
    Mcp.list_repositories, Mcp.list_branches, Mcp.list_pull_requests, Mcp.get_pull_request,
    Mcp.search_code, Mcp.search_work_items, Mcp.list_wikis, Mcp.get_wiki_page,
    Mcp.list_team_iterations, Mcp.list_test_plans, Mcp.list_project_teams,
    Mcp.get_identity_ids, Mcp.get_current_user, Mcp.list_work_item_types,
    Mcp.list_iterations, Mcp.list_build_definitions, Mcp.list_release_definitions,
    Mcp.list_queries, Mcp.get_work_item_revisions, Mcp.get_work_item_links,
    Mcp.create_pull_request, Mcp.list_commits, Mcp.get_file_content, Mcp.list_areas,
    Mcp.list_iteration_capacities, Mcp.list_work_item_categories, Mcp.list_dashboards,
    Mcp.list_pipelines, Mcp.list_test_suites, Mcp.list_variable_groups,
    Mcp.list_service_endpoints, Mcp.list_tags, Mcp.list_team_members, Mcp.list_boards,
    Mcp.list_board_columns, Mcp.list_board_rows, Mcp.list_work_item_states,
    Mcp.list_work_item_fields, Mcp.list_work_item_updates, Mcp.list_work_item_attachments,
    Mcp.list_work_item_comments, Mcp.list_work_item_relations,
    Mcp.list_work_item_query_results;
            case_issues
          | ]).
  contradiction.
Qed.

Lemma api_case_issues site n k c args :
  In (n, k) (Api.cases site) -> issues (allowed n) (budget n) (k c args).
Proof.
  intros Hin. unfold Api.cases in Hin. cbn [In] in Hin.
  repeat (destruct Hin as [Heq | Hin];
          [ injection Heq as <- <-;
            try (unfold Api.update_work_item; destruct site);
            case_issues
          | ]).
  contradiction.
Qed.

Lemma issues_handled {A} P n (m : M A) (h : JSError -> M A) :
  issues P n m -> (forall e, issues P 0 (h e)) -> issues P n (tryCatch m h).
Proof. intros Hm Hh. rewrite <- (Nat.add_0_r n). now apply issues_tryCatch. Qed.

Lemma callsite_issues s c n args be tr :
  exists new,
    requestsOf s c n args be tr = (tr ++ new)%list
    /\ Forall (allowed n) new /\ (length new <= budget n)%nat.
Proof.
  destruct s; unfold requestsOf.
  - apply (issues_handled (allowed n) (budget n)); [| intros e; apply issues_ret].
    unfold dispatch. destruct (switch Mcp.cases n) as [k |] eqn:Hs.
    + apply mcp_case_issues. now apply switch_Some_In.
    + apply issues_throw.
  - apply (issues_handled (allowed n) (budget n)); [| intros e; apply issues_ret].
    unfold apiToolsBody. destruct (findTool n); [| apply issues_ret].
    destruct (switch (Api.cases ApiTools) n) as [k |] eqn:Hs; [| apply issues_ret].
    apply issues_then.
    + apply (api_case_issues ApiTools). now apply switch_Some_In.
    + intros raw. apply issues_bind_pure. intros f. apply issues_ret.
  - unfold chatFunctionCall.
    destruct (switch (Api.cases ApiChat) n) as [k |] eqn:Hs; [| apply issues_ret].
    apply issues_then.
    + apply (api_case_issues ApiChat). now apply switch_Some_In.
    + intros raw. apply issues_bind_pure. intros f. apply issues_ret.
Qed.

(** X5. Tools that do not create or change anything never write: at each
    of the three call sites, an invocation of any tool other than
    create_work_item, update_work_item, assign_work_item and
    create_pull_request only adds requests to those made so far, and each of
    them is a GET, the WIQL query or a search; no PATCH is sent, and no
    POST that creates something.  This holds for every tool name, every
    arguments value and every backend. *)
Theorem read_only_tools_never_write
  (s : CallSite) (c : Client) (n : string) (args : JS) (be : Backend) (tr : list Request) :
  mem n mutationTools = false ->
  exists new,
    requestsOf s c n args be tr = (tr ++ new)%list /\ Forall isQuery new.
Proof.
  intros Hn. destruct (callsite_issues s c n args be tr) as (new & Hc & HP & _).
  exists new. split; [exact Hc |]. unfold allowed in HP. now rewrite Hn in HP.
Qed.

Lemma read_only_tools_never_write_witness :
  exists new,
    requestsOf HttpApiChat demoClient "search_code" (JObj [("searchText", JStr "TODO")])
               emptyValueBackend []
    = ([] ++ new)%list /\ Forall isQuery new.
Proof.
  apply (read_only_tools_never_write HttpApiChat demoClient "search_code"
           (JObj [("searchText", JStr "TODO")]) emptyValueBackend []).
  reflexivity.
Defined.

(** X6. No fan-out: at each of the three call sites an invocation adds at
    most one request to those made so far, and at most two when the tool is
    query_work_items or list_work_item_query_results, whatever the tool
    name, the arguments and the backend's answers. *)
Theorem invocation_request_budget
  (s : CallSite) (c : Client) (n : string) (args : JS) (be : Backend) (tr : list Request) :
  exists new,
    requestsOf s c n args be tr = (tr ++ new)%list
    /\ (length new <= if mem n twoStepTools then 2 else 1)%nat.
Proof.
  destruct (callsite_issues s c n args be tr) as (new & Hc & _ & Hl).
  exists new. split; [exact Hc | exact Hl].
Qed.

(** ** Transport errors *)

Section Surfaces.

Variables (msg : string) (st : option Z).
Hypothesis not404 : st <> Some 404.

Lemma surfaces_ret {A} (a : A) : surfaces msg st (ret a).
Proof. intros be tr _. now left. Qed.

Lemma surfaces_throw {A} e : surfaces msg st (@throw A e).
Proof. intros be tr _. now left. Qed.

Lemma surfaces_lift {A} (r : Res A) : surfaces msg st (lift r).
Proof. intros be tr _. now left. Qed.

Lemma surfaces_request rq : surfaces msg st (request rq).
Proof.
  intros be tr H. right. exists [rq]. now apply request_reject.
Qed.

Lemma surfaces_bind {A B} (m : M A) (k : A -> M B) :
  surfaces msg st m -> (forall x, surfaces msg st (k x)) -> surfaces msg st (bind m k).
Proof.
  intros Hm Hk be tr H. destruct (Hm be tr H) as [Hc | (new & Hc)].
  - unfold bind. unfold calls in Hc. destruct (m be tr) as [[x | e] tr']; cbn in Hc; subst tr'.
    + now apply Hk.
    + now left.
  - right. exists new. unfold bind. now rewrite Hc.
Qed.

Lemma is404_rejection : is404 (AxiosError msg st) = false.
Proof.
  unfold is404. cbn. destruct st as [z |]; [| reflexivity].
  apply Z.eqb_neq. intros ->. now apply not404.
Qed.

Lemma surfaces_tryCatch404 {A} (m : M A) (a : A) :
  surfaces msg st m ->
  surfaces msg st (tryCatch m (fun e => if is404 e then ret a else throw e)).
Proof.
  intros Hm be tr H. destruct (Hm be tr H) as [Hc | (new & Hc)].
  - left. unfold tryCatch. unfold calls in Hc.
    destruct (m be tr) as [[x | e] tr']; cbn in Hc; subst tr'; [reflexivity |].
    now destruct (is404 e).
  - right. exists new. unfold tryCatch. rewrite Hc, is404_rejection. reflexivity.
Qed.

Lemma surfaces_catch404 (m : M JS) : surfaces msg st m -> surfaces msg st (catch404 m).
Proof. apply surfaces_tryCatch404. Qed.

Ltac surfaces_step :=
  first
    [ apply surfaces_ret | apply surfaces_throw | apply surfaces_lift
    | apply surfaces_request
    | apply surfaces_catch404
    | apply surfaces_tryCatch404
    | apply surfaces_bind; [ | intros ]
    | match goal with
      | |- surfaces _ _ (if ?b then _ else _) => destruct b
      | |- surfaces _ _ (match ?x with _ => _ end) => destruct x
      end ].

Ltac surfaces_tac :=
  unfold textContent, Api.arg, iget, ipost, ipatch; cbv zeta; repeat surfaces_step.

Lemma mcp_case_surfaces n k c args :
  In (n, k) Mcp.cases -> surfaces msg st (k c args).
Proof.
  intros Hin. unfold Mcp.cases in Hin. cbn [In] in Hin.
  repeat (destruct Hin as [Heq | Hin];
          [ injection Heq as <- <-;
            unfold Mcp.list_projects, Mcp.query_work_items, Mcp.get_work_items_by_ids, Mcp.get_builds,
    Mcp.get_releases, Mcp.create_work_item, Mcp.update_work_item, Mcp.assign_work_item,
    Mcp.list_repositories, Mcp.list_branches, Mcp.list_pull_requests, Mcp.get_pull_request,
    Mcp.search_code, Mcp.search_work_items, Mcp.list_wikis, Mcp.get_wiki_page,
    Mcp.list_team_iterations, Mcp.list_test_plans, Mcp.list_project_teams,
    Mcp.get_identity_ids, Mcp.get_current_user, Mcp.list_work_item_types,
    Mcp.list_iterations, Mcp.list_build_definitions, Mcp.list_release_definitions,
    Mcp.list_queries, Mcp.get_work_item_revisions, Mcp.get_work_item_links,
    Mcp.create_pull_request, Mcp.list_commits, Mcp.get_file_content, Mcp.list_areas,
    Mcp.list_iteration_capacities, Mcp.list_work_item_categories, Mcp.list_dashboards,
    Mcp.list_pipelines, Mcp.list_test_suites, Mcp.list_variable_groups,
    Mcp.list_service_endpoints, Mcp.list_tags, Mcp.list_team_members, Mcp.list_boards,
    Mcp.list_board_columns, Mcp.list_board_rows, Mcp.list_work_item_states,
    Mcp.list_work_item_fields, Mcp.list_work_item_updates, Mcp.list_work_item_attachments,
    Mcp.list_work_item_comments, Mcp.list_work_item_relations,
    Mcp.list_work_item_query_results;
            surfaces_tac
          | ]).
  contradiction.
Qed.

Lemma api_case_surfaces site n k c args :
  In (n, k) (Api.cases site) -> surfaces msg st (k c args).
Proof.
  intros Hin. unfold Api.cases in Hin. cbn [In] in Hin.
  repeat (destruct Hin as [Heq | Hin];
          [ injection Heq as <- <-;
            try (unfold Api.update_work_item; destruct site);
            surfaces_tac
          | ]).
  contradiction.
Qed.

End Surfaces.

(** X7. Transport errors surface with the backend's message.  Against a
    backend that rejects every request with message [msg] and a status other
    than 404, an invocation of any tool with any arguments either makes no
    request at all (an argument was rejected first, the tool is unknown, or
    there was nothing to fetch) or fails with that message: the CallTool
    handler returns the error result "Error: <msg>", [POST /api/tools/:name]
    answers 500 with <msg>, and the function call of [POST /api/chat] throws
    the rejection.  No tool turns such a failure into a successful answer. *)
Theorem transport_errors_surface
  (c : Client) (n : string) (args : JS) (be : Backend) (tr : list Request)
  (msg : string) (st : option Z) :
  rejectsAll be msg st -> st <> Some 404 ->
  (calls (callTool c n args be tr) = tr
   \/ result (callTool c n args be tr) = Ok (mkResult ("Error: " ++ msg) true))
  /\ (calls (apiTools c n args be tr) = tr
      \/ result (apiTools c n args be tr) = Ok (mkResponse 500 (errorBody msg)))
  /\ (calls (chatFunctionCall c (JStr n) args be tr) = tr
      \/ result (chatFunctionCall c (JStr n) args be tr) = Throw (AxiosError msg st)).
Proof.
  intros Hbe Hst.
  assert (Hmcp : surfaces msg st (dispatch c n args)).
  { unfold dispatch. destruct (switch Mcp.cases n) as [k |] eqn:Hs.
    - apply (mcp_case_surfaces msg st Hst n). now apply switch_Some_In.
    - apply surfaces_throw. }
  assert (Hformat : forall site (k : Client -> JS -> M JS) B (f : JS -> JS -> B),
             In (n, k) (Api.cases site) ->
             surfaces msg st
               (bind (k c args) (fun rawResult =>
                  bind (lift (Api.format site n rawResult args)) (fun formatted =>
                    ret (f formatted rawResult))))).
  { intros site k B f Hin. apply surfaces_bind.
    - now apply (api_case_surfaces msg st Hst site n).
    - intros raw. apply surfaces_bind; [apply surfaces_lift | intros x; apply surfaces_ret]. }
  assert (Hapi : surfaces msg st (apiToolsBody c n args)).
  { unfold apiToolsBody. destruct (findTool n); [| apply surfaces_ret].
    destruct (switch (Api.cases ApiTools) n) as [k |] eqn:Hs; [| apply surfaces_ret].
    apply (Hformat ApiTools k _
             (fun formatted rawResult =>
                mkResponse 200 (JObj [("result", formatted); ("raw", rawResult)]))).
    now apply switch_Some_In. }
  assert (Hchat : surfaces msg st (chatFunctionCall c (JStr n) args)).
  { unfold chatFunctionCall.
    destruct (switch (Api.cases ApiChat) n) as [k |] eqn:Hs; [| apply surfaces_ret].
    apply (Hformat ApiChat k _ (fun formatted rawResult => inr (formatted, rawResult))).
    now apply switch_Some_In. }
  split; [| split].
  - unfold callTool, tryCatch. destruct (Hmcp be tr Hbe) as [H | (new & H)].
    + left. unfold calls in *. now destruct (dispatch c n args be tr) as [[r | e] tr'].
    + right. now rewrite H.
  - unfold apiTools, tryCatch. destruct (Hapi be tr Hbe) as [H | (new & H)].
    + left. unfold calls in *. now destruct (apiToolsBody c n args be tr) as [[r | e] tr'].
    + right. now rewrite H.
  - destruct (Hchat be tr Hbe) as [H | (new & H)]; [now left |].
    right. now rewrite H.
Qed.

Lemma transport_errors_surface_witness :
  (calls (callTool demoClient "list_projects" (JObj []) always500 []) = []
   \/ result (callTool demoClient "list_projects" (JObj []) always500 [])
      = Ok (mkResult ("Error: " ++ "Request failed with status code 500") true))
  /\ (calls (apiTools demoClient "list_projects" (JObj []) always500 []) = []
      \/ result (apiTools demoClient "list_projects" (JObj []) always500 [])
         = Ok (mkResponse 500 (errorBody "Request failed with status code 500")))
  /\ (calls (chatFunctionCall demoClient (JStr "list_projects") (JObj []) always500 []) = []
      \/ result (chatFunctionCall demoClient (JStr "list_projects") (JObj []) always500 [])
         = Throw (AxiosError "Request failed with status code 500" (Some 500))).
Proof.
  apply (transport_errors_surface demoClient "list_projects" (JObj []) always500 []
           "Request failed with status code 500" (Some 500)).
  - intros tr rq. reflexivity.
  - discriminate.
Defined.

(** ** Required and declared arguments *)

(** X8. The required-parameter checks of the CallTool handler are
    truthiness tests: at each of the 23 guarded tools a required argument
    that is present but falsy (0, the empty string, false, null) is
    rejected like an absent one, with an error that names it and before any
    request is made.  A work item id of 0, for instance, is refused. *)
Theorem falsy_required_parameter_is_rejected
  (c : Client) (n p : string) (args : JS) (be : Backend) (tr : list Request) :
  In n guardedTools -> In p (requiredOf n) -> truthy (oget args p) = false ->
  exists msg,
    callTool c n args be tr = (Ok (mkResult ("Error: " ++ msg) true), tr)
    /\ mentions p msg = true.
Proof.
  intros Hn Hp H. unfold guardedTools in Hn. cbn [In] in Hn.
  repeat (destruct Hn as [<- | Hn];
          [ vm_compute in Hp;
            repeat (destruct Hp as [<- | Hp]; [ guard_case H | ]); contradiction
          | ]).
  contradiction.
Qed.

Lemma falsy_required_parameter_is_rejected_witness :
  exists msg,
    callTool demoClient "update_work_item" zeroIdArgs echo5Backend []
    = (Ok (mkResult ("Error: " ++ msg) true), [])
    /\ mentions "id" msg = true.
Proof.
  apply (falsy_required_parameter_is_rejected demoClient "update_work_item" "id"
           zeroIdArgs echo5Backend []).
  - vm_compute. tauto.
  - vm_compute. tauto.
  - reflexivity.
Defined.

Ltac declared := vm_compute; repeat first [ left; reflexivity | right ].

Ltac same_args H a :=
  repeat match goal with
         | |- context [oget a ?k] => rewrite (H k ltac:(declared))
         | |- context [prop a ?k] => rewrite (H k ltac:(declared))
         end.

(** X9. The CallTool handler reads the declared arguments only: two
    arguments values that agree on every parameter of a tool's input schema
    are indistinguishable to the tool, they lead to the same requests and
    the same result.  An argument the schema does not declare is ignored. *)
Theorem callTool_reads_declared_arguments_only
  (c : Client) (n : string) (args1 args2 : JS) (be : Backend) (tr : list Request) :
  (forall p, In p (declaredOf n) -> oget args1 p = oget args2 p) ->
  callTool c n args1 be tr = callTool c n args2 be tr.
Proof.
  intros H. unfold callTool, dispatch.
  destruct (switch Mcp.cases n) as [k |] eqn:Hs; [| reflexivity].
  apply switch_Some_In in Hs. unfold Mcp.cases in Hs. cbn [In] in Hs.
  repeat (destruct Hs as [Heq | Hs];
          [ injection Heq as <- <-;
            unfold Mcp.list_projects, Mcp.query_work_items, Mcp.get_work_items_by_ids, Mcp.get_builds,
    Mcp.get_releases, Mcp.create_work_item, Mcp.update_work_item, Mcp.assign_work_item,
    Mcp.list_repositories, Mcp.list_branches, Mcp.list_pull_requests, Mcp.get_pull_request,
    Mcp.search_code, Mcp.search_work_items, Mcp.list_wikis, Mcp.get_wiki_page,
    Mcp.list_team_iterations, Mcp.list_test_plans, Mcp.list_project_teams,
    Mcp.get_identity_ids, Mcp.get_current_user, Mcp.list_work_item_types,
    Mcp.list_iterations, Mcp.list_build_definitions, Mcp.list_release_definitions,
    Mcp.list_queries, Mcp.get_work_item_revisions, Mcp.get_work_item_links,
    Mcp.create_pull_request, Mcp.list_commits, Mcp.get_file_content, Mcp.list_areas,
    Mcp.list_iteration_capacities, Mcp.list_work_item_categories, Mcp.list_dashboards,
    Mcp.list_pipelines, Mcp.list_test_suites, Mcp.list_variable_groups,
    Mcp.list_service_endpoints, Mcp.list_tags, Mcp.list_team_members, Mcp.list_boards,
    Mcp.list_board_columns, Mcp.list_board_rows, Mcp.list_work_item_states,
    Mcp.list_work_item_fields, Mcp.list_work_item_updates, Mcp.list_work_item_attachments,
    Mcp.list_work_item_comments, Mcp.list_work_item_relations,
    Mcp.list_work_item_query_results;
            cbv zeta; same_args H args1; reflexivity
          | ]).
  contradiction.
Qed.

Lemma callTool_reads_declared_arguments_only_witness :
  callTool demoClient "get_releases" (JObj [("top", JNum 5); ("verbose", JBool true)])
           emptyValueBackend []
  = callTool demoClient "get_releases" (JObj [("top", JNum 5)]) emptyValueBackend [].
Proof.
  apply (callTool_reads_declared_arguments_only demoClient "get_releases"
           (JObj [("top", JNum 5); ("verbose", JBool true)]) (JObj [("top", JNum 5)])
           emptyValueBackend []).
  intros p Hp. vm_compute in Hp. destruct Hp as [<- | []]. reflexivity.
Defined.

Lemma api_case_reads_declared site c n args1 args2 k :
  nullish args1 = false -> nullish args2 = false ->
  (forall p, In p (declaredOf n) -> prop args1 p = prop args2 p) ->
  In (n, k) (Api.cases site) ->
  k c args1 = k c args2
  /\ forall rawResult, Api.format site n rawResult args1 = Api.format site n rawResult args2.
Proof.
  intros H1 H2 H Hin. unfold Api.cases in Hin. cbn [In] in Hin.
  repeat (destruct Hin as [Heq | Hin];
          [ injection Heq as <- <-; split;
            [ unfold Api.update_work_item, Api.arg
            | intros rawResult; unfold Api.format;
              cbn [switch Api.templates String.eqb Ascii.eqb Bool.eqb];
              unfold Api.format_create_work_item, Api.format_update_work_item,
                Api.format_assign_work_item, Api.format_get_wiki_page,
                Api.format_create_pull_request, Api.format_get_file_content ];
            rewrite ?(get_present args1 _ H1), ?(get_present args2 _ H2);
            same_args H args1; reflexivity
          | ]).
  contradiction.
Qed.

Lemma api_sites_same
  (c : Client) (n : string) (args1 args2 : JS) (be : Backend) (tr : list Request) :
  (forall site k, In (n, k) (Api.cases site) ->
     k c args1 = k c args2
     /\ forall rawResult,
          Api.format site n rawResult args1 = Api.format site n rawResult args2) ->
  apiTools c n args1 be tr = apiTools c n args2 be tr
  /\ chatFunctionCall c (JStr n) args1 be tr = chatFunctionCall c (JStr n) args2 be tr.
Proof.
  intros H.
  assert (Hsame : forall site k B (f : JS -> JS -> B),
             In (n, k) (Api.cases site) ->
             bind (k c args1) (fun rawResult =>
               bind (lift (Api.format site n rawResult args1)) (fun formatted =>
                 ret (f formatted rawResult))) be tr
             = bind (k c args2) (fun rawResult =>
                 bind (lift (Api.format site n rawResult args2)) (fun formatted =>
                   ret (f formatted rawResult))) be tr).
  { intros site k B f Hin. destruct (H site k Hin) as [Hk Hf].
    unfold bind at 1 3. rewrite Hk.
    destruct (k c args2 be tr) as [[raw | e] tr']; [| reflexivity].
    now rewrite Hf. }
  split.
  - unfold apiTools, tryCatch, apiToolsBody. destruct (findTool n); [| reflexivity].
    destruct (switch (Api.cases ApiTools) n) as [k |] eqn:Hs; [| reflexivity].
    now rewrite (Hsame ApiTools k _
                   (fun formatted rawResult =>
                      mkResponse 200 (JObj [("result", formatted); ("raw", rawResult)]))
                   (switch_Some_In _ _ _ Hs)).
  - unfold chatFunctionCall.
    destruct (switch (Api.cases ApiChat) n) as [k |] eqn:Hs; [| reflexivity].
    now rewrite (Hsame ApiChat k _ (fun formatted rawResult => inr (formatted, rawResult))
                   (switch_Some_In _ _ _ Hs)).
Qed.

Lemma api_sites_read_declared
  (c : Client) (n : string) (args1 args2 : JS) (be : Backend) (tr : list Request) :
  nullish args1 = false -> nullish args2 = false ->
  (forall p, In p (declaredOf n) -> prop args1 p = prop args2 p) ->
  apiTools c n args1 be tr = apiTools c n args2 be tr
  /\ chatFunctionCall c (JStr n) args1 be tr = chatFunctionCall c (JStr n) args2 be tr.
Proof.
  intros H1 H2 H. apply api_sites_same. intros site k Hin.
  now apply api_case_reads_declared.
Qed.

(** X10. The two HTTP call sites read the declared arguments only: two
    request bodies (or function arguments) that agree on every parameter of
    a tool's input schema get the same answer from [POST /api/tools/:name]
    and from the function call of [POST /api/chat], with the same requests
    made to the backend. *)
Theorem http_call_sites_read_declared_arguments_only
  (c : Client) (n : string) (args1 args2 : JS) (be : Backend) (tr : list Request) :
  nullish args1 = false -> nullish args2 = false ->
  (forall p, In p (declaredOf n) -> prop args1 p = prop args2 p) ->
  apiTools c n args1 be tr = apiTools c n args2 be tr
  /\ chatFunctionCall c (JStr n) args1 be tr = chatFunctionCall c (JStr n) args2 be tr.
Proof. apply api_sites_read_declared. Qed.

Lemma http_call_sites_read_declared_arguments_only_witness :
  apiTools demoClient "get_releases" (JObj [("top", JNum 5); ("verbose", JBool true)])
           emptyValueBackend []
  = apiTools demoClient "get_releases" (JObj [("top", JNum 5)]) emptyValueBackend []
  /\ chatFunctionCall demoClient (JStr "get_releases")
       (JObj [("top", JNum 5); ("verbose", JBool true)]) emptyValueBackend []
     = chatFunctionCall demoClient (JStr "get_releases") (JObj [("top", JNum 5)])
         emptyValueBackend [].
Proof.
  apply (http_call_sites_read_declared_arguments_only demoClient "get_releases"
           (JObj [("top", JNum 5); ("verbose", JBool true)]) (JObj [("top", JNum 5)])
           emptyValueBackend []).
  - reflexivity.
  - reflexivity.
  - intros p Hp. vm_compute in Hp. destruct Hp as [<- | []]. reflexivity.
Defined.

(** ** The answers of [POST /api/tools/:name] *)

Lemma findTool_has_case site n t :
  findTool n = Some t -> exists k, switch (Api.cases site) n = Some k.
Proof.
  intros Hf. unfold findTool in Hf. apply find_some in Hf as [Hin Heq].
  apply String.eqb_eq in Heq. subst n.
  assert (Hn : In (name t) (map name tools)) by now apply in_map.
  assert (Hc : In (name t) (map fst (Api.cases site))).
  { revert Hn. apply included_In. destruct site; vm_compute; reflexivity. }
  apply switch_In in Hc. destruct (switch (Api.cases site) (name t)) as [k |]; [| congruence].
  now exists k.
Qed.

(** X11. [POST /api/tools/:name] always answers, and with one of three
    shapes.  For a name that is not in the registry it answers 404 "Tool not
    found" without contacting the backend.  For a registry name it answers
    either 200 with a body carrying both [result] and [raw], or 500 with the
    message of the error: the 400 "Unsupported tool" answer of the source
    cannot occur, since every registry name has a case in the switch. *)
Theorem apiTools_answers
  (c : Client) (n : string) (args : JS) (be : Backend) (tr : list Request) :
  exists r,
    result (apiTools c n args be tr) = Ok r
    /\ match findTool n with
       | None =>
           r = mkResponse 404 (errorBody "Tool not found")
           /\ calls (apiTools c n args be tr) = tr
       | Some _ =>
           (exists formatted raw,
              r = mkResponse 200 (JObj [("result", formatted); ("raw", raw)]))
           \/ (exists msg, r = mkResponse 500 (errorBody msg))
       end.
Proof.
  unfold apiTools, tryCatch, apiToolsBody.
  destruct (findTool n) as [t |] eqn:Hf.
  - destruct (findTool_has_case ApiTools n t Hf) as [k ->].
    unfold bind. destruct (k c args be tr) as [[raw | e] tr'].
    + unfold lift. destruct (Api.format ApiTools n raw args) as [formatted | e].
      * eexists. split; [reflexivity |]. left. now exists formatted, raw.
      * eexists. split; [reflexivity |]. right. now exists (message e).
    + eexists. split; [reflexivity |]. right. now exists (message e).
  - eexists. split; [reflexivity |]. now split.
Qed.

(** ** Features a project may not have *)

Lemma getQueryResults_404_calls c project queryId be tr :
  answers404 be tr ->
  getQueryResults c project queryId be tr
  = (Ok (JArr []), (tr ++ [queryResultsRequest project queryId])%list).
Proof.
  intros H. unfold getQueryResults, iget.
  destruct (H (queryResultsRequest project queryId)) as [msg Hrq].
  unfold bind at 1, tryCatch.
  unfold queryResultsRequest in Hrq.
  rewrite (bind_throw _ _ _ _ _ _ (request_reject _ _ _ _ _ Hrq)).
  reflexivity.
Qed.

Ltac clause_case H :=
  unfold callTool, tryCatch, dispatch;
  cbv [switch Mcp.cases String.eqb Ascii.eqb Bool.eqb
       Mcp.list_test_plans Mcp.list_iterations Mcp.list_release_definitions Mcp.list_areas
       Mcp.list_iteration_capacities Mcp.list_work_item_categories Mcp.list_dashboards
       Mcp.list_pipelines Mcp.list_test_suites Mcp.list_variable_groups
       Mcp.list_service_endpoints Mcp.list_tags Mcp.list_team_members Mcp.list_boards
       Mcp.list_board_columns Mcp.list_board_rows Mcp.list_work_item_states
       Mcp.list_work_item_fields Mcp.list_work_item_updates Mcp.list_work_item_attachments
       Mcp.list_work_item_comments Mcp.list_work_item_relations
       Mcp.list_work_item_query_results];
  repeat match goal with
         | |- context [truthy (oget ?a ?k)] =>
             let E := fresh "E" in
             destruct (truthy (oget a k)) eqn:E; cbn [negb orb];
             [ | left; eexists; split;
                 [ reflexivity | exists k; split; [ vm_compute; tauto | exact E ] ] ]
         end;
  right;
  first
    [ rewrite (bind_ok _ _ _ _ _ _ (getQueryResults_404_calls _ _ _ _ _ H))
    | unfold getTestPlans, getIterations, getReleaseDefinitions, getAreas,
        getIterationCapacities, getWorkItemCategories, getDashboards, getPipelines,
        getTestSuites, getVariableGroups, getServiceEndpoints, getTags, getTeamMembers,
        getBoards, getBoardColumns, getBoardRows, getWorkItemStates, getWorkItemFields,
        getWorkItemUpdates, getWorkItemAttachments, getWorkItemComments,
        getWorkItemRelations, iget;
      cbv zeta;
      rewrite (bind_ok _ _ _ _ _ _ (catch404_empty _ _ _ _ H)) ];
  eexists; split; [ reflexivity | vm_compute; reflexivity ].

(** X12. A feature the project does not have reads as an empty list.  For
    each of the 23 tools whose Backend Client method carries the 404
    clause, when the backend answers 404 the CallTool handler does not
    report an error of the backend: either a required argument is falsy and
    the invocation is rejected before any request, or the answer is the
    tool's fixed one-line "No ... found." message, not an error result. *)
Theorem missing_feature_reads_as_empty
  (c : Client) (n : string) (args : JS) (be : Backend) (tr : list Request) :
  In n clauseTools -> answers404 be tr ->
  (exists msg,
     callTool c n args be tr = (Ok (mkResult ("Error: " ++ msg) true), tr)
     /\ exists p, In p (requiredOf n) /\ truthy (oget args p) = false)
  \/ (exists m,
        result (callTool c n args be tr) = Ok (mkResult m false)
        /\ isEmptyMessage m = true).
Proof.
  intros Hn H. unfold clauseTools in Hn. cbn [In] in Hn.
  repeat (destruct Hn as [<- | Hn]; [ clause_case H | ]).
  contradiction.
Qed.

Lemma missing_feature_reads_as_empty_witness :
  (exists msg,
     callTool demoClient "list_pipelines" (JObj []) always404 []
     = (Ok (mkResult ("Error: " ++ msg) true), [])
     /\ exists p, In p (requiredOf "list_pipelines")
                  /\ truthy (oget (JObj []) p) = false)
  \/ (exists m,
        result (callTool demoClient "list_pipelines" (JObj []) always404 [])
        = Ok (mkResult m false)
        /\ isEmptyMessage m = true).
Proof.
  apply (missing_feature_reads_as_empty demoClient "list_pipelines" (JObj []) always404 []).
  - vm_compute. tauto.
  - apply always404_answers404.
Defined.

(** ** Rows that tolerate any record *)



(** ** Tables rendered at more than one call site *)







(** ** A turn of the chat endpoint *)

Lemma unregistered_has_no_case site n :
  findTool n = None -> switch (Api.cases site) n = None.
Proof.
  intros Hf. destruct (switch (Api.cases site) n) as [k |] eqn:Hs; [| reflexivity].
  exfalso.
  assert (Hc : In n (map fst (Api.cases site))).
  { apply switch_In. congruence. }
  assert (Hn : In n (map name tools)).
  { revert Hc. apply included_In. destruct site; vm_compute; reflexivity. }
  apply in_map_iff in Hn as (t & Ht & Hin).
  unfold findTool in Hf.
  pose proof (find_none _ _ Hf t Hin) as Hfalse. cbn in Hfalse.
  rewrite Ht, String.eqb_refl in Hfalse. discriminate.
Qed.

(** X15. The outcomes of a chat turn once the model has answered the first
    call.  If the model selected no function, the turn ends there: the
    answer is 200 with the model's text and [tool_used: null], and the first
    model call is the only request made.  If it selected a function that is
    not a registry tool, the answer is 400 "Unknown function: <name>", again
    with no further request.  If the selected tool throws, the answer is 500
    with the error's message and the turn stops after the tool's own
    requests: the failure is not handed to the model and no second model
    call is made.  If the tool succeeds, one second model call follows,
    carrying the user's message, the model's first message and the
    formatted tool result, and the answer is 200 with the text of the
    second reply, the tool name and the raw payload. *)
Theorem chat_turn_outcomes
  (JSON_parse : string -> Res JS) (c : Client) (userText : JS)
  (be : Backend) (tr : list Request) (response choice choiceMessage : JS) :
  truthy userText = true -> isString userText = true ->
  be tr (firstCompletion userText) = Resp response ->
  dot (get response "choices") "0" = Ok choice ->
  get choice "message" = Ok choiceMessage ->
  truthy choiceMessage = true ->
  let function_call := prop choiceMessage "function_call" in
  let functionArgs := parseArguments JSON_parse (prop function_call "arguments") in
  let tr1 := (tr ++ [firstCompletion userText])%list in
  (truthy function_call = false ->
   apiChat JSON_parse c userText be tr
   = (Ok (mkResponse 200 (JObj [("result", prop choiceMessage "content");
                                ("tool_used", JNull)])), tr1))
  /\ (forall n, truthy function_call = true -> prop function_call "name" = JStr n ->
        findTool n = None ->
        apiChat JSON_parse c userText be tr
        = (Ok (mkResponse 400 (errorBody ("Unknown function: " ++ n))), tr1))
  /\ (forall e tr2, truthy function_call = true ->
        chatFunctionCall c (prop function_call "name") functionArgs be tr1 = (Throw e, tr2) ->
        apiChat JSON_parse c userText be tr
        = (Ok (mkResponse 500 (errorBody (message e))), tr2))
  /\ (forall formatted rawResult tr2 secondResponse finalMessage,
        truthy function_call = true ->
        chatFunctionCall c (prop function_call "name") functionArgs be tr1
        = (Ok (inr (formatted, rawResult)), tr2) ->
        be tr2 (secondCompletion userText choiceMessage (prop function_call "name") formatted)
        = Resp secondResponse ->
        dot (dot (get secondResponse "choices") "0") "message" = Ok finalMessage ->
        nullish finalMessage = false ->
        apiChat JSON_parse c userText be tr
        = (Ok (mkResponse 200 (JObj [("result", prop finalMessage "content");
                                     ("tool_used", prop function_call "name");
                                     ("raw_result", rawResult)])),
           (tr2 ++ [secondCompletion userText choiceMessage (prop function_call "name")
                      formatted])%list)).
Proof.
  intros Ht Hs Hbe Hchoice Hmsg Hcm. cbv zeta.
  assert (Hstart : forall k : JS -> M HttpResponse,
             bind (chatCompletion [userMessage userText]) (fun response =>
               bind (lift (dot (get response "choices") "0")) (fun choice =>
                 bind (lift (get choice "message")) k)) be tr
             = k choiceMessage be (tr ++ [firstCompletion userText])%list).
  { intros k. unfold chatCompletion. fold (firstCompletion userText).
    rewrite (bind_ok _ _ _ _ _ _ (request_resp _ _ _ _ Hbe)).
    unfold bind at 1, lift at 1. rewrite Hchoice.
    unfold bind at 1, lift at 1. now rewrite Hmsg. }
  unfold apiChat. rewrite Ht, Hs. cbn [negb orb].
  unfold tryCatch, apiChatBody. rewrite Hstart, Hcm. cbn [negb].
  split; [| split; [| split]].
  - intros Hf. rewrite Hf. reflexivity.
  - intros n Hf Hn Hnone. rewrite Hf, Hn.
    unfold bind at 1, chatFunctionCall.
    rewrite (unregistered_has_no_case ApiChat n Hnone). reflexivity.
  - intros e tr2 Hf Hthrow. rewrite Hf.
    unfold bind at 1. rewrite Hthrow. reflexivity.
  - intros formatted rawResult tr2 secondResponse finalMessage Hf Hcall Hsecond Hfinal Hpresent.
    rewrite Hf. unfold bind at 1. rewrite Hcall.
    unfold chatCompletion.
    fold (secondCompletion userText choiceMessage
            (prop (prop choiceMessage "function_call") "name") formatted).
    rewrite (bind_ok _ _ _ _ _ _ (request_resp _ _ _ _ Hsecond)).
    unfold bind at 1, lift at 1. rewrite Hfinal.
    unfold bind at 1, lift at 1. rewrite (get_present _ _ Hpresent). reflexivity.
Qed.

Lemma chat_turn_outcomes_witness :
  apiChat (fun _ => Ok (JObj [])) demoClient (JStr "hello") plainAnswerBackend []
  = (Ok (mkResponse 200 (JObj [("result", JStr "Hello!"); ("tool_used", JNull)])),
     [firstCompletion (JStr "hello")]).
Proof.
  apply (proj1 (chat_turn_outcomes (fun _ => Ok (JObj [])) demoClient (JStr "hello")
                  plainAnswerBackend []
                  (JObj [("choices", JArr [JObj [("message", JObj [("content", JStr "Hello!")])]])])
                  (JObj [("message", JObj [("content", JStr "Hello!")])])
                  (JObj [("content", JStr "Hello!")])
                  eq_refl eq_refl eq_refl eq_refl eq_refl eq_refl)).
  reflexivity.
Defined.

(** * Properties of the constructor *)

Lemma strip_prefix_spec p s r : strip_prefix p s = Some r -> s = p ++ r.
Proof.
  revert s. induction p as [| a p IH]; intros s; cbn.
  - now intros [= ->].
  - destruct s as [| b s]; [discriminate |].
    destruct (Ascii.eqb_spec a b) as [-> | Hne]; [| discriminate].
    intros H. now rewrite (IH s H).
Qed.

Lemma strip_prefix_append p s : strip_prefix p (p ++ s) = Some s.
Proof.
  induction p as [| a p IH]; cbn; [reflexivity |].
  now rewrite Ascii.eqb_refl.
Qed.

Lemma segment_spec s :
  noSlash (segment s)
  /\ exists post, s = segment s ++ post /\ (post = "" \/ exists r, post = "/" ++ r).
Proof.
  unfold noSlash. induction s as [| ch s (Hno & post & Hs & Hpost)]; cbn.
  - split; [tauto |]. exists "". split; [reflexivity | now left].
  - destruct (Ascii.eqb_spec ch "/") as [-> | Hne]; cbn.
    + split; [tauto |]. exists ("/" ++ s). split; [reflexivity | right; now exists s].
    + split; [intros [Heq | Hin]; [now apply Hne | now apply Hno] |].
      exists post. split; [now rewrite <- Hs | exact Hpost].
Qed.

Lemma segment_append org rest :
  noSlash org -> (rest = "" \/ exists r, rest = "/" ++ r) -> segment (org ++ rest) = org.
Proof.
  unfold noSlash. intros Hno Hrest. induction org as [| ch org IH]; cbn.
  - destruct Hrest as [-> | (r & ->)]; reflexivity.
  - cbn in Hno. destruct (Ascii.eqb_spec ch "/") as [-> | Hne]; [exfalso; apply Hno; now left |].
    rewrite IH; [reflexivity | tauto].
Qed.

Lemma matchOrganization_sound s org :
  matchOrganization s = Some org ->
  org <> "" /\ noSlash org
  /\ exists pre post, s = pre ++ "dev.azure.com/" ++ org ++ post
                      /\ (post = "" \/ exists r, post = "/" ++ r).
Proof.
  induction s as [| ch s IH].
  - cbn. discriminate.
  - cbn [matchOrganization].
    destruct (strip_prefix "dev.azure.com/" (String ch s)) as [rest |] eqn:Hp.
    + destruct (segment_spec rest) as (Hno & post & Hrest & Hpost).
      destruct (segment rest) as [| a sg] eqn:Hsg.
      * intros H. destruct (IH H) as (H1 & H2 & pre & post' & Hs & Hpost').
        split; [exact H1 | split; [exact H2 |]].
        exists (String ch pre), post'. split; [cbn; now rewrite Hs | exact Hpost'].
      * intros [= <-]. split; [discriminate | split; [exact Hno |]].
        exists "", post. split; [| exact Hpost].
        apply strip_prefix_spec in Hp. rewrite Hp, Hrest. reflexivity.
    + intros H. destruct (IH H) as (H1 & H2 & pre & post' & Hs & Hpost').
      split; [exact H1 | split; [exact H2 |]].
      exists (String ch pre), post'. split; [cbn; now rewrite Hs | exact Hpost'].
Qed.

(** X16. What the constructor guarantees.  It throws in two cases only:
    AZURE_DEVOPS_ORG_URL is unset or empty, or no organization can be read
    from it; each has its own message.  When it succeeds, the organization
    is a non-empty text without a slash that follows "dev.azure.com/" in the
    URL, the base URL of the instance is https://dev.azure.com/ followed by
    that organization whatever the host of the configured URL, and the
    identity search sends exactly the default headers of the instance, so
    both use the same credential. *)
Theorem constructor_outcomes (env : Env) :
  match newAzureDevOpsClient env with
  | Ok (c, cfg) =>
      (exists url pre post,
         env "AZURE_DEVOPS_ORG_URL" = Some url
         /\ url = pre ++ "dev.azure.com/" ++ this_organization c ++ post
         /\ (post = "" \/ exists r, post = "/" ++ r))
      /\ this_organization c <> "" /\ noSlash (this_organization c)
      /\ baseURL cfg = "https://dev.azure.com/" ++ this_organization c
      /\ (forall searchFilter be tr, exists rq,
            calls (searchIdentities c searchFilter be tr) = (tr ++ [rq])%list
            /\ headers rq = defaultHeaders cfg)
  | Throw e =>
      (e = Error "AZURE_DEVOPS_ORG_URL is not defined in environment variables"
       /\ (env "AZURE_DEVOPS_ORG_URL" = None \/ env "AZURE_DEVOPS_ORG_URL" = Some ""))
      \/ (e = Error ("Invalid AZURE_DEVOPS_ORG_URL format. "
                     ++ "Expected https://dev.azure.com/{organization}")
          /\ exists url, env "AZURE_DEVOPS_ORG_URL" = Some url
                         /\ matchOrganization url = None)
  end.
Proof.
  unfold newAzureDevOpsClient, envVar.
  destruct (env "AZURE_DEVOPS_ORG_URL") as [url |] eqn:Hu; cbn [truthy negb].
  - destruct (String.eqb_spec url "") as [-> | Hne]; cbn [negb].
    + left. split; [reflexivity | now right].
    + cbn [toStr]. destruct (matchOrganization url) as [org |] eqn:Hm.
      * destruct (matchOrganization_sound url org Hm) as (H1 & H2 & pre & post & Hs & Hpost).
        cbn [this_organization baseURL defaultHeaders].
        split; [now exists url, pre, post |].
        split; [exact H1 | split; [exact H2 | split; [reflexivity |]]].
        intros searchFilter be tr. eexists. split; [apply request_calls | reflexivity].
      * right. split; [reflexivity |]. now exists url.
  - left. split; [reflexivity | now left].
Qed.

Lemma orEmpty_env env k : toStr (oror (envVar env k) (JStr "")) = orEmpty (env k).
Proof.
  unfold envVar, oror, orEmpty. destruct (env k) as [s |]; cbn; [| reflexivity].
  now destruct (String.eqb_spec s "") as [-> | H].
Qed.

(** X17. The constructor accepts the documented URL form
    https://dev.azure.com/{organization}, with or without a trailing path:
    for every non-empty organization name without a slash it yields that
    very organization, the project and the token of the environment (the
    empty string for a variable that is not set), and an instance whose
    Authorization header is Basic followed by the base64 of ":<token>". *)
Theorem constructor_accepts_organization_url (env : Env) (org rest : string) :
  env "AZURE_DEVOPS_ORG_URL" = Some ("https://dev.azure.com/" ++ org ++ rest) ->
  org <> "" -> noSlash org -> (rest = "" \/ exists r, rest = "/" ++ r) ->
  newAzureDevOpsClient env
  = Ok (mkClient org (orEmpty (env "AZURE_DEVOPS_PROJECT")) (orEmpty (env "AZURE_DEVOPS_PAT")),
        mkAxiosConfig ("https://dev.azure.com/" ++ org)
          [("Authorization", "Basic " ++ base64 (":" ++ orEmpty (env "AZURE_DEVOPS_PAT")));
           ("Content-Type", "application/json")]).
Proof.
  intros Hu Horg Hno Hrest. unfold newAzureDevOpsClient.
  rewrite !orEmpty_env. unfold envVar at 1 2. rewrite Hu.
  cbn [truthy negb toStr String.eqb append Ascii.eqb Bool.eqb].
  assert (Hm : matchOrganization ("https://dev.azure.com/" ++ org ++ rest) = Some org).
  { cbn [append matchOrganization strip_prefix Ascii.eqb Bool.eqb].
    rewrite (segment_append org rest Hno Hrest).
    destruct org; [now elim Horg | reflexivity]. }
  cbn [append] in Hm. rewrite Hm. reflexivity.
Qed.

Lemma constructor_accepts_organization_url_witness :
  newAzureDevOpsClient demoEnv
  = Ok (mkClient "contoso" (orEmpty (demoEnv "AZURE_DEVOPS_PROJECT"))
                 (orEmpty (demoEnv "AZURE_DEVOPS_PAT")),
        mkAxiosConfig ("https://dev.azure.com/" ++ "contoso")
          [("Authorization",
            "Basic " ++ base64 (":" ++ orEmpty (demoEnv "AZURE_DEVOPS_PAT")));
           ("Content-Type", "application/json")]).
Proof.
  apply (constructor_accepts_organization_url demoEnv "contoso" "/").
  - reflexivity.
  - discriminate.
  - unfold noSlash. cbn. intros H.
    repeat (destruct H as [H | H]; [discriminate H |]). exact H.
  - right. now exists "".
Defined.

(** * Properties of the chat page *)

Lemma filter_keeps_other (id : string) (l : list Frontend.Conversation) k :
  k <> id -> In k (map Frontend.conversation_id l) ->
  In k (map Frontend.conversation_id
          (filter (fun c => negb (String.eqb (Frontend.conversation_id c) id)) l)).
Proof.
  intros Hne. induction l as [| c l IH]; cbn; [tauto |].
  intros [Heq | Hin].
  - destruct (String.eqb_spec (Frontend.conversation_id c) id) as [He | _]; cbn.
    + congruence.
    + now left.
  - destruct (negb _); cbn; [right |]; now apply IH.
Qed.

(** X18. Deleting a conversation keeps the page consistent.  If the active
    conversation is one of those listed, then after
    [handleDeleteConversation] it still is and the list is not empty: when
    the active conversation itself is deleted, the first remaining one
    becomes active, and when none remains a fresh conversation with id
    "empty" is created and made active.  Every conversation with another id
    is kept, and no conversation with the deleted id remains, except that
    fresh one when the deleted id is "empty" itself. *)
Theorem delete_keeps_the_page_consistent (id : string) (p : Frontend.Page) :
  Frontend.activeListed p ->
  let p' := Frontend.handleDeleteConversation id p in
  Frontend.activeListed p'
  /\ Frontend.conversations p' <> []
  /\ (forall c, In c (Frontend.conversations p) -> Frontend.conversation_id c <> id ->
        In c (Frontend.conversations p'))
  /\ (forall c, In c (Frontend.conversations p') -> Frontend.conversation_id c = id ->
        id = "empty"
        /\ Frontend.conversations p'
           = [Frontend.mkConversation "empty" "New Conversation" []]).
Proof.
  unfold Frontend.activeListed, Frontend.handleDeleteConversation.
  intros Hact. cbv zeta.
  set (keep := fun c => negb (String.eqb (Frontend.conversation_id c) id)).
  assert (Hkept : forall c, In c (filter keep (Frontend.conversations p)) ->
                            Frontend.conversation_id c <> id).
  { intros c Hc. apply filter_In in Hc as [_ Hk]. unfold keep in Hk.
    now destruct (String.eqb_spec (Frontend.conversation_id c) id). }
  assert (Hstay : forall c, In c (Frontend.conversations p) ->
                            Frontend.conversation_id c <> id ->
                            In c (filter keep (Frontend.conversations p))).
  { intros c Hc Hne. apply filter_In. split; [exact Hc |]. unfold keep.
    now destruct (String.eqb_spec (Frontend.conversation_id c) id). }
  destruct (String.eqb_spec (Frontend.activeConversationId p) id) as [Heq | Hne].
  - destruct (filter keep (Frontend.conversations p)) as [| first rest] eqn:Hf;
      cbn [Frontend.conversations Frontend.activeConversationId Frontend.conversation_id map];
      (split; [now left | split; [discriminate | split]]).
    + intros c Hc Hcid. destruct (Hstay c Hc Hcid).
    + intros c [<- | []] Hcid. split; [now symmetry | reflexivity].
    + exact Hstay.
    + intros c Hc Hcid. exfalso. now apply (Hkept c).
  - cbn [Frontend.conversations Frontend.activeConversationId].
    split; [| split; [| split]].
    + now apply filter_keeps_other.
    + intros Hnil.
      pose proof (filter_keeps_other id (Frontend.conversations p) _ Hne Hact) as Hin.
      fold keep in Hin. now rewrite Hnil in Hin.
    + exact Hstay.
    + intros c Hc Hcid. exfalso. now apply (Hkept c).
Qed.

Lemma delete_keeps_the_page_consistent_witness :
  Frontend.conversations (Frontend.handleDeleteConversation "1" Frontend.initialPage)
  = [Frontend.mkConversation "empty" "New Conversation" []]
  /\ Frontend.activeListed (Frontend.handleDeleteConversation "1" Frontend.initialPage).
Proof.
  split; [reflexivity |].
  apply (delete_keeps_the_page_consistent "1" Frontend.initialPage).
  unfold Frontend.activeListed. cbn. now left.
Defined.




Lemma wiql_declared_by_query_only n : In "wiql" (declaredOf n) -> n = "query_work_items".
Proof.
  unfold declaredOf, findTool.
  destruct (find (fun t => String.eqb (name t) n) tools) as [t |] eqn:Hf; [| cbn; tauto].
  apply find_some in Hf as [Hin Heq]. apply String.eqb_eq in Heq. subst n.
  unfold tools in Hin. cbn [In] in Hin.
  repeat (destruct Hin as [<- | Hin];
          [ cbn; intros H;
            first [ reflexivity
                  | exfalso; repeat (destruct H as [H | H]; [discriminate H |]); exact H ]
          | ]).
  contradiction.
Qed.

(** X20. What a tool selected on the page receives.  Text submitted through
    the input box is never blank, and with a tool selected
    [handleSendMessage] posts it to /api/tools/<tool> as the single argument
    [wiql].  For every tool other than query_work_items the server ignores
    that argument: [POST /api/tools/:name] answers exactly as it does for
    the empty body, so from the page such a tool is always invoked without
    arguments. *)
Theorem selected_tool_receives_the_text_as_wiql
  (apiUrl : string) (post : string -> JS -> Frontend.HttpOutcome)
  (tConversation tUser tAssistant tError : Z) (typed content : string) (disabled : bool)
  (p : Frontend.Page) (n : string) :
  Frontend.handleSubmit typed disabled = Some content ->
  Frontend.selectedTool p = Some n -> n <> "" ->
  snd (Frontend.handleSendMessage apiUrl post tConversation tUser tAssistant tError content p)
  = Some (apiUrl ++ "/api/tools/" ++ n, JObj [("wiql", JStr content)])
  /\ (n <> "query_work_items" ->
      forall c be tr,
        apiTools c n (JObj [("wiql", JStr content)]) be tr = apiTools c n (JObj []) be tr).
Proof.
  intros Hsub Hsel Hn.
  assert (Hcontent : truthy (JStr content) = true).
  { unfold Frontend.handleSubmit in Hsub.
    destruct (Frontend.isBlank typed) eqn:Hb; [discriminate |].
    destruct disabled; [discriminate |]. injection Hsub as <-.
    destruct typed; [discriminate | reflexivity]. }
  assert (Htool : truthy (JStr n) = true).
  { cbn. now destruct (String.eqb_spec n ""). }
  split.
  - unfold Frontend.handleSendMessage, Frontend.toolBody. rewrite Hsel.
    cbn [Frontend.toolValue]. rewrite Htool, Hcontent. rewrite andb_false_r.
    destruct (Frontend.activeConversation p); reflexivity.
  - intros Hq c be tr.
    apply (api_sites_read_declared c n (JObj [("wiql", JStr content)]) (JObj []) be tr);
      try reflexivity.
    intros k Hk. cbn.
    destruct (String.eqb_spec k "wiql") as [-> | Hne]; [| reflexivity].
    elim Hq. now apply wiql_declared_by_query_only.
Qed.

Lemma selected_tool_receives_the_text_as_wiql_witness :
  snd (Frontend.handleSendMessage "http://localhost:3001"
         (fun _ _ => Frontend.Answered (JObj [("result", JStr "No branches found.")]))
         1 2 3 4 "main" branchesSelected)
  = Some ("http://localhost:3001" ++ "/api/tools/" ++ "list_branches",
          JObj [("wiql", JStr "main")])
  /\ ("list_branches" <> "query_work_items" ->
      forall c be tr,
        apiTools c "list_branches" (JObj [("wiql", JStr "main")]) be tr
        = apiTools c "list_branches" (JObj []) be tr).
Proof.
  apply (selected_tool_receives_the_text_as_wiql "http://localhost:3001"
           (fun _ _ => Frontend.Answered (JObj [("result", JStr "No branches found.")]))
           1 2 3 4 "main" "main" false branchesSelected "list_branches").
  - reflexivity.
  - reflexivity.
  - discriminate.
Defined.

(** ** Declared defaults *)

Lemma oget_present v k : nullish v = false -> oget v k = prop v k.
Proof. intros H. unfold oget. now rewrite H. Qed.

Ltac other_args Hother a :=
  repeat match goal with
         | |- context [prop a ?k] =>
             rewrite (Hother k ltac:(declared) ltac:(discriminate))
         end.

Ltac default_case Hin N1 N2 H1 H2 Hother a1 a2 :=
  vm_compute in Hin;
  repeat (destruct Hin as [Heq | Hin];
          [ injection Heq as <- <-;
            rewrite ?(oget_present a1 _ N1), ?(oget_present a2 _ N2),
                    ?(get_present a1 _ N1), ?(get_present a2 _ N2);
            rewrite ?H1, ?H2; other_args Hother a1; reflexivity
          | ]);
  contradiction.

Lemma mcp_case_defaults c n p d args1 args2 k :
  In (p, d) (defaultsOf n) ->
  nullish args1 = false -> nullish args2 = false ->
  prop args1 p = JUndef -> prop args2 p = d ->
  (forall q, In q (declaredOf n) -> q <> p -> prop args1 q = prop args2 q) ->
  In (n, k) Mcp.cases -> k c args1 = k c args2.
Proof.
  intros Hd N1 N2 H1 H2 Hother Hin. unfold Mcp.cases in Hin. cbn [In] in Hin.
  repeat (destruct Hin as [Hk | Hin];
          [ injection Hk as <- <-;
            unfold Mcp.get_builds, Mcp.get_releases, Mcp.list_pull_requests,
              Mcp.search_code, Mcp.search_work_items, Mcp.get_wiki_page, Mcp.list_commits;
            cbv zeta;
            default_case Hd N1 N2 H1 H2 Hother args1 args2
          | ]).
  contradiction.
Qed.

Lemma api_case_defaults site c n p d args1 args2 k :
  In (p, d) (defaultsOf n) ->
  nullish args1 = false -> nullish args2 = false ->
  prop args1 p = JUndef -> prop args2 p = d ->
  (forall q, In q (declaredOf n) -> q <> p -> prop args1 q = prop args2 q) ->
  In (n, k) (Api.cases site) ->
  k c args1 = k c args2
  /\ forall rawResult, Api.format site n rawResult args1 = Api.format site n rawResult args2.
Proof.
  intros Hd N1 N2 H1 H2 Hother Hin. unfold Api.cases in Hin. cbn [In] in Hin.
  repeat (destruct Hin as [Hk | Hin];
          [ injection Hk as <- <-; split;
            [ unfold Api.update_work_item, Api.arg
            | intros rawResult; unfold Api.format;
              cbn [switch Api.templates String.eqb Ascii.eqb Bool.eqb];
              unfold Api.format_get_wiki_page ];
            default_case Hd N1 N2 H1 H2 Hother args1 args2
          | ]).
  contradiction.
Qed.

(** X21. The defaults declared in the registry are the ones applied.  When
    a tool's input schema declares a default for a parameter (top of
    get_builds, get_releases, list_pull_requests, search_code,
    search_work_items and list_commits, status of list_pull_requests, path
    of get_wiki_page), leaving that argument out is the same as passing the
    declared default: at each of the three call sites both invocations make
    the same requests and return the same result. *)
Theorem declared_defaults_are_applied
  (c : Client) (n p : string) (d args1 args2 : JS) (be : Backend) (tr : list Request) :
  In (p, d) (defaultsOf n) ->
  nullish args1 = false -> nullish args2 = false ->
  prop args1 p = JUndef -> prop args2 p = d ->
  (forall q, In q (declaredOf n) -> q <> p -> prop args1 q = prop args2 q) ->
  callTool c n args1 be tr = callTool c n args2 be tr
  /\ apiTools c n args1 be tr = apiTools c n args2 be tr
  /\ chatFunctionCall c (JStr n) args1 be tr = chatFunctionCall c (JStr n) args2 be tr.
Proof.
  intros Hd N1 N2 H1 H2 Hother. split.
  - unfold callTool, dispatch.
    destruct (switch Mcp.cases n) as [k |] eqn:Hs; [| reflexivity].
    now rewrite (mcp_case_defaults c n p d args1 args2 k Hd N1 N2 H1 H2 Hother
                   (switch_Some_In _ _ _ Hs)).
  - apply api_sites_same. intros site k Hin.
    now apply (api_case_defaults site c n p d).
Qed.

Lemma declared_defaults_are_applied_witness :
  callTool demoClient "list_pull_requests" (JObj [("top", JNum 5)]) emptyValueBackend []
  = callTool demoClient "list_pull_requests"
      (JObj [("top", JNum 5); ("status", JStr "active")]) emptyValueBackend []
  /\ apiTools demoClient "list_pull_requests" (JObj [("top", JNum 5)]) emptyValueBackend []
     = apiTools demoClient "list_pull_requests"
         (JObj [("top", JNum 5); ("status", JStr "active")]) emptyValueBackend []
  /\ chatFunctionCall demoClient (JStr "list_pull_requests") (JObj [("top", JNum 5)])
       emptyValueBackend []
     = chatFunctionCall demoClient (JStr "list_pull_requests")
         (JObj [("top", JNum 5); ("status", JStr "active")]) emptyValueBackend [].
Proof.
  apply (declared_defaults_are_applied demoClient "list_pull_requests" "status"
           (JStr "active") (JObj [("top", JNum 5)])
           (JObj [("top", JNum 5); ("status", JStr "active")]) emptyValueBackend []).
  - vm_compute. tauto.
  - reflexivity.
  - reflexivity.
  - reflexivity.
  - reflexivity.
  - intros q Hq Hne. vm_compute in Hq.
    repeat (destruct Hq as [<- | Hq]; [first [reflexivity | now elim Hne] |]).
    contradiction.
Defined.

(** * Further properties of the Backend Client and its callers *)

(** ** Updating a work item without fields *)

(** X22. update_work_item without a [fields] argument is treated in three
    ways.  The CallTool handler rejects it ("id and fields are required")
    and [POST /api/tools/:name] answers 500, the Backend Client having
    thrown on the missing object; neither makes a request.  The chat
    endpoint replaces the missing fields by the empty object and does send
    the PATCH: its document is empty, or holds the comment alone. *)
Theorem update_without_fields
  (c : Client) (args : JS) (be : Backend) (tr : list Request) :
  nullish args = false -> nullish (prop args "fields") = true ->
  callTool c "update_work_item" args be tr
  = (Ok (mkResult "Error: id and fields are required" true), tr)
  /\ apiTools c "update_work_item" args be tr
     = (Ok (mkResponse 500 (errorBody "Cannot convert undefined or null to object")), tr)
  /\ calls (chatFunctionCall c (JStr "update_work_item") args be tr)
     = (tr ++ [updateRequest c (prop args "id")
                 (if truthy (prop args "comment")
                  then [patchOp "System.History" (prop args "comment")]
                  else [])])%list.
Proof.
  intros Ha Hf.
  assert (Hfalsy : truthy (prop args "fields") = false).
  { destruct (prop args "fields"); try discriminate; reflexivity. }
  split; [| split].
  - unfold callTool, tryCatch, dispatch.
    cbn [switch Mcp.cases String.eqb Ascii.eqb Bool.eqb].
    unfold Mcp.update_work_item. cbv zeta.
    rewrite !(oget_present args _ Ha), Hfalsy, orb_true_r. reflexivity.
  - unfold apiTools, tryCatch, apiToolsBody.
    change (findTool "update_work_item")
      with (Some (mkTool "update_work_item"
                    [P "id" "number"; P "fields" "object"; P "comment" "string"]
                    ["id"; "fields"])).
    cbn [switch Api.cases String.eqb Ascii.eqb Bool.eqb].
    unfold Api.update_work_item, Api.arg. rewrite !(get_present args _ Ha).
    unfold updateWorkItem, bind, lift.
    destruct (prop args "fields"); try discriminate; reflexivity.
  - unfold chatFunctionCall.
    cbn [switch Api.cases String.eqb Ascii.eqb Bool.eqb].
    rewrite calls_bind_silent
      by (intros raw be' tr'; unfold bind, lift;
          now destruct (Api.format ApiChat "update_work_item" raw args)).
    unfold Api.update_work_item, Api.arg. rewrite !(get_present args _ Ha).
    unfold orElse, rmap, rbind, oror. rewrite Hfalsy.
    unfold updateWorkItem, ipatch, updateRequest, bind, lift, calls. cbn.
    destruct (truthy (prop args "comment")); reflexivity.
Qed.

Lemma update_without_fields_witness :
  callTool demoClient "update_work_item" noFieldsArgs echo5Backend []
  = (Ok (mkResult "Error: id and fields are required" true), [])
  /\ apiTools demoClient "update_work_item" noFieldsArgs echo5Backend []
     = (Ok (mkResponse 500 (errorBody "Cannot convert undefined or null to object")), [])
  /\ calls (chatFunctionCall demoClient (JStr "update_work_item") noFieldsArgs echo5Backend [])
     = ([] ++ [updateRequest demoClient (prop noFieldsArgs "id")
                 (if truthy (prop noFieldsArgs "comment")
                  then [patchOp "System.History" (prop noFieldsArgs "comment")]
                  else [])])%list.
Proof.
  apply (update_without_fields demoClient noFieldsArgs echo5Backend []); reflexivity.
Defined.

(** ** Branch names *)








(** ** Encoded paths *)




